(** * The caching service workers of the Ravan Fashion theme

    A shallow embedding of [assets/optimized/service-worker-optimized.js]
    (class [OptimizedServiceWorker]) and of
    [assets/ravan-fashion-service-worker.js] (the earlier worker made of
    top-level listeners), with the properties of their request
    dispatchers, install/activate lifecycle and message handler.

    Modelling choices, shared by both workers:
    - a named cache is a finite map from request URL to response snapshot;
      cache storage is the list of named caches in creation order (the
      order [caches.keys()] and [caches.match] enumerate them in);
    - the network is an oracle: the [i]-th [fetch] call of a run, for URL
      [u], settles as [net i u] (a rejection or a response);
    - [cache.put] may reject (quota, unsupported request): an oracle
      [put_rejects] says when; [caches.open], [cache.match], [cache.keys]
      and [caches.delete] always settle successfully;
    - an [async] function is a computation over the worker's world that
      either resolves with a value or rejects with an exception;
    - work that the source starts without awaiting it is queued in the
      world as a pending task, carrying the settlement of the fetch it
      issued; [run_pending] lets the queue run to completion. *)

From Stdlib Require Import ZArith Ascii String.
From stdpp Require Import gmap strings list fin_maps.

Open Scope string_scope.
Open Scope Z_scope.
Open Scope list_scope.

(** ** Strings as the JavaScript [String] methods use them *)

Module Js.

(** [s.startsWith(p)] *)
Definition startsWith (s p : string) : bool := String.prefix p s.

(** [s.includes(sub)] *)
Fixpoint includes (s sub : string) : bool :=
  if String.prefix sub s then true
  else match s with
       | EmptyString => false
       | String _ s' => includes s' sub
       end.

(** [s.endsWith(suf)] *)
Fixpoint endsWith (s suf : string) : bool :=
  if String.eqb s suf then true
  else match s with
       | EmptyString => false
       | String _ s' => endsWith s' suf
       end.

Definition lower_ascii (a : ascii) : ascii :=
  let n := N_of_ascii a in
  if ((65 <=? n) && (n <=? 90))%N then ascii_of_N (n + 32) else a.

(** [s.toLowerCase()] on the ASCII range (a URL path is ASCII) *)
Fixpoint toLowerCase (s : string) : string :=
  match s with
  | EmptyString => EmptyString
  | String a s' => String (lower_ascii a) (toLowerCase s')
  end.

(** [xs.some(p)] *)
Definition some {A} (p : A -> bool) (xs : list A) : bool := existsb p xs.

(** [xs.includes(x)] on an array of strings *)
Definition array_includes (xs : list string) (x : string) : bool :=
  existsb (String.eqb x) xs.

(** A string-typed argument that may be [undefined] is converted with
    [String(undefined)]. *)
Definition to_string (o : option string) : string :=
  match o with Some s => s | None => "undefined" end.

(** The double quote character, as a string. *)
Definition dquote : string := String (ascii_of_nat 34) EmptyString.

End Js.

(** ** Requests and responses *)

(** Header lists; names are kept lower-case as the Fetch API does. *)
Definition Headers := list (string * string).

Fixpoint headers_get (name : string) (hs : Headers) : option string :=
  match hs with
  | [] => None
  | (k, v) :: hs' => if String.eqb k name then Some v else headers_get name hs'
  end.

(** The parts of [new URL(request.url)] the workers read. *)
Record URL := mkURL {
  pathname : string;
  hostname : string;
  searchParams : list (string * string)
}.

Definition searchParams_has (u : URL) (k : string) : bool :=
  existsb (fun kv => String.eqb (fst kv) k) (searchParams u).

Record Request := mkRequest {
  url : string;               (* request.url *)
  parsed : URL;               (* new URL(request.url) *)
  mode : string;              (* request.mode *)
  req_headers : Headers       (* request.headers *)
}.

Record Response := mkResponse {
  status : Z;
  resp_url : string;          (* response.url *)
  resp_headers : Headers;
  body : string
}.

(** [response.ok] *)
Definition ok (r : Response) : bool := (200 <=? status r) && (status r <=? 299).

(** ** Cache storage *)

Abbreviation Cache := (gmap string Response).

(** Named caches in creation order. *)
Definition CacheStorage := list (string * Cache).

Fixpoint cs_lookup (name : string) (cs : CacheStorage) : option Cache :=
  match cs with
  | [] => None
  | (n, c) :: cs' => if String.eqb n name then Some c else cs_lookup name cs'
  end.

(** [caches.has(name)] *)
Definition cs_has (name : string) (cs : CacheStorage) : bool :=
  match cs_lookup name cs with Some _ => true | None => false end.

(** [caches.keys()] *)
Definition cs_keys (cs : CacheStorage) : list string := map fst cs.

(** [caches.open(name)]: the cache is created, empty, when it is new. *)
Definition cs_open (name : string) (cs : CacheStorage) : CacheStorage :=
  if cs_has name cs then cs else cs ++ [(name, ∅)].

(** [caches.delete(name)] *)
Fixpoint cs_delete (name : string) (cs : CacheStorage) : CacheStorage :=
  match cs with
  | [] => []
  | (n, c) :: cs' =>
      if String.eqb n name then cs_delete name cs' else (n, c) :: cs_delete name cs'
  end.

(** [caches.delete] of each name in turn. *)
Definition cs_delete_all (names : list string) (cs : CacheStorage) : CacheStorage :=
  fold_left (fun cs name => cs_delete name cs) names cs.

(** The entry stored under [u] in the cache [name], if both exist. *)
Definition cs_entry (name u : string) (cs : CacheStorage) : option Response :=
  match cs_lookup name cs with
  | Some c => c !! u
  | None => None
  end.

(** Replace the content of the cache [name] by [f] of it. *)
Fixpoint cs_update (name : string) (f : Cache -> Cache) (cs : CacheStorage)
  : CacheStorage :=
  match cs with
  | [] => []
  | (n, c) :: cs' =>
      if String.eqb n name then (n, f c) :: cs' else (n, c) :: cs_update name f cs'
  end.

(** [caches.match(u)]: the first cache, in creation order, with an entry. *)
Fixpoint cs_match_any (u : string) (cs : CacheStorage) : option Response :=
  match cs with
  | [] => None
  | (_, c) :: cs' =>
      match c !! u with
      | Some r => Some r
      | None => cs_match_any u cs'
      end
  end.

(** ** The worker's world *)

(** How a [fetch] settles. *)
Inductive NetResult :=
  | NetReject
  | NetResp (r : Response).

(** Exceptions a promise can reject with. *)
Inductive Exn :=
  | NetworkError     (* fetch rejected *)
  | StorageError     (* cache.put rejected *)
  | TypeError.       (* property read on undefined or null; addAll of a bad response *)

(** Work started without being awaited. *)
Inductive Task :=
  | TUpdateCache (u cacheName : string) (settled : NetResult)
      (* OptimizedServiceWorker.updateCache after its fetch was issued *)
  | TRevalidate (u cacheName : string) (cached : option Response) (settled : NetResult)
      (* the fetchPromise of staleWhileRevalidate *)
  | TLegacyRevalidate (u cacheName : string) (settled : NetResult)
      (* fetch(request).then(...) of the earlier worker, no catch *)
  | TLegacyPut (u cacheName : string) (r : Response).
      (* a cache.put that is not awaited *)

Definition Stats := list (string * (nat * nat)).

(** Observable effects, in order. *)
Inductive Event :=
  | EFetch (u : string)
  | ELog (msg : string)
  | EWarn (msg : string)
  | ESkipWaiting
  | EClaim
  | EPost (port : nat) (stats : Stats)
  | EUnhandled (e : Exn).     (* an unhandled promise rejection *)

Record World := mkWorld {
  caches : CacheStorage;
  trace : list Event;
  pending : list Task
}.

(** The URLs fetched so far, in order. *)
Fixpoint fetched (t : list Event) : list string :=
  match t with
  | [] => []
  | EFetch u :: t' => u :: fetched t'
  | _ :: t' => fetched t'
  end.

(** Number of [fetch] calls issued so far. *)
Definition fetch_count (t : list Event) : nat := length (fetched t).

(** What the worker cannot control. *)
Record Env := mkEnv {
  now : Z;                                         (* new Date(), in ms *)
  net : nat -> string -> NetResult;                (* settlement of the i-th fetch *)
  put_rejects : string -> string -> Response -> bool;  (* cache, url, response *)
  Date_parse : string -> option Z                  (* new Date(s); None is Invalid Date *)
}.

(** ** Promise-returning computations *)

Inductive Res (A : Type) :=
  | Resolved (a : A)
  | Rejected (e : Exn).
Arguments Resolved {A} a.
Arguments Rejected {A} e.

Definition M (A : Type) := World -> Res A * World.

Definition ret {A} (a : A) : M A := fun w => (Resolved a, w).

Definition bind {A B} (m : M A) (f : A -> M B) : M B :=
  fun w => match m w with
           | (Resolved a, w') => f a w'
           | (Rejected e, w') => (Rejected e, w')
           end.

Definition throw {A} (e : Exn) : M A := fun w => (Rejected e, w).

(** [try { m } catch (e) { h e }] *)
Definition try_catch {A} (m : M A) (h : Exn -> M A) : M A :=
  fun w => match m w with
           | (Resolved a, w') => (Resolved a, w')
           | (Rejected e, w') => h e w'
           end.

Notation "'let*' x := m 'in' k" := (bind m (fun x => k))
  (at level 10, x binder, m at level 200, k at level 200).
Notation "'do*' m 'in' k" := (bind m (fun _ => k))
  (at level 10, m at level 200, k at level 200).

Definition emit (e : Event) : M unit :=
  fun w => (Resolved tt, mkWorld (caches w) (trace w ++ [e]) (pending w)).

Definition spawn (t : Task) : M unit :=
  fun w => (Resolved tt, mkWorld (caches w) (trace w) (pending w ++ [t])).

Definition console_log (msg : string) : M unit := emit (ELog msg).
Definition console_warn (msg : string) : M unit := emit (EWarn msg).

(** [for (const x of xs) { body x }] *)
Fixpoint for_of {A} (xs : list A) (body : A -> M unit) : M unit :=
  match xs with
  | [] => ret tt
  | x :: xs' => do* body x in for_of xs' body
  end.

Section Platform.

Context (env : Env).

(** Calling [fetch(u)]: the call is logged and its settlement is fixed. *)
Definition issue_fetch (u : string) : World -> NetResult * World :=
  fun w => (net env (fetch_count (trace w)) u,
            mkWorld (caches w) (trace w ++ [EFetch u]) (pending w)).

(** [await fetch(u)] *)
Definition fetch_ (u : string) : M Response :=
  fun w => match issue_fetch u w with
           | (NetResp r, w') => (Resolved r, w')
           | (NetReject, w') => (Rejected NetworkError, w')
           end.

(** [await caches.open(name)]; the handle is the name. *)
Definition caches_open (name : string) : M unit :=
  fun w => (Resolved tt, mkWorld (cs_open name (caches w)) (trace w) (pending w)).

(** [await cache.match(u)] on the cache opened as [name] *)
Definition cache_match (name u : string) : M (option Response) :=
  fun w => (Resolved (cs_entry name u (caches w)), w).

(** [await cache.put(u, r)] *)
Definition cache_put (name u : string) (r : Response) : M unit :=
  fun w => if put_rejects env name u r then (Rejected StorageError, w)
           else (Resolved tt,
                 mkWorld (cs_update name (insert u r) (caches w)) (trace w) (pending w)).

(** [await caches.delete(name)] *)
Definition caches_delete (name : string) : M unit :=
  fun w => (Resolved tt, mkWorld (cs_delete name (caches w)) (trace w) (pending w)).

(** [await caches.keys()] *)
Definition caches_keys : M (list string) :=
  fun w => (Resolved (cs_keys (caches w)), w).

(** [await cache.keys()] *)
Definition cache_keys (name : string) : M (list string) :=
  fun w => (Resolved (match cs_lookup name (caches w) with
                      | Some c => (map fst (map_to_list c))
                      | None => []
                      end), w).

(** [await caches.match(u)] over all caches *)
Definition caches_match (u : string) : M (option Response) :=
  fun w => (Resolved (cs_match_any u (caches w)), w).

(** [await cache.addAll(urls)]: every URL is fetched; the entries are
    stored together, and only when every response is ok. *)
Fixpoint fetch_all (urls : list string) : World -> list NetResult * World :=
  fun w => match urls with
           | [] => ([], w)
           | u :: us =>
               let '(r, w1) := issue_fetch u w in
               let '(rs, w2) := fetch_all us w1 in
               (r :: rs, w2)
           end.

Fixpoint all_ok (rs : list NetResult) : option (list Response) :=
  match rs with
  | [] => Some []
  | NetResp r :: rs' =>
      if ok r then match all_ok rs' with
                   | Some l => Some (r :: l)
                   | None => None
                   end
      else None
  | NetReject :: _ => None
  end.

Fixpoint put_all (entries : list (string * Response)) (c : Cache) : Cache :=
  match entries with
  | [] => c
  | (u, r) :: es => put_all es (<[u := r]> c)
  end.

Definition cache_addAll (name : string) (urls : list string) : M unit :=
  fun w =>
    let '(rs, w1) := fetch_all urls w in
    match all_ok rs with
    | None => (Rejected TypeError, w1)
    | Some resps =>
        let entries := combine urls resps in
        if existsb (fun e => put_rejects env name (fst e) (snd e)) entries
        then (Rejected StorageError, w1)
        else (Resolved tt,
              mkWorld (cs_update name (put_all entries) (caches w1))
                      (trace w1) (pending w1))
    end.

(** [await cache.add(u)] *)
Definition cache_add (name u : string) : M unit := cache_addAll name [u].

End Platform.

(** ** Message events *)

(** A member of the [data] object: missing ([undefined]), [null], or a
    value, which the platform calls read through its string conversion. *)
Inductive JsMember :=
  | Undefined
  | Null
  | Str (s : string).

(** A member passed as an argument: [undefined] stays [undefined] (a
    default parameter applies to it), [null] is read as the string
    [null]. *)
Definition member_arg (m : JsMember) : option string :=
  match m with
  | Undefined => None
  | Null => Some "null"
  | Str s => Some s
  end.

(** The [data] member of a control message. *)
Record MsgData := mkMsgData {
  msg_url : JsMember;
  msg_cacheName : JsMember
}.

(** [event.data]: [null] or [undefined], or a value whose [type] and [data]
    members can be read ([None] stands for a member that is [undefined] or
    [null]; a [type] that is not a string is none of the known types). *)
Inductive EventData :=
  | DataNullish
  | DataObject (type : option string) (data : option MsgData).

Record MessageEvent := mkMessageEvent {
  ev_data : EventData;
  ev_ports : list nat          (* event.ports, as port identifiers *)
}.

(** ** [service-worker-optimized.js] *)

Module Optimized.

(** [RAVAN_FASHION_CACHE] *)
Definition RAVAN_FASHION_CACHE_STATIC := "ravan-fashion-static-v1".
Definition RAVAN_FASHION_CACHE_IMAGES := "ravan-fashion-images-v1".
Definition RAVAN_FASHION_CACHE_PAGES := "ravan-fashion-pages-v1".
Definition RAVAN_FASHION_CACHE_API := "ravan-fashion-api-v1".
Definition RAVAN_FASHION_CACHE_RUNTIME := "ravan-fashion-runtime-v1".

(** [Object.values(RAVAN_FASHION_CACHE)] *)
Definition RAVAN_FASHION_CACHE_values : list string :=
  [RAVAN_FASHION_CACHE_STATIC; RAVAN_FASHION_CACHE_IMAGES;
   RAVAN_FASHION_CACHE_PAGES; RAVAN_FASHION_CACHE_API;
   RAVAN_FASHION_CACHE_RUNTIME].

(** [CACHE_EXPIRY], in milliseconds *)
Definition CACHE_EXPIRY_STATIC : Z := 7 * 24 * 60 * 60 * 1000.
Definition CACHE_EXPIRY_IMAGES : Z := 30 * 24 * 60 * 60 * 1000.
Definition CACHE_EXPIRY_PAGES : Z := 24 * 60 * 60 * 1000.
Definition CACHE_EXPIRY_API : Z := 60 * 60 * 1000.
Definition CACHE_EXPIRY_RUNTIME : Z := 60 * 60 * 1000.

(** [getPrecacheUrls()] *)
Definition getPrecacheUrls : list string :=
  ["/assets/optimized/ravan-fashion-critical.css";
   "/assets/optimized/resource-loader-optimized.js";
   "/assets/optimized/image-loader-optimized.js";
   "https://fonts.gstatic.com/s/notosanstamil/v15/nEKhbZ7WJw0q8sY7zBm2m3q0uA.woff2";
   "/assets/placeholder.svg";
   "/offline.html"].

(** The five resource classes of the dispatcher. *)
Inductive ResourceClass := Static | Image | Api | Page | Runtime.

(** [isStaticAsset(request)] *)
Definition isStaticAsset (request : Request) : bool :=
  let staticExtensions := [".css"; ".js"; ".woff"; ".woff2"; ".ttf"; ".eot"] in
  let pathname := Js.toLowerCase (pathname (parsed request)) in
  Js.some (fun ext => Js.endsWith pathname ext) staticExtensions
  || Js.includes pathname "assets/optimized/".

(** [isImageRequest(request)] *)
Definition isImageRequest (request : Request) : bool :=
  let imageExtensions := [".jpg"; ".jpeg"; ".png"; ".gif"; ".webp"; ".svg"] in
  let pathname := Js.toLowerCase (pathname (parsed request)) in
  Js.some (fun ext => Js.endsWith pathname ext) imageExtensions
  || searchParams_has (parsed request) "width"
  || searchParams_has (parsed request) "height".

(** [isAPIRequest(request)] *)
Definition isAPIRequest (request : Request) : bool :=
  let p := pathname (parsed request) in
  Js.includes p "/api/" || Js.includes p "/cart/" || Js.includes p "/search".

(** [isPageRequest(request)]; the optional chain on a missing accept
    header gives [undefined], which is falsy. *)
Definition isPageRequest (request : Request) : bool :=
  String.eqb (mode request) "navigate"
  || match headers_get "accept" (req_headers request) with
     | Some a => Js.includes a "text/html"
     | None => false
     end.

(** The branch [fetch(event)] takes. *)
Definition classify (request : Request) : ResourceClass :=
  if isStaticAsset request then Static
  else if isImageRequest request then Image
  else if isAPIRequest request then Api
  else if isPageRequest request then Page
  else Runtime.

(** A comparison [age > limit] where [age] may be [NaN]. *)
Definition js_gt (age : option Z) (limit : Z) : bool :=
  match age with
  | Some a => a >? limit
  | None => false
  end.

Section Worker.

Context (env : Env).

(** [isCacheExpired(response)] *)
Definition isCacheExpired (response : Response) : bool :=
  match headers_get "date" (resp_headers response) with
  | None => false
  | Some dateHeader =>
      if String.eqb dateHeader "" then false
      else
        let cachedDate := Date_parse env dateHeader in
        let age := option_map (fun d => now env - d) cachedDate in
        if Js.includes (resp_url response) "static" then js_gt age CACHE_EXPIRY_STATIC
        else if Js.includes (resp_url response) "images" then js_gt age CACHE_EXPIRY_IMAGES
        else if Js.includes (resp_url response) "pages" then js_gt age CACHE_EXPIRY_PAGES
        else if Js.includes (resp_url response) "api" then js_gt age CACHE_EXPIRY_API
        else js_gt age CACHE_EXPIRY_RUNTIME
  end.

(** [new Response('Offline', { status: 503, ... })] *)
Definition offline_503 : Response :=
  mkResponse 503 "" [("content-type", "text/plain")] "Offline".

(** [getOfflineResponse(request)]: a response, or [undefined] when the
    offline page is not in the static cache. *)
Definition getOfflineResponse (request : Request) : M (option Response) :=
  if String.eqb (mode request) "navigate" then
    do* caches_open RAVAN_FASHION_CACHE_STATIC in
    cache_match RAVAN_FASHION_CACHE_STATIC "/offline.html"
  else ret (Some offline_503).

(** [updateCache(request, cacheName)] from the point where its fetch has
    settled. *)
Definition updateCache_resume (u cacheName : string) (settled : NetResult) : M unit :=
  try_catch
    (match settled with
     | NetReject => throw NetworkError
     | NetResp network =>
         if ok network then
           do* caches_open cacheName in
           cache_put env cacheName u network
         else ret tt
     end)
    (fun error => console_warn "Background cache update failed:").

(** [this.updateCache(request, cacheName)] called without [await]: the
    fetch is issued, the rest is left pending. *)
Definition updateCache (request : Request) (cacheName : string) : M unit :=
  fun w =>
    let '(settled, w') := issue_fetch env (url request) w in
    spawn (TUpdateCache (url request) cacheName settled) w'.

(** [cacheFirst(request, cacheName)] *)
Definition cacheFirst (request : Request) (cacheName : string) : M (option Response) :=
  do* caches_open cacheName in
  let* cached := cache_match cacheName (url request) in
  match cached with
  | Some c =>
      do* (if isCacheExpired c then updateCache request cacheName else ret tt) in
      ret (Some c)
  | None =>
      try_catch
        (let* network := fetch_ env (url request) in
         do* (if ok network then cache_put env cacheName (url request) network
              else ret tt) in
         ret (Some network))
        (fun error =>
           do* console_warn
                 "Network request failed, returning cached or offline response:" in
           getOfflineResponse request)
  end.

(** [networkFirst(request, cacheName)] *)
Definition networkFirst (request : Request) (cacheName : string) : M (option Response) :=
  try_catch
    (let* network := fetch_ env (url request) in
     do* (if ok network then
            do* caches_open cacheName in
            cache_put env cacheName (url request) network
          else ret tt) in
     ret (Some network))
    (fun error =>
       do* console_warn "Network request failed, falling back to cache:" in
       do* caches_open cacheName in
       let* cached := cache_match cacheName (url request) in
       match cached with
       | Some c => ret (Some c)
       | None => getOfflineResponse request
       end).

(** The [fetchPromise] of [staleWhileRevalidate] from the point where the
    fetch has settled: [.then(...)] followed by [.catch(() => cached)]. *)
Definition fetchPromise_resume (u cacheName : string) (cached : option Response)
    (settled : NetResult) : M (option Response) :=
  try_catch
    (match settled with
     | NetReject => throw NetworkError
     | NetResp network =>
         do* (if ok network then cache_put env cacheName u network else ret tt) in
         ret (Some network)
     end)
    (fun _ => ret cached).

(** [staleWhileRevalidate(request, cacheName)]: [cached || fetchPromise]
    resolves with the cached response without waiting, or else with
    whatever [fetchPromise] resolves with. *)
Definition staleWhileRevalidate (request : Request) (cacheName : string)
  : M (option Response) :=
  do* caches_open cacheName in
  let* cached := cache_match cacheName (url request) in
  fun w =>
    let '(settled, w') := issue_fetch env (url request) w in
    match cached with
    | Some c =>
        (do* spawn (TRevalidate (url request) cacheName cached settled) in
         ret (Some c)) w'
    | None => fetchPromise_resume (url request) cacheName cached settled w'
    end.

Definition handleStaticAsset (request : Request) :=
  cacheFirst request RAVAN_FASHION_CACHE_STATIC.
Definition handleImageRequest (request : Request) :=
  cacheFirst request RAVAN_FASHION_CACHE_IMAGES.
Definition handleAPIRequest (request : Request) :=
  networkFirst request RAVAN_FASHION_CACHE_API.
Definition handlePageRequest (request : Request) :=
  staleWhileRevalidate request RAVAN_FASHION_CACHE_PAGES.
Definition handleGenericRequest (request : Request) :=
  networkFirst request RAVAN_FASHION_CACHE_RUNTIME.

(** [fetch(event)], the promise handed to [event.respondWith] *)
Definition fetch (request : Request) : M (option Response) :=
  if isStaticAsset request then handleStaticAsset request
  else if isImageRequest request then handleImageRequest request
  else if isAPIRequest request then handleAPIRequest request
  else if isPageRequest request then handlePageRequest request
  else handleGenericRequest request.

(** *** Install and activate *)

(** [precacheCriticalResources()], over the manifest [this.precacheUrls] *)
Definition precacheCriticalResources (precacheUrls : list string) : M unit :=
  do* caches_open RAVAN_FASHION_CACHE_STATIC in
  try_catch
    (do* cache_addAll env RAVAN_FASHION_CACHE_STATIC precacheUrls in
     console_log "Critical resources precached successfully")
    (fun error =>
       do* console_warn "Failed to precache some resources:" in
       for_of precacheUrls (fun u =>
         try_catch
           (cache_add env RAVAN_FASHION_CACHE_STATIC u)
           (fun err => console_warn ("Failed to cache " +:+ u +:+ ":")))).

(** [install(event)]; the promise the event waits for is the precaching.
    [self.skipWaiting()] is called while the precaching is in flight. *)
Definition install (precacheUrls : list string) : M unit :=
  do* console_log "Service Worker installing..." in
  do* emit ESkipWaiting in
  precacheCriticalResources precacheUrls.

(** [cleanupOldCaches()] *)
Definition cleanupOldCaches : M unit :=
  let* cacheNames := caches_keys in
  let currentCaches := RAVAN_FASHION_CACHE_values in
  for_of
    (List.filter (fun cacheName => negb (Js.array_includes currentCaches cacheName))
       cacheNames)
    caches_delete.

(** [activate(event)]; [self.clients.claim()] is called while the cleanup
    the event waits for is in flight. *)
Definition activate : M unit :=
  do* console_log "Service Worker activating..." in
  do* emit EClaim in
  cleanupOldCaches.

(** *** Messages from clients *)

(** [cacheUrl(url, cacheName = RAVAN_FASHION_CACHE.STATIC)] *)
Definition cacheUrl (u : option string) (cacheName : option string) : M unit :=
  let cacheName := default RAVAN_FASHION_CACHE_STATIC cacheName in
  let u := Js.to_string u in
  try_catch
    (do* caches_open cacheName in
     let* response := fetch_ env u in
     if ok response then
       do* cache_put env cacheName u response in
       console_log "URL cached successfully:"
     else ret tt)
    (fun error => console_warn "Failed to cache URL:").

(** [clearCache(cacheName)] *)
Definition clearCache (cacheName : option string) : M unit :=
  try_catch
    (do* caches_delete (Js.to_string cacheName) in
     console_log "Cache cleared:")
    (fun error => console_warn "Failed to clear cache:").

(** [calculateCacheSize(keys)], threading [totalSize]; the size of a blob
    is the length of the body. *)
Fixpoint calculateCacheSize (keys : list string) (totalSize : nat) : M nat :=
  match keys with
  | [] => ret totalSize
  | key :: keys' =>
      let* totalSize' :=
        try_catch
          (let* response := caches_match key in
           match response with
           | Some r => ret (totalSize + String.length (body r))%nat
           | None => ret totalSize
           end)
          (fun error =>
             do* console_warn "Failed to calculate size for:" in ret totalSize) in
      calculateCacheSize keys' totalSize'
  end.

(** [getCacheStats()], threading [stats] *)
Fixpoint getCacheStats_loop (names : list string) (stats : Stats) : M Stats :=
  match names with
  | [] => ret stats
  | cacheName :: names' =>
      let* entry :=
        try_catch
          (do* caches_open cacheName in
           let* keys := cache_keys cacheName in
           let* size := calculateCacheSize keys 0%nat in
           ret (cacheName, (length keys, size)))
          (fun error => ret (cacheName, (0%nat, 0%nat))) in
      getCacheStats_loop names' (stats ++ [entry])
  end.

Definition getCacheStats : M Stats :=
  getCacheStats_loop RAVAN_FASHION_CACHE_values [].

(** The stored data the sync steps read: placeholders in the source. *)
Definition getStoredCartData : M (option string) := ret None.
Definition getStoredPreferences : M (option string) := ret None.
Definition getStoredAnalytics : M (list string) := ret [].

(** [syncCart()] *)
Definition syncCart : M unit :=
  let* cartData := getStoredCartData in
  match cartData with
  | Some _ => let* _ := fetch_ env "/api/cart/sync" in ret tt
  | None => ret tt
  end.

(** [syncUserPreferences()] *)
Definition syncUserPreferences : M unit :=
  let* preferences := getStoredPreferences in
  match preferences with
  | Some _ => let* _ := fetch_ env "/api/preferences/sync" in ret tt
  | None => ret tt
  end.

(** [syncAnalytics()] *)
Definition syncAnalytics : M unit :=
  let* analyticsData := getStoredAnalytics in
  if (0 <? length analyticsData)%nat
  then let* _ := fetch_ env "/api/analytics/batch" in ret tt
  else ret tt.

(** [syncNow()] *)
Definition syncNow : M unit :=
  do* console_log "Starting background sync..." in
  try_catch
    (do* syncCart in
     do* syncUserPreferences in
     do* syncAnalytics in
     console_log "Background sync completed")
    (fun error => console_warn "Background sync failed:").

(** [message(event)] *)
Definition message (event : MessageEvent) : M unit :=
  match ev_data event with
  | DataNullish => throw TypeError
  | DataObject type data =>
      let type_is (s : string) :=
        match type with Some t => String.eqb t s | None => false end in
      if type_is "SKIP_WAITING" then emit ESkipWaiting
      else if type_is "CACHE_URL" then
        match data with
        | None => throw TypeError
        | Some d => cacheUrl (member_arg (msg_url d)) (member_arg (msg_cacheName d))
        end
      else if type_is "CLEAR_CACHE" then
        match data with
        | None => throw TypeError
        | Some d => clearCache (member_arg (msg_cacheName d))
        end
      else if type_is "GET_CACHE_STATS" then
        let* stats := getCacheStats in
        match ev_ports event with
        | [] => throw TypeError
        | port :: _ => emit (EPost port stats)
        end
      else if type_is "SYNC_NOW" then syncNow
      else console_warn "Unknown message type:"
  end.

(** [handleBackgroundSync(event)], by [event.tag] *)
Definition handleBackgroundSync (tag : string) : M unit :=
  if String.eqb tag "cart-sync" then syncCart
  else if String.eqb tag "analytics-sync" then syncAnalytics
  else ret tt.

End Worker.


(** *** The message operations over any platform

    The same operations with the platform calls they make taken from a
    record, so that each call may settle in any way, also by rejecting. *)

Record Platform := mkPlatform {
  p_open : string -> M unit;                        (* caches.open(name) *)
  p_delete : string -> M unit;                      (* caches.delete(name) *)
  p_fetch : string -> M Response;                   (* fetch(url) *)
  p_put : string -> string -> Response -> M unit;   (* cache.put(url, response) *)
  p_keys : string -> M (list string);               (* cache.keys() *)
  p_match : string -> M (option Response);          (* caches.match(key) *)
  p_blob_size : Response -> M nat                   (* (await response.blob()).size *)
}.

(** The platform of this development: only [fetch] and [cache.put] can
    reject. *)
Definition standard (env : Env) : Platform :=
  mkPlatform caches_open caches_delete (fetch_ env) (cache_put env) cache_keys
    caches_match (fun r => ret (String.length (body r))).

Section OverPlatform.

Context (P : Platform).

(** [cacheUrl(url, cacheName = RAVAN_FASHION_CACHE.STATIC)] *)
Definition cacheUrl_on (u : option string) (cacheName : option string) : M unit :=
  let cacheName := default RAVAN_FASHION_CACHE_STATIC cacheName in
  let u := Js.to_string u in
  try_catch
    (do* p_open P cacheName in
     let* response := p_fetch P u in
     if ok response then
       do* p_put P cacheName u response in
       console_log "URL cached successfully:"
     else ret tt)
    (fun error => console_warn "Failed to cache URL:").

(** [clearCache(cacheName)] *)
Definition clearCache_on (cacheName : option string) : M unit :=
  try_catch
    (do* p_delete P (Js.to_string cacheName) in
     console_log "Cache cleared:")
    (fun error => console_warn "Failed to clear cache:").

(** [calculateCacheSize(keys)], threading [totalSize] *)
Fixpoint calculateCacheSize_on (keys : list string) (totalSize : nat) : M nat :=
  match keys with
  | [] => ret totalSize
  | key :: keys' =>
      let* totalSize' :=
        try_catch
          (let* response := p_match P key in
           match response with
           | Some r =>
               let* size := p_blob_size P r in
               ret (totalSize + size)%nat
           | None => ret totalSize
           end)
          (fun error =>
             do* console_warn "Failed to calculate size for:" in ret totalSize) in
      calculateCacheSize_on keys' totalSize'
  end.

(** [getCacheStats()], threading [stats] *)
Fixpoint getCacheStats_loop_on (names : list string) (stats : Stats) : M Stats :=
  match names with
  | [] => ret stats
  | cacheName :: names' =>
      let* entry :=
        try_catch
          (do* p_open P cacheName in
           let* keys := p_keys P cacheName in
           let* size := calculateCacheSize_on keys 0%nat in
           ret (cacheName, (length keys, size)))
          (fun error => ret (cacheName, (0%nat, 0%nat))) in
      getCacheStats_loop_on names' (stats ++ [entry])
  end.

Definition getCacheStats_on : M Stats :=
  getCacheStats_loop_on RAVAN_FASHION_CACHE_values [].

(** [syncCart()], [syncUserPreferences()], [syncAnalytics()] *)
Definition syncCart_on : M unit :=
  let* cartData := getStoredCartData in
  match cartData with
  | Some _ => let* _ := p_fetch P "/api/cart/sync" in ret tt
  | None => ret tt
  end.

Definition syncUserPreferences_on : M unit :=
  let* preferences := getStoredPreferences in
  match preferences with
  | Some _ => let* _ := p_fetch P "/api/preferences/sync" in ret tt
  | None => ret tt
  end.

Definition syncAnalytics_on : M unit :=
  let* analyticsData := getStoredAnalytics in
  if (0 <? length analyticsData)%nat
  then let* _ := p_fetch P "/api/analytics/batch" in ret tt
  else ret tt.

(** [syncNow()] *)
Definition syncNow_on : M unit :=
  do* console_log "Starting background sync..." in
  try_catch
    (do* syncCart_on in
     do* syncUserPreferences_on in
     do* syncAnalytics_on in
     console_log "Background sync completed")
    (fun error => console_warn "Background sync failed:").

(** [message(event)] *)
Definition message_on (event : MessageEvent) : M unit :=
  match ev_data event with
  | DataNullish => throw TypeError
  | DataObject type data =>
      let type_is (s : string) :=
        match type with Some t => String.eqb t s | None => false end in
      if type_is "SKIP_WAITING" then emit ESkipWaiting
      else if type_is "CACHE_URL" then
        match data with
        | None => throw TypeError
        | Some d => cacheUrl_on (member_arg (msg_url d)) (member_arg (msg_cacheName d))
        end
      else if type_is "CLEAR_CACHE" then
        match data with
        | None => throw TypeError
        | Some d => clearCache_on (member_arg (msg_cacheName d))
        end
      else if type_is "GET_CACHE_STATS" then
        let* stats := getCacheStats_on in
        match ev_ports event with
        | [] => throw TypeError
        | port :: _ => emit (EPost port stats)
        end
      else if type_is "SYNC_NOW" then syncNow_on
      else console_warn "Unknown message type:"
  end.

End OverPlatform.

End Optimized.

(** ** [ravan-fashion-service-worker.js] *)

Module Legacy.

Definition RAVAN_FASHION_CACHE := "ravan-fashion-cache-v1".
Definition CRITICAL_CACHE := "ravan-fashion-critical-v1".
Definition IMAGE_CACHE := "ravan-fashion-images-v1".
Definition FONT_CACHE := "ravan-fashion-fonts-v1".

(** The cache names this worker uses. *)
Definition own_caches : list string :=
  [RAVAN_FASHION_CACHE; CRITICAL_CACHE; IMAGE_CACHE; FONT_CACHE].

Definition CRITICAL_ASSETS : list string :=
  ["/assets/ravan-fashion-critical.css";
   "/assets/ravan-fashion-optimized.js";
   "/assets/section-cultural-spotlight.css";
   "/assets/section-cultural-product-details.css";
   "/assets/section-design-story.css";
   "https://fonts.googleapis.com/css2?family=Tamil+Sangam+MN&family=Noto+Sans+Tamil&display=swap"].

Definition CULTURAL_IMAGES : list string :=
  ["/files/kolam-pattern.svg"; "/files/temple-arch.svg"; "/files/silk-texture.jpg"].

(** [Promise.all(ps)]: every member runs; the result rejects when one does. *)
Fixpoint promise_all (ps : list (M unit)) : M unit :=
  match ps with
  | [] => ret tt
  | p :: ps' =>
      fun w =>
        match p w with
        | (Resolved _, w1) => promise_all ps' w1
        | (Rejected e, w1) => (Rejected e, snd (promise_all ps' w1))
        end
  end.

(** The name test of the activate listener. *)
Definition is_outdated (cacheName : string) : bool :=
  Js.startsWith cacheName "ravan-fashion-" && negb (Js.endsWith cacheName "-v1").

(** [new Date(h)] for [h = headers.get('date')], in ms: [new Date(null)] is
    the epoch, an unparsable string gives an invalid date ([None]). *)
Definition js_Date (parse : string -> option Z) (h : option string) : option Z :=
  match h with
  | None => Some 0
  | Some s => parse s
  end.

(** [age < limit] where [age] is [(now - cachedDate) / unit] and may be
    [NaN]; the division by the unit is folded into the bound. *)
Definition js_age_lt (now_ : Z) (cachedDate : option Z) (limit unit : Z) : bool :=
  match cachedDate with
  | Some d => now_ - d <? limit * unit
  | None => false
  end.

Section Worker.

Context (env : Env).

(** The install listener: the promise passed to [event.waitUntil]. *)
Definition install : M unit :=
  do* emit ESkipWaiting in
  promise_all
    [ (do* caches_open CRITICAL_CACHE in cache_addAll env CRITICAL_CACHE CRITICAL_ASSETS);
      (do* caches_open IMAGE_CACHE in cache_addAll env IMAGE_CACHE CULTURAL_IMAGES) ].

(** The activate listener. *)
Definition activate : M unit :=
  let* cacheNames := caches_keys in
  do* for_of cacheNames (fun cacheName =>
        if is_outdated cacheName then caches_delete cacheName else ret tt) in
  emit EClaim.

(** [fetch(request).then(response => { if (response.ok) cache.put(...) })],
    not awaited and without a catch. *)
Definition revalidate (request : Request) (cacheName : string) : M unit :=
  fun w =>
    let '(settled, w') := issue_fetch env (url request) w in
    spawn (TLegacyRevalidate (url request) cacheName settled) w'.

(** [cache.put(request, response.clone())], not awaited. *)
Definition put_unawaited (request : Request) (cacheName : string) (r : Response)
  : M unit :=
  spawn (TLegacyPut (url request) cacheName r).

(** The cache-first handlers with an age limit share this shape. *)
Definition cached_or_revalidate (request : Request) (cacheName : string)
    (c : Response) (limit unit : Z) : M (option Response) :=
  let cachedDate := js_Date (Date_parse env) (headers_get "date" (resp_headers c)) in
  if js_age_lt (now env) cachedDate limit unit then ret (Some c)
  else do* revalidate request cacheName in ret (Some c).

(** [handleAssetRequest(request)] *)
Definition handleAssetRequest (request : Request) : M (option Response) :=
  do* caches_open RAVAN_FASHION_CACHE in
  let* cachedResponse := cache_match RAVAN_FASHION_CACHE (url request) in
  match cachedResponse with
  | Some c =>
      cached_or_revalidate request RAVAN_FASHION_CACHE c 24 (1000 * 60 * 60)
  | None =>
      try_catch
        (let* networkResponse := fetch_ env (url request) in
         do* (if ok networkResponse
              then put_unawaited request RAVAN_FASHION_CACHE networkResponse
              else ret tt) in
         ret (Some networkResponse))
        (fun error =>
           if Js.includes (url request) ".css" then
             do* caches_open CRITICAL_CACHE in
             cache_match CRITICAL_CACHE "/assets/ravan-fashion-critical.css"
           else throw error)
  end.

(** The inline SVG placeholder of [handleImageRequest], byte for byte;
    no status is given, so it is 200. *)
Definition placeholder_svg : Response :=
  mkResponse 200 "" [("content-type", "image/svg+xml")]
    ("<svg width="
    +:+ Js.dquote +:+
    "100"
    +:+ Js.dquote +:+
    " height="
    +:+ Js.dquote +:+
    "100"
    +:+ Js.dquote +:+
    " xmlns="
    +:+ Js.dquote +:+
    "http://www.w3.org/2000/svg"
    +:+ Js.dquote +:+
    "><rect width="
    +:+ Js.dquote +:+
    "100"
    +:+ Js.dquote +:+
    " height="
    +:+ Js.dquote +:+
    "100"
    +:+ Js.dquote +:+
    " fill="
    +:+ Js.dquote +:+
    "#f0f0f0"
    +:+ Js.dquote +:+
    "/><text x="
    +:+ Js.dquote +:+
    "50"
    +:+ Js.dquote +:+
    " y="
    +:+ Js.dquote +:+
    "50"
    +:+ Js.dquote +:+
    " text-anchor="
    +:+ Js.dquote +:+
    "middle"
    +:+ Js.dquote +:+
    " dy="
    +:+ Js.dquote +:+
    "0.3em"
    +:+ Js.dquote +:+
    " font-size="
    +:+ Js.dquote +:+
    "12"
    +:+ Js.dquote +:+
    ">🎨</text></svg>").

(** [handleImageRequest(request)] *)
Definition handleImageRequest (request : Request) : M (option Response) :=
  do* caches_open IMAGE_CACHE in
  let* cachedResponse := cache_match IMAGE_CACHE (url request) in
  match cachedResponse with
  | Some c =>
      cached_or_revalidate request IMAGE_CACHE c 7 (1000 * 60 * 60 * 24)
  | None =>
      try_catch
        (let* networkResponse := fetch_ env (url request) in
         do* (if ok networkResponse
              then put_unawaited request IMAGE_CACHE networkResponse
              else ret tt) in
         ret (Some networkResponse))
        (fun error =>
           if Js.includes (url request) "kolam" || Js.includes (url request) "temple"
           then ret (Some placeholder_svg)
           else throw error)
  end.

(** [new Response('', { status: 200 })]: a body given as a string brings
    its content type with it. *)
Definition empty_font : Response :=
  mkResponse 200 "" [("content-type", "text/plain;charset=UTF-8")] "".

(** [handleFontRequest(request)] *)
Definition handleFontRequest (request : Request) : M (option Response) :=
  do* caches_open FONT_CACHE in
  let* cachedResponse := cache_match FONT_CACHE (url request) in
  match cachedResponse with
  | Some c => ret (Some c)
  | None =>
      try_catch
        (let* networkResponse := fetch_ env (url request) in
         do* (if ok networkResponse
              then put_unawaited request FONT_CACHE networkResponse
              else ret tt) in
         ret (Some networkResponse))
        (fun error => ret (Some empty_font))
  end.

(** The offline page of [handleNetworkFirstRequest], byte for byte (the
    template literal with its line breaks and indentation); no status is
    given, so it is 200. *)
Definition offline_page : Response :=
  mkResponse 200 "" [("content-type", "text/html")]
    ("<!DOCTYPE html>
        <html lang="
    +:+ Js.dquote +:+
    "ta"
    +:+ Js.dquote +:+
    ">
        <head>
            <meta charset="
    +:+ Js.dquote +:+
    "UTF-8"
    +:+ Js.dquote +:+
    ">
            <meta name="
    +:+ Js.dquote +:+
    "viewport"
    +:+ Js.dquote +:+
    " content="
    +:+ Js.dquote +:+
    "width=device-width, initial-scale=1.0"
    +:+ Js.dquote +:+
    ">
            <title>ராவண் ஃபேஷன் - ஆஃப்லைன்</title>
            <style>
                body { font-family: Arial, sans-serif; text-align: center; padding: 50px; background: #fff5f5; }
                h1 { color: #8B0000; }
                p { color: #666; max-width: 500px; margin: 0 auto; }
                .offline-icon { font-size: 4rem; margin-bottom: 20px; }
            </style>
        </head>
        <body>
            <div class="
    +:+ Js.dquote +:+
    "offline-icon"
    +:+ Js.dquote +:+
    ">📵</div>
            <h1>ராவண் ஃபேஷன்</h1>
            <p>நீங்கள் தற்போது ஆஃப்லைனில் உள்ளீர்கள். இணைப்பை மீண்டும் செய்து முயற்சிக்கவும்.</p>
            <p>You are currently offline. Please check your connection and try again.</p>
        </body>
        </html>").

(** [handleNetworkFirstRequest(request)] *)
Definition handleNetworkFirstRequest (request : Request) : M (option Response) :=
  do* caches_open RAVAN_FASHION_CACHE in
  try_catch
    (let* networkResponse := fetch_ env (url request) in
     do* (if ok networkResponse
          then put_unawaited request RAVAN_FASHION_CACHE networkResponse
          else ret tt) in
     ret (Some networkResponse))
    (fun error =>
       let* cachedResponse := cache_match RAVAN_FASHION_CACHE (url request) in
       match cachedResponse with
       | Some c => ret (Some c)
       | None =>
           match headers_get "accept" (req_headers request) with
           | Some a =>
               if Js.includes a "text/html" then ret (Some offline_page)
               else throw error
           | None => throw error
           end
       end).

(** The fetch listener: [None] when it returns without [respondWith]. *)
Definition fetch (request : Request) : option (M (option Response)) :=
  if negb (Js.startsWith (url request) "http") then None
  else if Js.includes (url request) "/assets/" then
    Some (handleAssetRequest request)
  else if Js.includes (url request) "/files/"
          || Js.includes (hostname (parsed request)) "cdn.shopify.com" then
    Some (handleImageRequest request)
  else if Js.includes (hostname (parsed request)) "fonts.googleapis.com"
          || Js.includes (hostname (parsed request)) "fonts.gstatic.com" then
    Some (handleFontRequest request)
  else Some (handleNetworkFirstRequest request).

(** A [cache.put] finishing outside any [try]. *)
Definition put_resume (u cacheName : string) (r : Response) : M unit :=
  cache_put env cacheName u r.

(** The [.then] callback of [revalidate] once the fetch has settled. *)
Definition revalidate_resume (u cacheName : string) (settled : NetResult) : M unit :=
  match settled with
  | NetReject => throw NetworkError
  | NetResp response =>
      if ok response then put_resume u cacheName response else ret tt
  end.

(** The message listener. [event.data && ...] guards both branches; the
    cleanup is handed to [event.waitUntil]. *)
Definition message (event : MessageEvent) : M unit :=
  match ev_data event with
  | DataNullish => ret tt
  | DataObject type _ =>
      let type_is (s : string) :=
        match type with Some t => String.eqb t s | None => false end in
      if type_is "SKIP_WAITING" then emit ESkipWaiting
      else if type_is "CLEAN_CACHE" then
        let* cacheNames := caches_keys in
        for_of cacheNames (fun cacheName =>
          if Js.startsWith cacheName "ravan-fashion-" then caches_delete cacheName
          else ret tt)
      else ret tt
  end.

(** The URLs [syncCulturalContent] fetches. *)
Definition syncUrls : list string :=
  ["/api/cultural-stories"; "/api/cultural-elements"; "/api/featured-collections"].

(** The [.then] callback of [syncCulturalContent] for one settled fetch.
    [caches.open] is called without [await], so [cache] is a promise and
    [cache.put] is not a function: the call throws after the cache has
    been opened. *)
Definition sync_callback (settled : NetResult) : M unit :=
  match settled with
  | NetReject => throw NetworkError
  | NetResp response =>
      if ok response then
        do* caches_open RAVAN_FASHION_CACHE in
        throw TypeError
      else ret tt
  end.

(** [console.error]; the trace keeps errors with the warnings. *)
Definition console_error (msg : string) : M unit := emit (EWarn msg).

(** [syncCulturalContent()]: the three fetches are issued by [map], their
    callbacks run under [Promise.all]. *)
Definition syncCulturalContent : M unit :=
  try_catch
    (fun w =>
       let '(settled, w1) := fetch_all env syncUrls w in
       promise_all (map sync_callback settled) w1)
    (fun error => console_error "Background sync failed:").

(** The sync listener, by [event.tag]. *)
Definition sync (tag : string) : M unit :=
  if String.eqb tag "cultural-content-sync" then syncCulturalContent else ret tt.

End Worker.

End Legacy.

(** ** Running the pending work *)

Section Background.

Context (env : Env).

Definition run_task (t : Task) : M unit :=
  match t with
  | TUpdateCache u cacheName settled =>
      Optimized.updateCache_resume env u cacheName settled
  | TRevalidate u cacheName cached settled =>
      let* _ := Optimized.fetchPromise_resume env u cacheName cached settled in
      ret tt
  | TLegacyRevalidate u cacheName settled =>
      Legacy.revalidate_resume env u cacheName settled
  | TLegacyPut u cacheName r => Legacy.put_resume env u cacheName r
  end.

(** A task that rejects has nobody to report to. *)
Definition settle (m : M unit) (w : World) : World :=
  match m w with
  | (Resolved _, w') => w'
  | (Rejected e, w') => mkWorld (caches w') (trace w' ++ [EUnhandled e]) (pending w')
  end.

Fixpoint run_tasks (ts : list Task) (w : World) : World :=
  match ts with
  | [] => w
  | t :: ts' => run_tasks ts' (settle (run_task t) w)
  end.

(** Let every pending task finish, in the order they were started. *)
Definition run_pending (w : World) : World :=
  run_tasks (pending w) (mkWorld (caches w) (trace w) []).

End Background.

(** ** [service-worker-registration-optimized.js], the page side *)

Module Registration.

(** What the page-side manager holds that matters to the worker. *)
Record Page := mkPage {
  active : bool;                    (* this.registration && this.registration.active *)
  outbox : list MessageEvent;       (* messages posted to the active worker *)
  page_console : list Event         (* the page's console *)
}.

(** [sendMessageToServiceWorker(message)] *)
Definition sendMessageToServiceWorker (message : MessageEvent) (p : Page) : Page :=
  if active p then mkPage (active p) (outbox p ++ [message]) (page_console p)
  else p.

(** [cleanupCache()] *)
Definition cleanupCache (p : Page) : Page :=
  sendMessageToServiceWorker (mkMessageEvent (DataObject (Some "CLEANUP_CACHE") None) []) p.

(** [Object.values(stats).reduce((sum, cache) => sum + cache.size, 0)] *)
Definition totalSize (stats : Stats) : nat :=
  fold_left (fun sum cache => (sum + snd (snd cache))%nat) stats 0%nat.

(** [checkCacheHealth(stats)] *)
Definition checkCacheHealth (stats : Stats) (p : Page) : Page :=
  let maxSize := 50 * 1024 * 1024 in
  if Z.of_nat (totalSize stats) >? maxSize then
    cleanupCache
      (mkPage (active p) (outbox p)
         (page_console p ++ [EWarn "Cache size exceeds limit, triggering cleanup"]))
  else p.

(** The first message the page sends, from [setupServiceWorkerCommunication]. *)
Definition initialize (p : Page) : Page :=
  sendMessageToServiceWorker (mkMessageEvent (DataObject (Some "INITIALIZE") None) []) p.

(** The entries [storePerformanceMetrics] keeps. *)
Definition keep_last_100 {A} (storedMetrics : list A) : list A :=
  if (100 <? length storedMetrics)%nat
  then drop (length storedMetrics - 100) storedMetrics
  else storedMetrics.

(** [storePerformanceMetrics(metrics)] on the parsed list: push, then
    [splice] away all but the last 100 entries. *)
Definition storePerformanceMetrics {A} (metrics : A) (storedMetrics : list A) : list A :=
  keep_last_100 (storedMetrics ++ [metrics]).

End Registration.

(** ** Concrete requests and worlds used in the examples below *)

Module Examples.

Definition app_css : string := "https://shop.example/assets/app.css".

(** A request for the stylesheet [/assets/app.css]. *)
Definition css_request : Request :=
  mkRequest app_css (mkURL "/assets/app.css" "shop.example" []) "no-cors" [].

(** A date oracle that knows one timestamp. *)
Definition parse_date (s : string) : option Z :=
  if String.eqb s "Mon, 02 Nov 2026 10:00:00 GMT" then Some 1793613600000 else None.

(** The stylesheet as it was stored at 10:00:00. *)
Definition css_response : Response :=
  mkResponse 200 app_css [("date", "Mon, 02 Nov 2026 10:00:00 GMT")] "body{margin:0}".

(** The same stylesheet stored without a date header. *)
Definition css_undated : Response := mkResponse 200 app_css [] "body{margin:0}".

Definition server_error : Response := mkResponse 500 "" [] "Internal Server Error".
Definition not_found : Response := mkResponse 404 "" [] "Not Found".

Definition offline_net : nat -> string -> NetResult := fun _ _ => NetReject.

(** Two hours later, with the network down. *)
Definition two_hours_later : Env :=
  mkEnv (1793613600000 + 2 * 60 * 60 * 1000) offline_net (fun _ _ _ => false) parse_date.

Definition static_holds (r : Response) : World :=
  mkWorld [(Optimized.RAVAN_FASHION_CACHE_STATIC, {[ app_css := r ]})] [] [].

Definition empty_world : World := mkWorld [] [] [].

Definition theme_js : string := "https://shop.example/assets/theme.js".

(** A request for the script [/assets/theme.js]. *)
Definition js_request : Request :=
  mkRequest theme_js (mkURL "/assets/theme.js" "shop.example" []) "no-cors" [].

(** Cache storage holding a cache that some other script of the origin
    created, next to one of the earlier worker's own. *)
Definition foreign_cache : string := "cart-drafts-v0".

Definition with_foreign_cache : World :=
  mkWorld [(foreign_cache, ∅); (Legacy.IMAGE_CACHE, ∅)] [] [].

(** A server that has every asset except [missing]. *)
Definition all_but (missing : string) : nat -> string -> NetResult :=
  fun _ u => if String.eqb u missing then NetResp not_found
             else NetResp (mkResponse 200 u [] "asset").

(** At install time [/offline.html] is missing on the server. *)
Definition offline_page_missing : Env :=
  mkEnv 1793613600000 (all_but "/offline.html") (fun _ _ _ => false) parse_date.

(** At install time [/files/silk-texture.jpg] is missing on the server. *)
Definition texture_missing : Env :=
  mkEnv 1793613600000 (all_but "/files/silk-texture.jpg") (fun _ _ _ => false) parse_date.

(** [{ type: 'CACHE_URL' }], posted without a [data] member. *)
Definition cache_url_without_data : MessageEvent :=
  mkMessageEvent (DataObject (Some "CACHE_URL") None) [].

(** [{ type: 'CACHE_URL', data: { url: '/assets/app.css' } }] *)
Definition cache_url_message : MessageEvent :=
  mkMessageEvent
    (DataObject (Some "CACHE_URL") (Some (mkMsgData (Str "/assets/app.css") Undefined))) [].

(** [{ type: 'INITIALIZE' }], which the registration script posts. *)
Definition initialize_message : MessageEvent :=
  mkMessageEvent (DataObject (Some "INITIALIZE") None) [].

Definition cart_url : string := "https://shop.example/api/cart".

(** A request for [/api/cart]. *)
Definition cart_request : Request :=
  mkRequest cart_url (mkURL "/api/cart" "shop.example" []) "cors"
    [("accept", "application/json")].

Definition cart_cached : Response :=
  mkResponse 200 cart_url [("date", "Mon, 02 Nov 2026 10:00:00 GMT")] "{items:[]}".

Definition api_holds (r : Response) : World :=
  mkWorld [(Optimized.RAVAN_FASHION_CACHE_API, {[ cart_url := r ]})] [] [].

Definition page_url : string := "https://shop.example/collections/all".

(** A navigation to [/collections/all]. *)
Definition page_request : Request :=
  mkRequest page_url (mkURL "/collections/all" "shop.example" []) "navigate"
    [("accept", "text/html")].

Definition page_cached : Response :=
  mkResponse 200 page_url [("date", "Mon, 02 Nov 2026 10:00:00 GMT")] "<html>old</html>".

Definition page_fresh : Response :=
  mkResponse 200 page_url [("date", "Mon, 02 Nov 2026 11:00:00 GMT")] "<html>new</html>".

Definition pages_holds (r : Response) : World :=
  mkWorld [(Optimized.RAVAN_FASHION_CACHE_PAGES, {[ page_url := r ]})] [] [].

(** The network is up and serves the current page. *)
Definition online : Env :=
  mkEnv (1793613600000 + 60 * 60 * 1000)
    (fun _ _ => NetResp page_fresh) (fun _ _ _ => false) parse_date.

(** The network is up as well, but the cache accepts no write. *)
Definition storage_full : Env :=
  mkEnv (1793613600000 + 60 * 60 * 1000)
    (fun _ _ => NetResp page_fresh) (fun _ _ _ => true) parse_date.

(** The server answers every request with a 500. *)
Definition failing_server : Env :=
  mkEnv (1793613600000 + 60 * 60 * 1000)
    (fun _ _ => NetResp server_error) (fun _ _ _ => false) parse_date.

End Examples.


(** ** Predicates used in the statements *)

(** A settlement that is a rejection, or a response the network gave for [u]. *)
Definition from_net (env : Env) (u : string) (settled : NetResult) : Prop :=
  match settled with
  | NetReject => True
  | NetResp r => exists i, net env i u = NetResp r
  end.

(** A pending task carries a settlement the network produced. *)
Definition task_sound (env : Env) (t : Task) : Prop :=
  match t with
  | TUpdateCache u _ settled => from_net env u settled
  | TRevalidate u _ _ settled => from_net env u settled
  | TLegacyRevalidate u _ settled => from_net env u settled
  | TLegacyPut u _ r => ok r = true /\ from_net env u (NetResp r)
  end.

(** Every entry of [w'] was already an entry of [w], or is an ok response
    that the network gave for its URL. *)
Definition stores_only_ok (env : Env) (w w' : World) : Prop :=
  forall name u r,
    cs_entry name u (caches w') = Some r ->
    cs_entry name u (caches w) = Some r \/
    (ok r = true /\ exists i, net env i u = NetResp r).

(** Every fetch of [u] is answered with an ok response, and the cache
    [name] accepts it. *)
Definition always_storable (env : Env) (name u : string) : Prop :=
  forall i, exists r, net env i u = NetResp r /\ ok r = true /\
                      put_rejects env name u r = false.

(** No fetch of [u] gives an ok response: it rejects, or answers with a
    status outside 200-299 such as 404. *)
Definition always_fails (env : Env) (u : string) : Prop :=
  forall i, match net env i u with
            | NetReject => True
            | NetResp r => ok r = false
            end.

(** The cache [name] of [w] holds, under [u], an ok response that the
    network gave for [u]. *)
Definition stored_from_net (env : Env) (name u : string) (w : World) : Prop :=
  exists r, cs_entry name u (caches w) = Some r /\ ok r = true /\
            exists i, net env i u = NetResp r.

(** The five message types the handler knows. *)
Definition known_type (type : option string) : bool :=
  match type with
  | Some t =>
      Js.array_includes
        ["SKIP_WAITING"; "CACHE_URL"; "CLEAR_CACHE"; "GET_CACHE_STATS"; "SYNC_NOW"] t
  | None => false
  end.

(** A message shaped as the message protocol describes it: [event.data]
    is not [null] or [undefined]; a [CACHE_URL] or [CLEAR_CACHE] message
    has a [data] member; a [GET_CACHE_STATS] message comes with a reply
    port. Any [type] is allowed. *)
Definition well_formed (event : MessageEvent) : bool :=
  match ev_data event with
  | DataNullish => false
  | DataObject (Some t) data =>
      if String.eqb t "CACHE_URL" || String.eqb t "CLEAR_CACHE" then
        match data with Some _ => true | None => false end
      else if String.eqb t "GET_CACHE_STATS" then
        match ev_ports event with [] => false | _ :: _ => true end
      else true
  | DataObject None _ => true
  end.

(** A computation that resolves from every world. *)
Definition resolves {A} (m : M A) : Prop :=
  forall w, exists a w', m w = (Resolved a, w').

(** One step of the worker respects the caches and the pending queue. *)
Definition step_ok (env : Env) (w w' : World) : Prop :=
  stores_only_ok env w w' /\
  (Forall (task_sound env) (pending w) -> Forall (task_sound env) (pending w')).

(** A computation that respects caches and queue from any world, and whose
    values satisfy [Q]. *)
Definition m_spec {A} (env : Env) (m : M A) (Q : A -> Prop) : Prop :=
  forall w, step_ok env w (snd (m w)) /\
            forall a, fst (m w) = Resolved a -> Q a.

(** The footprint of handling [request] from [w]: at most one fetch, of
    the request's own URL, and no change to the entry of any other URL. *)
Definition own_footprint (request : Request) (w : World)
    (run : Res (option Response) * World) : Prop :=
  (fetched (trace (snd run)) = fetched (trace w) \/
   fetched (trace (snd run)) = fetched (trace w) ++ [url request]) /\
  (forall name u, u <> url request ->
                  cs_entry name u (caches (snd run)) = cs_entry name u (caches w)).

(** The number of entries of the cache [name], none when there is no such
    cache. *)
Definition entry_count (name : string) (cs : CacheStorage) : nat :=
  match cs_lookup name cs with
  | Some c => size c
  | None => 0%nat
  end.
(** * Properties *)

(** ** Cache storage *)

Lemma cs_lookup_app name (cs cs' : CacheStorage) :
  cs_lookup name (cs ++ cs') =
  match cs_lookup name cs with
  | Some c => Some c
  | None => cs_lookup name cs'
  end.
Proof.
  induction cs as [|[n c] cs IH]; simpl; [reflexivity|].
  destruct (String.eqb n name); [reflexivity | exact IH].
Qed.

Lemma cs_lookup_open name m (cs : CacheStorage) :
  cs_lookup name (cs_open m cs) =
  match cs_lookup name cs with
  | Some c => Some c
  | None => if String.eqb m name then Some ∅ else None
  end.
Proof.
  unfold cs_open, cs_has.
  destruct (cs_lookup m cs) as [c|] eqn:Hm.
  - destruct (cs_lookup name cs) eqn:Hn; [reflexivity|].
    destruct (String.eqb_spec m name) as [->|]; congruence.
  - rewrite cs_lookup_app. simpl. reflexivity.
Qed.

Lemma cs_entry_open name u m (cs : CacheStorage) :
  cs_entry name u (cs_open m cs) = cs_entry name u cs.
Proof.
  unfold cs_entry. rewrite cs_lookup_open.
  destruct (cs_lookup name cs); [reflexivity|].
  destruct (String.eqb m name); [apply lookup_empty | reflexivity].
Qed.

Lemma cs_has_open m (cs : CacheStorage) : cs_has m (cs_open m cs) = true.
Proof.
  unfold cs_has. rewrite cs_lookup_open.
  destruct (cs_lookup m cs); [reflexivity|]. now rewrite String.eqb_refl.
Qed.

Lemma cs_has_open_mono name m (cs : CacheStorage) :
  cs_has name cs = true -> cs_has name (cs_open m cs) = true.
Proof.
  unfold cs_has. rewrite cs_lookup_open.
  destruct (cs_lookup name cs); [reflexivity | discriminate].
Qed.

Lemma cs_open_has m (cs : CacheStorage) : cs_has m cs = true -> cs_open m cs = cs.
Proof. unfold cs_open. now intros ->. Qed.

Lemma cs_entry_has name u (cs : CacheStorage) r :
  cs_entry name u cs = Some r -> cs_has name cs = true.
Proof. unfold cs_entry, cs_has. destruct (cs_lookup name cs); [reflexivity | discriminate]. Qed.

Lemma cs_lookup_update name m f (cs : CacheStorage) :
  cs_lookup name (cs_update m f cs) =
  if String.eqb m name then option_map f (cs_lookup name cs) else cs_lookup name cs.
Proof.
  induction cs as [|[n c] cs IH]; simpl.
  - now destruct (String.eqb m name).
  - destruct (String.eqb_spec n m) as [->|Hnm]; simpl.
    + destruct (String.eqb m name); reflexivity.
    + destruct (String.eqb_spec n name) as [->|Hn].
      * destruct (String.eqb_spec m name); [congruence | reflexivity].
      * exact IH.
Qed.

Lemma cs_has_update name m f (cs : CacheStorage) :
  cs_has name (cs_update m f cs) = cs_has name cs.
Proof.
  unfold cs_has. rewrite cs_lookup_update.
  destruct (String.eqb m name); destruct (cs_lookup name cs); reflexivity.
Qed.

Lemma cs_entry_put_same name u r (cs : CacheStorage) :
  cs_has name cs = true ->
  cs_entry name u (cs_update name (insert u r) cs) = Some r.
Proof.
  unfold cs_has, cs_entry. rewrite cs_lookup_update, String.eqb_refl.
  destruct (cs_lookup name cs); [|discriminate].
  intros _. simpl. apply lookup_insert_eq.
Qed.

Lemma cs_entry_put_inv name u m u' r x (cs : CacheStorage) :
  cs_entry name u (cs_update m (insert u' r) cs) = Some x ->
  (u = u' /\ x = r) \/ cs_entry name u cs = Some x.
Proof.
  unfold cs_entry. rewrite cs_lookup_update.
  destruct (String.eqb m name); [|auto].
  destruct (cs_lookup name cs) as [c|]; simpl; [|discriminate].
  destruct (decide (u' = u)) as [->|Hne].
  - rewrite lookup_insert_eq. intros [= ->]. auto.
  - rewrite lookup_insert_ne by exact Hne. auto.
Qed.

Lemma cs_lookup_delete name m (cs : CacheStorage) :
  cs_lookup name (cs_delete m cs) =
  if String.eqb m name then None else cs_lookup name cs.
Proof.
  induction cs as [|[n c] cs IH]; simpl.
  - now destruct (String.eqb m name).
  - destruct (String.eqb_spec n m) as [->|Hnm].
    + rewrite IH. destruct (String.eqb m name); reflexivity.
    + simpl. destruct (String.eqb_spec n name) as [->|Hn].
      * destruct (String.eqb_spec m name); [congruence | reflexivity].
      * exact IH.
Qed.

Lemma fetched_app (t t' : list Event) : fetched (t ++ t') = fetched t ++ fetched t'.
Proof.
  induction t as [|e t IH]; simpl; [reflexivity|].
  destruct e; simpl; now rewrite IH.
Qed.

Lemma world_eta (w : World) : mkWorld (caches w) (trace w) (pending w) = w.
Proof. now destruct w. Qed.

(** ** Cache-first on a cache hit *)

Section CacheFirstHit.

Context (env : Env).

(** What [cacheFirst] does with an entry it finds: the entry is the value,
    and a refresh is started exactly when [isCacheExpired] says so. *)
Lemma cacheFirst_hit (request : Request) (cacheName : string) (w : World) (c : Response) :
  cs_entry cacheName (url request) (caches w) = Some c ->
  Optimized.cacheFirst env request cacheName w =
  if Optimized.isCacheExpired env c then
    (Resolved (Some c),
     mkWorld (caches w) (trace w ++ [EFetch (url request)])
       (pending w ++ [TUpdateCache (url request) cacheName
                        (net env (fetch_count (trace w)) (url request))]))
  else (Resolved (Some c), w).
Proof.
  intros Hc.
  unfold Optimized.cacheFirst, bind, caches_open, cache_match. simpl.
  rewrite (cs_open_has _ _ (cs_entry_has _ _ _ _ Hc)), Hc.
  destruct (Optimized.isCacheExpired env c).
  - reflexivity.
  - unfold ret. now rewrite world_eta.
Qed.

Lemma isCacheExpired_no_date (response : Response) :
  headers_get "date" (resp_headers response) = None ->
  Optimized.isCacheExpired env response = false.
Proof. unfold Optimized.isCacheExpired. now intros ->. Qed.

End CacheFirstHit.

(** C9. A cached response without a [date] header is never classified as
    expired, whatever the current time; [cacheFirst] then resolves with it
    and leaves the world as it was: no fetch is issued and no refresh is
    started. *)
Theorem C9_undated_entry_served_fresh
    (env : Env) (request : Request) (cacheName : string) (w : World) (c : Response) :
  headers_get "date" (resp_headers c) = None ->
  cs_entry cacheName (url request) (caches w) = Some c ->
  Optimized.isCacheExpired env c = false /\
  Optimized.cacheFirst env request cacheName w = (Resolved (Some c), w).
Proof.
  intros Hd Hc. pose proof (isCacheExpired_no_date env c Hd) as He.
  split; [exact He|]. now rewrite (cacheFirst_hit env _ _ _ _ Hc), He.
Qed.

Lemma C9_undated_entry_served_fresh_witness :
  Optimized.isCacheExpired Examples.two_hours_later Examples.css_undated = false /\
  Optimized.cacheFirst Examples.two_hours_later Examples.css_request
    Optimized.RAVAN_FASHION_CACHE_STATIC (Examples.static_holds Examples.css_undated)
  = (Resolved (Some Examples.css_undated), Examples.static_holds Examples.css_undated).
Proof.
  apply (C9_undated_entry_served_fresh Examples.two_hours_later Examples.css_request
           Optimized.RAVAN_FASHION_CACHE_STATIC
           (Examples.static_holds Examples.css_undated) Examples.css_undated).
  - reflexivity.
  - vm_compute. reflexivity.
Defined.

(** C3. The stylesheet [/assets/app.css] is a static-class request, and its
    entry is two hours old, far below the seven days of [CACHE_EXPIRY.STATIC];
    [isCacheExpired] nevertheless reports it expired, because it picks the
    duration from substrings of the response URL and this URL falls through
    to the one hour of [CACHE_EXPIRY.RUNTIME]. *)
Theorem C3_static_entry_expired_after_two_hours :
  Optimized.classify Examples.css_request = Optimized.Static /\
  Date_parse Examples.two_hours_later "Mon, 02 Nov 2026 10:00:00 GMT"
    = Some (now Examples.two_hours_later - 2 * 60 * 60 * 1000) /\
  2 * 60 * 60 * 1000 < Optimized.CACHE_EXPIRY_STATIC /\
  Optimized.isCacheExpired Examples.two_hours_later Examples.css_response = true.
Proof. repeat split; vm_compute; reflexivity. Qed.

(** C2. [cacheFirst] on the static cache, which holds the two-hour-old
    stylesheet: the cached response is the value, but one fetch is issued
    and a background refresh is started although the entry's age is below
    the seven days of its class. *)
Theorem C2_fresh_static_entry_refetched :
  let run := Optimized.cacheFirst Examples.two_hours_later Examples.css_request
               Optimized.RAVAN_FASHION_CACHE_STATIC
               (Examples.static_holds Examples.css_response) in
  2 * 60 * 60 * 1000 < Optimized.CACHE_EXPIRY_STATIC /\
  fst run = Resolved (Some Examples.css_response) /\
  fetched (trace (snd run)) = [Examples.app_css] /\
  pending (snd run) =
    [TUpdateCache Examples.app_css Optimized.RAVAN_FASHION_CACHE_STATIC NetReject].
Proof. repeat split; vm_compute; reflexivity. Qed.

(** ** Network-first *)

Ltac munfold :=
  unfold bind, ret, throw, try_catch, emit, spawn, console_log, console_warn,
    caches_open, cache_match, cache_put, fetch_, issue_fetch, caches_delete,
    caches_keys; simpl.

Section NetworkFirst.

Context (env : Env).

(** The value [getOfflineResponse] resolves with does not depend on caches
    having been opened in between. *)
Lemma getOfflineResponse_value (request : Request) (w : World) :
  fst (Optimized.getOfflineResponse request w) =
  Resolved (if String.eqb (mode request) "navigate"
            then cs_entry Optimized.RAVAN_FASHION_CACHE_STATIC "/offline.html" (caches w)
            else Some Optimized.offline_503).
Proof.
  unfold Optimized.getOfflineResponse.
  destruct (String.eqb (mode request) "navigate"); munfold; [|reflexivity].
  now rewrite cs_entry_open.
Qed.

(** The catch branch of [networkFirst], started in any world whose caches
    are [cs] up to opened caches. *)
Lemma networkFirst_fallback_value (request : Request) (cacheName : string) (w : World) :
  fst ((do* console_warn "Network request failed, falling back to cache:" in
        do* caches_open cacheName in
        let* cached := cache_match cacheName (url request) in
        match cached with
        | Some c => ret (Some c)
        | None => Optimized.getOfflineResponse request
        end) w) =
  Resolved (match cs_entry cacheName (url request) (caches w) with
            | Some c => Some c
            | None =>
                if String.eqb (mode request) "navigate"
                then cs_entry Optimized.RAVAN_FASHION_CACHE_STATIC "/offline.html" (caches w)
                else Some Optimized.offline_503
            end).
Proof.
  munfold. rewrite cs_entry_open.
  destruct (cs_entry cacheName (url request) (caches w)); [reflexivity|].
  rewrite getOfflineResponse_value. simpl. now rewrite cs_entry_open.
Qed.

End NetworkFirst.

(** The value [networkFirst] resolves with, in every case. *)
Lemma networkFirst_value
    (env : Env) (request : Request) (cacheName : string) (w : World) :
  let fallback :=
    match cs_entry cacheName (url request) (caches w) with
    | Some c => Some c
    | None =>
        if String.eqb (mode request) "navigate"
        then cs_entry Optimized.RAVAN_FASHION_CACHE_STATIC "/offline.html" (caches w)
        else Some Optimized.offline_503
    end in
  fst (Optimized.networkFirst env request cacheName w) =
  Resolved
    match net env (fetch_count (trace w)) (url request) with
    | NetReject => fallback
    | NetResp network =>
        if ok network && put_rejects env cacheName (url request) network
        then fallback
        else Some network
    end.
Proof.
  intros fallback. unfold Optimized.networkFirst.
  unfold try_catch at 1. unfold bind at 1. unfold fetch_, issue_fetch.
  destruct (net env (fetch_count (trace w)) (url request)) as [|network].
  - rewrite networkFirst_fallback_value. reflexivity.
  - destruct (ok network); simpl.
    + unfold bind at 1. unfold bind at 1. unfold caches_open at 1.
      unfold cache_put. simpl.
      destruct (put_rejects env cacheName (url request) network).
      * rewrite networkFirst_fallback_value. simpl.
        now rewrite !cs_entry_open.
      * reflexivity.
    + reflexivity.
Qed.



(** ** Background work *)

Section BackgroundFacts.

Context (env : Env).

Lemma run_tasks_app (ts ts' : list Task) (w : World) :
  run_tasks env (ts ++ ts') w = run_tasks env ts' (run_tasks env ts w).
Proof. revert w. induction ts as [|t ts IH]; intros w; simpl; [reflexivity | apply IH]. Qed.

Ltac task_cases :=
  unfold settle, run_task, Optimized.updateCache_resume, Optimized.fetchPromise_resume,
    Legacy.revalidate_resume, Legacy.put_resume;
  munfold;
  repeat match goal with
         | |- context [match ?s with NetReject => _ | NetResp _ => _ end] => destruct s; simpl
         | |- context [if ok ?r then _ else _] => destruct (ok r) eqn:?; simpl
         | |- context [if put_rejects ?e ?n ?u ?r then _ else _] =>
             destruct (put_rejects e n u r) eqn:?; simpl
         end.

(** No task removes a cache. *)
Lemma settle_has (t : Task) (name : string) (w : World) :
  cs_has name (caches w) = true ->
  cs_has name (caches (settle (run_task env t) w)) = true.
Proof.
  intros H. destruct t; task_cases;
    rewrite ?cs_has_update; auto using cs_has_open_mono.
Qed.

Lemma run_tasks_has (ts : list Task) (name : string) (w : World) :
  cs_has name (caches w) = true ->
  cs_has name (caches (run_tasks env ts w)) = true.
Proof.
  revert w. induction ts as [|t ts IH]; intros w H; simpl; [exact H|].
  apply IH, settle_has, H.
Qed.

(** The [fetchPromise] of [staleWhileRevalidate] never rejects. *)
Lemma fetchPromise_resolves (u cacheName : string) (cached : option Response)
    (settled : NetResult) (w : World) :
  exists v w', Optimized.fetchPromise_resume env u cacheName cached settled w
               = (Resolved v, w').
Proof.
  unfold Optimized.fetchPromise_resume. munfold.
  destruct settled as [|network]; simpl; [eauto|].
  destruct (ok network); simpl; [|eauto].
  destruct (put_rejects env cacheName u network); eauto.
Qed.

(** [staleWhileRevalidate] on a cache hit. *)
Lemma staleWhileRevalidate_hit (request : Request) (cacheName : string) (w : World)
    (c : Response) :
  cs_entry cacheName (url request) (caches w) = Some c ->
  Optimized.staleWhileRevalidate env request cacheName w =
  (Resolved (Some c),
   mkWorld (caches w) (trace w ++ [EFetch (url request)])
     (pending w ++ [TRevalidate (url request) cacheName (Some c)
                      (net env (fetch_count (trace w)) (url request))])).
Proof.
  intros Hc. unfold Optimized.staleWhileRevalidate. munfold.
  now rewrite (cs_open_has _ _ (cs_entry_has _ _ _ _ Hc)), Hc.
Qed.

End BackgroundFacts.

(** C5 (amended). [staleWhileRevalidate] with an entry [c] in the cache
    resolves with [c] at once: when it returns, one fetch has been issued,
    the caches are as they were, and the revalidation is pending. Once the
    pending work has run, and if the network answered with an ok response
    [n] that the cache accepts, the entry is [n]. The pending revalidation
    resolves whatever the fetch did; a rejected fetch leaves the world
    alone, and so does an ok response whose write the cache refuses. *)
Theorem C5_stale_while_revalidate
    (env : Env) (request : Request) (cacheName : string) (w : World) (c : Response) :
  cs_entry cacheName (url request) (caches w) = Some c ->
  let settled := net env (fetch_count (trace w)) (url request) in
  let revalidation := TRevalidate (url request) cacheName (Some c) settled in
  let run := Optimized.staleWhileRevalidate env request cacheName w in
  fst run = Resolved (Some c) /\
  caches (snd run) = caches w /\
  fetched (trace (snd run)) = fetched (trace w) ++ [url request] /\
  pending (snd run) = pending w ++ [revalidation] /\
  (forall n, settled = NetResp n -> ok n = true ->
             put_rejects env cacheName (url request) n = false ->
             cs_entry cacheName (url request) (caches (run_pending env (snd run)))
             = Some n) /\
  (forall w', exists w'', run_task env revalidation w' = (Resolved tt, w'')) /\
  (forall w', settled = NetReject -> run_task env revalidation w' = (Resolved tt, w')) /\
  (forall w' n, settled = NetResp n -> ok n = true ->
                put_rejects env cacheName (url request) n = true ->
                run_task env revalidation w' = (Resolved tt, w')).
Proof.
  intros Hc settled revalidation run. subst run.
  rewrite (staleWhileRevalidate_hit env _ _ _ _ Hc). simpl.
  repeat split.
  - now rewrite fetched_app.
  - intros n Hn Hok Hput. unfold run_pending. simpl.
    rewrite run_tasks_app. simpl. fold settled. rewrite Hn.
    set (w1 := run_tasks env (pending w) _).
    assert (Hhas : cs_has cacheName (caches w1) = true).
    { apply run_tasks_has. simpl. eapply cs_entry_has, Hc. }
    unfold settle, run_task, Optimized.fetchPromise_resume. munfold.
    rewrite Hok. simpl. rewrite Hput. simpl.
    now apply cs_entry_put_same.
  - intros w'. subst revalidation. unfold run_task. unfold bind at 1.
    destruct (fetchPromise_resolves env (url request) cacheName (Some c) settled w')
      as (v & w'' & ->). unfold ret. eauto.
  - intros w' Hs. subst revalidation. rewrite Hs. reflexivity.
  - intros w' n Hs Hok Hput. subst revalidation. rewrite Hs.
    unfold run_task, Optimized.fetchPromise_resume. munfold.
    rewrite Hok. simpl. rewrite Hput. reflexivity.
Qed.

Lemma C5_stale_while_revalidate_witness :
  fst (Optimized.staleWhileRevalidate Examples.online Examples.page_request
         Optimized.RAVAN_FASHION_CACHE_PAGES (Examples.pages_holds Examples.page_cached))
    = Resolved (Some Examples.page_cached) /\
  cs_entry Optimized.RAVAN_FASHION_CACHE_PAGES Examples.page_url
    (caches (run_pending Examples.online
               (snd (Optimized.staleWhileRevalidate Examples.online Examples.page_request
                       Optimized.RAVAN_FASHION_CACHE_PAGES
                       (Examples.pages_holds Examples.page_cached)))))
    = Some Examples.page_fresh.
Proof.
  destruct (C5_stale_while_revalidate Examples.online Examples.page_request
              Optimized.RAVAN_FASHION_CACHE_PAGES
              (Examples.pages_holds Examples.page_cached) Examples.page_cached)
    as (H1 & _ & _ & _ & H5 & _).
  - vm_compute. reflexivity.
  - split; [exact H1 | apply (H5 Examples.page_fresh); reflexivity].
Defined.

(** C5, counterexample. The page is cached, the network answers with an
    ok response, and the cache refuses the write: the strategy returns the
    cached page, and after the pending work has run the entry is still the
    old page, not the network's. *)
Lemma C5_refused_write_keeps_old_entry :
  let run := Optimized.staleWhileRevalidate Examples.storage_full Examples.page_request
               Optimized.RAVAN_FASHION_CACHE_PAGES
               (Examples.pages_holds Examples.page_cached) in
  net Examples.storage_full 0 Examples.page_url = NetResp Examples.page_fresh /\
  ok Examples.page_fresh = true /\
  fst run = Resolved (Some Examples.page_cached) /\
  cs_entry Optimized.RAVAN_FASHION_CACHE_PAGES Examples.page_url
    (caches (run_pending Examples.storage_full (snd run)))
  = Some Examples.page_cached /\
  Examples.page_cached <> Examples.page_fresh.
Proof.
  split; [reflexivity|]. split; [reflexivity|].
  split; [vm_compute; reflexivity|]. split; [vm_compute; reflexivity|].
  discriminate.
Qed.

(** ** Only ok responses are stored *)

Section StoresOnlyOk.

Context (env : Env).

Lemma step_ok_refl (w : World) : step_ok env w w.
Proof. split; [intros name u r H; now left | auto]. Qed.

Lemma step_ok_trans (w1 w2 w3 : World) :
  step_ok env w1 w2 -> step_ok env w2 w3 -> step_ok env w1 w3.
Proof.
  intros [S12 P12] [S23 P23]. split; [|auto].
  intros name u r H. destruct (S23 _ _ _ H) as [H'|H']; [auto | now right].
Qed.

(** A step that changes neither the caches nor the queue. *)
Lemma step_ok_same (w w' : World) :
  caches w' = caches w -> pending w' = pending w -> step_ok env w w'.
Proof.
  intros Hc Hp. split; [|now rewrite Hp].
  intros name u r H. left. now rewrite <- Hc.
Qed.

Lemma spec_ret {A} (a : A) (Q : A -> Prop) : Q a -> m_spec env (ret a) Q.
Proof. intros Ha w. split; [apply step_ok_refl|]. now intros a' [= <-]. Qed.

Lemma spec_throw {A} (e : Exn) (Q : A -> Prop) : m_spec env (throw e) Q.
Proof. intros w. split; [apply step_ok_refl | discriminate]. Qed.

Lemma spec_bind {A B} (m : M A) (f : A -> M B) (P : A -> Prop) (Q : B -> Prop) :
  m_spec env m P -> (forall a, P a -> m_spec env (f a) Q) -> m_spec env (bind m f) Q.
Proof.
  intros Hm Hf w. unfold bind. destruct (Hm w) as [Hs Hv].
  destruct (m w) as [[a|e] w1]; simpl in *.
  - destruct (Hf a (Hv a eq_refl) w1) as [Hs' Hv'].
    split; [eapply step_ok_trans; eauto | exact Hv'].
  - split; [exact Hs | discriminate].
Qed.

Lemma spec_try {A} (m : M A) (h : Exn -> M A) (Q : A -> Prop) :
  m_spec env m Q -> (forall e, m_spec env (h e) Q) -> m_spec env (try_catch m h) Q.
Proof.
  intros Hm Hh w. unfold try_catch. destruct (Hm w) as [Hs Hv].
  destruct (m w) as [[a|e] w1]; simpl in *.
  - split; [exact Hs | exact Hv].
  - destruct (Hh e w1) as [Hs' Hv'].
    split; [eapply step_ok_trans; eauto | exact Hv'].
Qed.

Lemma spec_weaken {A} (m : M A) (P Q : A -> Prop) :
  m_spec env m P -> (forall a, P a -> Q a) -> m_spec env m Q.
Proof. intros Hm HPQ w. destruct (Hm w) as [Hs Hv]. split; [exact Hs | eauto]. Qed.

Lemma spec_emit (e : Event) : m_spec env (emit e) (fun _ => True).
Proof. intros w. split; [now apply step_ok_same | auto]. Qed.

Lemma spec_spawn (t : Task) : task_sound env t -> m_spec env (spawn t) (fun _ => True).
Proof.
  intros Ht w. split; [|auto]. split; simpl.
  - intros name u r H. now left.
  - intros H. apply Forall_app. split; [exact H | now constructor].
Qed.

Lemma spec_open (name : string) : m_spec env (caches_open name) (fun _ => True).
Proof.
  intros w. split; [|auto]. split; simpl; [|auto].
  intros n u r H. simpl in H. rewrite cs_entry_open in H. now left.
Qed.

Lemma spec_match (name u : string) : m_spec env (cache_match name u) (fun _ => True).
Proof. intros w. split; [apply step_ok_refl | auto]. Qed.

Lemma spec_put (name u : string) (r : Response) :
  ok r = true -> from_net env u (NetResp r) ->
  m_spec env (cache_put env name u r) (fun _ => True).
Proof.
  intros Hok Hnet w. split; [|auto]. unfold cache_put.
  destruct (put_rejects env name u r); simpl; [apply step_ok_refl|].
  split; simpl; [|auto].
  intros n u' x H. destruct (cs_entry_put_inv _ _ _ _ _ _ _ H) as [[-> ->]|H']; auto.
Qed.

Lemma issue_fetch_ok (u : string) (w : World) :
  step_ok env w (snd (issue_fetch env u w)) /\
  from_net env u (fst (issue_fetch env u w)).
Proof.
  split; [now apply step_ok_same|]. simpl.
  destruct (net env (fetch_count (trace w)) u) eqn:E; simpl; eauto.
Qed.

Lemma spec_fetch (u : string) :
  m_spec env (fetch_ env u) (fun r => from_net env u (NetResp r)).
Proof.
  intros w. destruct (issue_fetch_ok u w) as [Hs Hn]. unfold fetch_.
  destruct (issue_fetch env u w) as [[|r] w1]; simpl in *.
  - split; [exact Hs | discriminate].
  - split; [exact Hs|]. now intros a [= <-].
Qed.

Lemma spec_if {A} (b : bool) (m1 m2 : M A) (Q : A -> Prop) :
  (b = true -> m_spec env m1 Q) -> (b = false -> m_spec env m2 Q) ->
  m_spec env (if b then m1 else m2) Q.
Proof. destruct b; auto. Qed.

Lemma spec_warn (msg : string) : m_spec env (console_warn msg) (fun _ => True).
Proof. apply spec_emit. Qed.

Lemma spec_getOfflineResponse (request : Request) :
  m_spec env (Optimized.getOfflineResponse request) (fun _ => True).
Proof.
  unfold Optimized.getOfflineResponse.
  apply spec_if; intros _; [|now apply spec_ret].
  eapply spec_bind; [apply spec_open | intros; apply spec_match].
Qed.

(** Fetch, then store when ok: the body of the [try] blocks. *)
Lemma spec_fetch_and_store (u cacheName : string) (reopen : bool) :
  m_spec env
    (let* network := fetch_ env u in
     do* (if ok network then
            if reopen then do* caches_open cacheName in cache_put env cacheName u network
            else cache_put env cacheName u network
          else ret tt) in
     ret (Some network))
    (fun _ => True).
Proof.
  eapply spec_bind; [apply spec_fetch|]. intros network Hnet.
  eapply spec_bind; [|intros; now apply spec_ret].
  apply spec_if; intros Hok; [|now apply (spec_ret tt (fun _ => True))].
  destruct reopen.
  - eapply spec_bind; [apply spec_open | intros; now apply spec_put].
  - now apply spec_put.
Qed.

Lemma spec_updateCache (request : Request) (cacheName : string) :
  m_spec env (Optimized.updateCache env request cacheName) (fun _ => True).
Proof.
  intros w. unfold Optimized.updateCache.
  destruct (issue_fetch_ok (url request) w) as [Hs Hn].
  destruct (issue_fetch env (url request) w) as [settled w1]; simpl in *.
  destruct (spec_spawn (TUpdateCache (url request) cacheName settled) Hn w1) as [Hs' _].
  split; [eapply step_ok_trans; eauto | auto].
Qed.

Lemma spec_cacheFirst (request : Request) (cacheName : string) :
  m_spec env (Optimized.cacheFirst env request cacheName) (fun _ => True).
Proof.
  unfold Optimized.cacheFirst.
  eapply spec_bind; [apply spec_open|]. intros _ _.
  eapply spec_bind; [apply spec_match|]. intros [c|] _.
  - eapply spec_bind; [|intros; now apply spec_ret].
    apply spec_if; intros _;
      [apply spec_updateCache | now apply (spec_ret tt (fun _ => True))].
  - apply spec_try; [apply (spec_fetch_and_store _ _ false)|]. intros e.
    eapply spec_bind; [apply spec_warn | intros; apply spec_getOfflineResponse].
Qed.

Lemma spec_networkFirst (request : Request) (cacheName : string) :
  m_spec env (Optimized.networkFirst env request cacheName) (fun _ => True).
Proof.
  unfold Optimized.networkFirst.
  apply spec_try; [apply (spec_fetch_and_store _ _ true)|]. intros e.
  eapply spec_bind; [apply spec_warn|]. intros _ _.
  eapply spec_bind; [apply spec_open|]. intros _ _.
  eapply spec_bind; [apply spec_match|]. intros [c|] _.
  - now apply spec_ret.
  - apply spec_getOfflineResponse.
Qed.

Lemma spec_fetchPromise_resume (u cacheName : string) (cached : option Response)
    (settled : NetResult) :
  from_net env u settled ->
  m_spec env (Optimized.fetchPromise_resume env u cacheName cached settled)
    (fun _ => True).
Proof.
  intros Hn. unfold Optimized.fetchPromise_resume.
  apply spec_try; [|intros; now apply spec_ret].
  destruct settled as [|network]; [apply spec_throw|].
  eapply spec_bind; [|intros; now apply spec_ret].
  apply spec_if; intros Hok;
    [now apply spec_put | now apply (spec_ret tt (fun _ => True))].
Qed.

Lemma spec_staleWhileRevalidate (request : Request) (cacheName : string) :
  m_spec env (Optimized.staleWhileRevalidate env request cacheName) (fun _ => True).
Proof.
  unfold Optimized.staleWhileRevalidate.
  eapply spec_bind; [apply spec_open|]. intros _ _.
  eapply spec_bind; [apply spec_match|]. intros cached _.
  intros w. destruct (issue_fetch_ok (url request) w) as [Hs Hn].
  destruct (issue_fetch env (url request) w) as [settled w1]; simpl in *.
  split; [|auto].
  eapply step_ok_trans; [exact Hs|].
  destruct cached as [c|].
  - apply (spec_bind (spawn _) (fun _ => ret (Some c)) (fun _ => True) (fun _ => True));
      [now apply spec_spawn | intros; now apply spec_ret].
  - now apply spec_fetchPromise_resume.
Qed.

(** The dispatcher respects caches and queue for every request. *)
Lemma spec_fetch_dispatch (request : Request) :
  m_spec env (Optimized.fetch env request) (fun _ => True).
Proof.
  unfold Optimized.fetch, Optimized.handleStaticAsset, Optimized.handleImageRequest,
    Optimized.handleAPIRequest, Optimized.handlePageRequest,
    Optimized.handleGenericRequest.
  repeat (apply spec_if; intros _);
    auto using spec_cacheFirst, spec_networkFirst, spec_staleWhileRevalidate.
Qed.

Lemma spec_updateCache_resume (u cacheName : string) (settled : NetResult) :
  from_net env u settled ->
  m_spec env (Optimized.updateCache_resume env u cacheName settled) (fun _ => True).
Proof.
  intros Hn. unfold Optimized.updateCache_resume.
  apply spec_try; [|intros; apply spec_warn].
  destruct settled as [|network]; [apply spec_throw|].
  apply spec_if; intros Hok; [|now apply spec_ret].
  eapply spec_bind; [apply spec_open | intros; now apply spec_put].
Qed.

Lemma spec_run_task (t : Task) :
  task_sound env t -> m_spec env (run_task env t) (fun _ => True).
Proof.
  destruct t as [u n s|u n c s|u n s|u n r]; simpl; intros Ht.
  - now apply spec_updateCache_resume.
  - eapply spec_bind; [now apply spec_fetchPromise_resume | intros; now apply spec_ret].
  - unfold Legacy.revalidate_resume, Legacy.put_resume.
    destruct s as [|response]; [apply spec_throw|].
    apply spec_if; intros Hok; [now apply spec_put | now apply spec_ret].
  - destruct Ht. now apply spec_put.
Qed.

Lemma settle_ok (m : M unit) (w : World) :
  m_spec env m (fun _ => True) -> step_ok env w (settle m w).
Proof.
  intros Hm. destruct (Hm w) as [Hs _]. unfold settle.
  destruct (m w) as [[a|e] w1]; simpl in *; [exact Hs|].
  eapply step_ok_trans; [exact Hs | now apply step_ok_same].
Qed.

Lemma run_tasks_ok (ts : list Task) (w : World) :
  Forall (task_sound env) ts -> step_ok env w (run_tasks env ts w).
Proof.
  revert w. induction ts as [|t ts IH]; intros w Hts; simpl; [apply step_ok_refl|].
  inversion Hts; subst.
  match goal with Ht : task_sound env t |- _ =>
    eapply step_ok_trans; [apply settle_ok, spec_run_task, Ht | now apply IH] end.
Qed.

Lemma run_pending_ok (w : World) :
  Forall (task_sound env) (pending w) -> step_ok env w (run_pending env w).
Proof.
  intros Hp. unfold run_pending.
  eapply step_ok_trans; [|now apply run_tasks_ok].
  split; simpl; [intros name u r H; now left | constructor].
Qed.

End StoresOnlyOk.

(** C10. Start from a world whose pending tasks carry settlements of the
    network. After the dispatcher has handled any request and all the
    pending work (the background refreshes included) has run, every entry
    of every named cache either was there before or is a response with an
    ok status that the network gave for that URL: a non-ok network response
    is never written. *)
Theorem C10_only_ok_responses_stored
    (env : Env) (request : Request) (w : World) (name u : string) (r : Response) :
  Forall (task_sound env) (pending w) ->
  cs_entry name u
    (caches (run_pending env (snd (Optimized.fetch env request w)))) = Some r ->
  cs_entry name u (caches w) = Some r \/
  (ok r = true /\ exists i, net env i u = NetResp r).
Proof.
  intros Hp H.
  destruct (spec_fetch_dispatch env request w) as [[S1 P1] _].
  destruct (run_pending_ok env _ (P1 Hp)) as [S2 _].
  destruct (S2 _ _ _ H) as [H'|H']; [now apply S1 | now right].
Qed.

Lemma C10_only_ok_responses_stored_witness :
  cs_entry Optimized.RAVAN_FASHION_CACHE_PAGES Examples.page_url
    (caches (Examples.pages_holds Examples.page_cached)) = Some Examples.page_fresh \/
  (ok Examples.page_fresh = true /\
   exists i, net Examples.online i Examples.page_url = NetResp Examples.page_fresh).
Proof.
  apply (C10_only_ok_responses_stored Examples.online Examples.page_request
           (Examples.pages_holds Examples.page_cached)).
  - constructor.
  - vm_compute. reflexivity.
Defined.

(** ** The dispatchers always settle *)

Section Settles.

Context (env : Env).









End Settles.

Section LegacySettles.

Context (env : Env).








End LegacySettles.




(** ** Activation *)

Lemma cs_lookup_delete_all name (names : list string) (cs : CacheStorage) :
  cs_lookup name (cs_delete_all names cs) =
  if Js.array_includes names name then None else cs_lookup name cs.
Proof.
  unfold cs_delete_all, Js.array_includes. revert cs.
  induction names as [|n names IH]; intros cs; simpl; [reflexivity|].
  rewrite IH, cs_lookup_delete, (String.eqb_sym name n).
  destruct (String.eqb n name); simpl; [|reflexivity].
  now destruct (existsb (String.eqb name) names).
Qed.

Lemma array_includes_filter (p : string -> bool) (names : list string) name :
  Js.array_includes (List.filter p names) name = p name && Js.array_includes names name.
Proof.
  unfold Js.array_includes.
  induction names as [|n names IH]; simpl; [now rewrite andb_false_r|].
  destruct (String.eqb_spec name n) as [->|Hne]; simpl.
  - destruct (p n); simpl; [now rewrite String.eqb_refl | exact IH].
  - destruct (p n); simpl; [|exact IH].
    destruct (String.eqb_spec name n); [contradiction | exact IH].
Qed.

Lemma array_includes_keys name (cs : CacheStorage) :
  Js.array_includes (cs_keys cs) name = cs_has name cs.
Proof.
  unfold Js.array_includes, cs_keys, cs_has.
  induction cs as [|[n c] cs IH]; simpl; [reflexivity|].
  rewrite (String.eqb_sym name n). destruct (String.eqb n name); [reflexivity | exact IH].
Qed.

(** Deleting the names of [cs] that satisfy [p]. *)
Lemma cs_lookup_delete_filter (p : string -> bool) name (cs : CacheStorage) :
  cs_lookup name (cs_delete_all (List.filter p (cs_keys cs)) cs) =
  if p name then None else cs_lookup name cs.
Proof.
  rewrite cs_lookup_delete_all, array_includes_filter, array_includes_keys.
  unfold cs_has. destruct (p name); simpl; [|reflexivity].
  now destruct (cs_lookup name cs).
Qed.

Lemma for_of_delete (names : list string) (w : World) :
  for_of names caches_delete w =
  (Resolved tt, mkWorld (cs_delete_all names (caches w)) (trace w) (pending w)).
Proof.
  revert w. induction names as [|n names IH]; intros w; simpl.
  - unfold ret. now rewrite world_eta.
  - unfold bind, caches_delete at 1. now rewrite IH.
Qed.

Lemma for_of_delete_if (p : string -> bool) (names : list string) (w : World) :
  for_of names (fun n => if p n then caches_delete n else ret tt) w =
  (Resolved tt,
   mkWorld (cs_delete_all (List.filter p names) (caches w)) (trace w) (pending w)).
Proof.
  revert w. induction names as [|n names IH]; intros w; simpl.
  - unfold ret. now rewrite world_eta.
  - unfold bind. destruct (p n); simpl.
    + now rewrite IH.
    + unfold ret at 1. now rewrite IH.
Qed.

Lemma optimized_activate_caches (w : World) :
  fst (Optimized.activate w) = Resolved tt /\
  caches (snd (Optimized.activate w)) =
  cs_delete_all
    (List.filter
       (fun n => negb (Js.array_includes Optimized.RAVAN_FASHION_CACHE_values n))
       (cs_keys (caches w)))
    (caches w).
Proof.
  unfold Optimized.activate, Optimized.cleanupOldCaches. munfold.
  rewrite for_of_delete. simpl. auto.
Qed.

Lemma legacy_activate_caches (w : World) :
  fst (Legacy.activate w) = Resolved tt /\
  caches (snd (Legacy.activate w)) =
  cs_delete_all (List.filter Legacy.is_outdated (cs_keys (caches w))) (caches w).
Proof.
  unfold Legacy.activate. munfold. rewrite for_of_delete_if. simpl. auto.
Qed.

(** C6 (amended). Activation of the optimized worker resolves and leaves
    under each name exactly this: the cache as it was when the name is one
    of the five current cache names, nothing otherwise. Activation of the
    earlier worker resolves and removes exactly the names that start with
    [ravan-fashion-] and do not end in [-v1]; every other name, also one
    without the application prefix, keeps its cache. None of the earlier
    worker's own four cache names is removed. *)
Theorem C6_activation_cleanup (w : World) (name : string) :
  (fst (Optimized.activate w) = Resolved tt /\
   cs_lookup name (caches (snd (Optimized.activate w))) =
   if Js.array_includes Optimized.RAVAN_FASHION_CACHE_values name
   then cs_lookup name (caches w) else None) /\
  (fst (Legacy.activate w) = Resolved tt /\
   cs_lookup name (caches (snd (Legacy.activate w))) =
   if Js.startsWith name "ravan-fashion-" && negb (Js.endsWith name "-v1")
   then None else cs_lookup name (caches w)) /\
  Forall (fun own => Legacy.is_outdated own = false) Legacy.own_caches.
Proof.
  split; [|split].
  - destruct (optimized_activate_caches w) as [Hr ->].
    split; [exact Hr|].
    rewrite (cs_lookup_delete_filter
               (fun n => negb (Js.array_includes Optimized.RAVAN_FASHION_CACHE_values n))).
    now destruct (Js.array_includes Optimized.RAVAN_FASHION_CACHE_values name).
  - destruct (legacy_activate_caches w) as [Hr ->].
    split; [exact Hr|]. now rewrite cs_lookup_delete_filter.
  - repeat constructor.
Qed.

(** C6, counterexample. The cache [cart-drafts-v0] carries no current
    version tag and is not one of the earlier worker's caches, and it is
    still there after that worker's activation. *)
Lemma C6_legacy_keeps_foreign_cache :
  Js.endsWith Examples.foreign_cache "-v1" = false /\
  Js.array_includes Legacy.own_caches Examples.foreign_cache = false /\
  cs_has Examples.foreign_cache (caches Examples.with_foreign_cache) = true /\
  cs_has Examples.foreign_cache
    (caches (snd (Legacy.activate Examples.with_foreign_cache))) = true.
Proof. repeat split; vm_compute; reflexivity. Qed.

(** ** Installation *)

Section AddAll.

Context (env : Env).

Lemma fetch_all_spec (urls : list string) (w : World) :
  caches (snd (fetch_all env urls w)) = caches w /\
  pending (snd (fetch_all env urls w)) = pending w /\
  fetched (trace (snd (fetch_all env urls w))) = fetched (trace w) ++ urls /\
  Forall2 (fun u r => exists i, net env i u = r) urls (fst (fetch_all env urls w)).
Proof.
  revert w. induction urls as [|u us IH]; intros w; simpl.
  - rewrite app_nil_r. repeat split. constructor.
  - specialize (IH (mkWorld (caches w) (trace w ++ [EFetch u]) (pending w))).
    destruct (fetch_all env us _) as [rs w2]; simpl in *.
    destruct IH as (Hc & Hp & Hf & Hr). repeat split; auto.
    + rewrite Hf, fetched_app. simpl. now rewrite <- app_assoc.
    + constructor; eauto.
Qed.

Lemma all_ok_Some (urls : list string) (rs : list NetResult) (resps : list Response) :
  Forall2 (fun u r => exists i, net env i u = r) urls rs ->
  all_ok rs = Some resps ->
  Forall2 (fun u r => ok r = true /\ exists i, net env i u = NetResp r) urls resps.
Proof.
  intros H. revert resps. induction H as [|u r us rs Hu _ IH]; intros resps; simpl.
  - intros [= <-]. constructor.
  - destruct r as [|r]; [discriminate|].
    destruct (ok r) eqn:Hok; [|discriminate].
    destruct (all_ok rs) as [l|]; [|discriminate].
    intros [= <-]. constructor; auto.
Qed.

Lemma all_ok_storable (name : string) (urls : list string) (rs : list NetResult) :
  Forall2 (fun u r => exists i, net env i u = r) urls rs ->
  (forall u, In u urls -> always_storable env name u) ->
  exists resps, all_ok rs = Some resps.
Proof.
  intros H. induction H as [|u r us rs [i Hu] _ IH]; intros Hs; simpl; [eauto|].
  destruct (Hs u (or_introl eq_refl) i) as (r' & Hr' & Hok & _).
  rewrite Hr' in Hu. subst r. rewrite Hok.
  destruct IH as [l ->]; [intros; apply Hs; now right | eauto].
Qed.

Lemma all_ok_fails (urls : list string) (rs : list NetResult) (u : string) :
  Forall2 (fun u r => exists i, net env i u = r) urls rs ->
  In u urls -> always_fails env u -> all_ok rs = None.
Proof.
  intros H Hin Hf. induction H as [|u0 r us rs [i Hu] _ IH]; simpl; [contradiction|].
  destruct r as [|r]; [reflexivity|].
  destruct Hin as [->|Hin].
  - specialize (Hf i). rewrite Hu in Hf. now rewrite Hf.
  - rewrite (IH Hin). now destruct (ok r).
Qed.

Lemma put_all_notin (entries : list (string * Response)) (c : Cache) (u : string) :
  ~ In u (map fst entries) -> put_all entries c !! u = c !! u.
Proof.
  revert c. induction entries as [|[u0 r0] es IH]; intros c Hn; simpl; [reflexivity|].
  simpl in Hn. rewrite IH by tauto. apply lookup_insert_ne. tauto.
Qed.

Lemma put_all_in (entries : list (string * Response)) (c : Cache) (u : string) :
  In u (map fst entries) ->
  exists r, put_all entries c !! u = Some r /\ In (u, r) entries.
Proof.
  revert c. induction entries as [|[u0 r0] es IH]; intros c Hin; simpl; [contradiction|].
  destruct (in_dec string_dec u (map fst es)) as [Hes|Hes].
  - destruct (IH (<[u0:=r0]> c) Hes) as (r & Hr & Hi). eauto.
  - destruct Hin as [Hu|Hin]; [simpl in Hu; subst u0 | contradiction].
    exists r0. split; [|now left].
    rewrite put_all_notin by exact Hes. apply lookup_insert_eq.
Qed.

Lemma Forall2_combine_in {A B} (P : A -> B -> Prop) (xs : list A) (ys : list B) x y :
  Forall2 P xs ys -> In (x, y) (combine xs ys) -> P x y.
Proof.
  intros H. induction H as [|x0 y0 xs ys Hxy _ IH]; simpl; [contradiction|].
  intros [[= -> ->]|Hin]; auto.
Qed.

Lemma Forall2_combine_fst {A B} (P : A -> B -> Prop) (xs : list A) (ys : list B) :
  Forall2 P xs ys -> map fst (combine xs ys) = xs.
Proof. intros H. induction H; simpl; [reflexivity | now f_equal]. Qed.

(** An entry of a cache after [f] was applied to the cache [name]. *)
Lemma cs_entry_update name m u f (cs : CacheStorage) :
  cs_entry name u (cs_update m f cs) =
  if String.eqb m name
  then match cs_lookup name cs with Some c => f c !! u | None => None end
  else cs_entry name u cs.
Proof.
  unfold cs_entry. rewrite cs_lookup_update.
  destruct (String.eqb m name); [|reflexivity].
  now destruct (cs_lookup name cs).
Qed.

Lemma stored_from_net_caches (name u : string) (w w' : World) :
  caches w' = caches w -> stored_from_net env name u w -> stored_from_net env name u w'.
Proof. unfold stored_from_net. now intros ->. Qed.

(** [cache.addAll]: what it fetches, what it keeps, when it settles how. *)
Lemma cache_addAll_spec (name : string) (urls : list string) (w : World) :
  cs_has name (caches w) = true ->
  let res := cache_addAll env name urls w in
  fetched (trace (snd res)) = fetched (trace w) ++ urls /\
  cs_has name (caches (snd res)) = true /\
  (forall u, stored_from_net env name u w -> stored_from_net env name u (snd res)) /\
  (fst res = Resolved tt -> forall u, In u urls -> stored_from_net env name u (snd res)) /\
  ((forall u, In u urls -> always_storable env name u) -> fst res = Resolved tt) /\
  ((exists u, In u urls /\ always_fails env u) -> fst res = Rejected TypeError) /\
  (forall e, fst res = Rejected e -> caches (snd res) = caches w).
Proof.
  intros Hhas. unfold cache_addAll.
  destruct (fetch_all_spec urls w) as (Hc & Hp & Hf & Hr).
  destruct (fetch_all env urls w) as [rs w1]; simpl in Hc, Hp, Hf, Hr.
  destruct (all_ok rs) as [resps|] eqn:Hall.
  - pose proof (all_ok_Some _ _ _ Hr Hall) as Hresps.
    destruct (existsb _ (combine urls resps)) eqn:Hrej; simpl.
    + repeat split; auto.
      * now rewrite Hc.
      * intros u. now apply stored_from_net_caches.
      * discriminate.
      * intros Hs. exfalso.
        apply existsb_exists in Hrej. destruct Hrej as ([u r] & Hin & Hput).
        destruct (Forall2_combine_in _ _ _ _ _ Hresps Hin) as (_ & i & Hi).
        apply in_combine_l in Hin.
        destruct (Hs u Hin i) as (r' & Hr' & _ & Hacc).
        simpl in Hput. congruence.
      * intros (u & Hin & Hfail). now rewrite (all_ok_fails _ _ _ Hr Hin Hfail) in Hall.
    + repeat split; auto.
      * rewrite cs_has_update. now rewrite Hc.
      * intros u (r & He & Hok & Hnet). unfold stored_from_net. simpl.
        rewrite cs_entry_update.
        destruct (String.eqb_spec name name) as [_|]; [|contradiction].
        rewrite Hc. unfold cs_entry in He.
        destruct (cs_lookup name (caches w)) as [c|]; [|discriminate].
        destruct (in_dec string_dec u (map fst (combine urls resps))) as [Hin|Hin].
        -- destruct (put_all_in _ c u Hin) as (r' & Hr' & Hi).
           destruct (Forall2_combine_in _ _ _ _ _ Hresps Hi) as (Hok' & Hnet').
           eauto.
        -- rewrite put_all_notin by exact Hin. eauto.
      * intros _ u Hin. unfold stored_from_net. simpl.
        rewrite cs_entry_update.
        destruct (String.eqb_spec name name) as [_|]; [|contradiction].
        rewrite Hc. unfold cs_has in Hhas.
        destruct (cs_lookup name (caches w)) as [c|]; [|discriminate].
        rewrite <- (Forall2_combine_fst _ _ _ Hresps) in Hin.
        destruct (put_all_in _ c u Hin) as (r' & Hr' & Hi).
        destruct (Forall2_combine_in _ _ _ _ _ Hresps Hi) as (Hok' & Hnet').
        eauto.
      * intros (u & Hin & Hfail). now rewrite (all_ok_fails _ _ _ Hr Hin Hfail) in Hall.
      * discriminate.
  - simpl. repeat split; auto.
    + now rewrite Hc.
    + intros u. now apply stored_from_net_caches.
    + discriminate.
    + intros Hs. destruct (all_ok_storable name _ _ Hr Hs) as [l Hl]. congruence.
Qed.

End AddAll.

Section Precache.

Context (env : Env).

Local Abbreviation STATIC := Optimized.RAVAN_FASHION_CACHE_STATIC.

Context (msg : string -> string).

(** One round of the per-URL fallback of [precacheCriticalResources]. *)
Lemma retry_one (u : string) (w : World) :
  cs_has STATIC (caches w) = true ->
  let res :=
    try_catch (cache_add env STATIC u) (fun err => console_warn (msg u)) w in
  fst res = Resolved tt /\
  fetched (trace (snd res)) = fetched (trace w) ++ [u] /\
  cs_has STATIC (caches (snd res)) = true /\
  (forall u', stored_from_net env STATIC u' w -> stored_from_net env STATIC u' (snd res)) /\
  (always_storable env STATIC u -> stored_from_net env STATIC u (snd res)).
Proof.
  intros Hhas. unfold try_catch, cache_add.
  destruct (cache_addAll_spec env STATIC [u] w Hhas) as (Hf & Hh & Hkeep & Hnew & Hres & _).
  destruct (cache_addAll env STATIC [u] w) as [[[]|e] w1]; simpl in *.
  - repeat split; auto.
  - repeat split; auto.
    + rewrite fetched_app, Hf. simpl. now rewrite app_nil_r.
    + intros Hs. specialize (Hres (fun u' Hin =>
        match Hin with or_introl E => eq_ind u _ Hs u' E | or_intror F => False_ind _ F end)).
      discriminate.
Qed.

Lemma retry_loop (urls : list string) (w : World) :
  cs_has STATIC (caches w) = true ->
  let res :=
    for_of urls (fun u =>
      try_catch (cache_add env STATIC u) (fun err => console_warn (msg u))) w in
  fst res = Resolved tt /\
  fetched (trace (snd res)) = fetched (trace w) ++ urls /\
  (forall u, stored_from_net env STATIC u w -> stored_from_net env STATIC u (snd res)) /\
  (forall u, In u urls -> always_storable env STATIC u ->
             stored_from_net env STATIC u (snd res)).
Proof.
  revert w. induction urls as [|u us IH]; intros w Hhas; simpl.
  - rewrite app_nil_r. repeat split; auto. contradiction.
  - unfold bind.
    destruct (retry_one u w Hhas) as (Hr & Hf & Hh & Hkeep & Hnew).
    destruct (try_catch _ _ w) as [r1 w1]; simpl in *. subst r1.
    destruct (IH w1 Hh) as (Hr' & Hf' & Hkeep' & Hnew').
    repeat split; auto.
    + rewrite Hf', Hf. now rewrite <- app_assoc.
    + intros u' [<-|Hin] Hs; auto.
Qed.

End Precache.

Section Install.

Context (env : Env).

Local Abbreviation STATIC := Optimized.RAVAN_FASHION_CACHE_STATIC.

(** [precacheCriticalResources] by the way its [addAll] settles. *)
Lemma precacheCriticalResources_unfold (urls : list string) (w : World) :
  Optimized.precacheCriticalResources env urls w =
  match cache_addAll env STATIC urls
          (mkWorld (cs_open STATIC (caches w)) (trace w) (pending w)) with
  | (Resolved _, w1) =>
      (Resolved tt,
       mkWorld (caches w1)
         (trace w1 ++ [ELog "Critical resources precached successfully"]) (pending w1))
  | (Rejected _, w1) =>
      for_of urls (fun u =>
        try_catch (cache_add env STATIC u)
          (fun err => console_warn ("Failed to cache " +:+ u +:+ ":")))
        (mkWorld (caches w1)
           (trace w1 ++ [EWarn "Failed to precache some resources:"]) (pending w1))
  end.
Proof.
  unfold Optimized.precacheCriticalResources, bind, try_catch, caches_open,
    console_log, console_warn, emit.
  now destruct (cache_addAll env STATIC urls _) as [[[]|e] w1].
Qed.

(** [precacheCriticalResources] never rejects; what it leaves behind. *)
Lemma precacheCriticalResources_spec (urls : list string) (w : World) :
  let res := Optimized.precacheCriticalResources env urls w in
  fst res = Resolved tt /\
  (forall u, In u urls -> always_storable env STATIC u ->
             stored_from_net env STATIC u (snd res)) /\
  ((exists u, In u urls /\ always_fails env u) ->
   fetched (trace (snd res)) = fetched (trace w) ++ urls ++ urls).
Proof.
  cbv zeta. rewrite precacheCriticalResources_unfold.
  set (w0 := mkWorld (cs_open STATIC (caches w)) (trace w) (pending w)).
  assert (Hhas : cs_has STATIC (caches w0) = true) by apply cs_has_open.
  destruct (cache_addAll_spec env STATIC urls w0 Hhas)
    as (Hf & Hh & _ & Hnew & _ & Hfail & _).
  destruct (cache_addAll env STATIC urls w0) as [[[]|e] w1];
    cbn [fst snd trace caches pending] in *.
  - repeat split; auto.
    + intros u Hin _. eapply stored_from_net_caches; [|apply (Hnew eq_refl u Hin)].
      reflexivity.
    + intros Hex. specialize (Hfail Hex). discriminate.
  - set (w2 := mkWorld (caches w1) _ (pending w1)).
    destruct (retry_loop env (fun u => "Failed to cache " +:+ u +:+ ":") urls w2 Hh)
      as (Hr & Hf' & _ & Hnew').
    repeat split; auto.
    intros _. rewrite Hf'. unfold w2. simpl.
    rewrite fetched_app, Hf. simpl. now rewrite app_nil_r, <- app_assoc.
Qed.

(** The earlier worker's install listener rejects when a URL of either of
    its two manifests cannot be fetched. *)
Lemma legacy_install_rejects (w : World) (u : string) :
  In u (Legacy.CRITICAL_ASSETS ++ Legacy.CULTURAL_IMAGES) ->
  always_fails env u ->
  exists e, fst (Legacy.install env w) = Rejected e.
Proof.
  intros Hin Hfail. unfold Legacy.install.
  unfold bind at 1, emit at 1. simpl.
  set (w0 := mkWorld (caches w) _ (pending w)).
  unfold bind at 1, caches_open at 1.
  match goal with
  | |- context [cache_addAll env Legacy.CRITICAL_CACHE Legacy.CRITICAL_ASSETS ?w1] =>
      destruct (cache_addAll_spec env Legacy.CRITICAL_CACHE Legacy.CRITICAL_ASSETS w1
                  (cs_has_open _ _)) as (_ & _ & _ & _ & _ & Hf1 & _);
      destruct (cache_addAll env Legacy.CRITICAL_CACHE Legacy.CRITICAL_ASSETS w1)
        as [[[]|e1] w1']
  end; [|simpl; eauto].
  unfold bind at 1, caches_open at 1.
  match goal with
  | |- context [cache_addAll env Legacy.IMAGE_CACHE Legacy.CULTURAL_IMAGES ?w2] =>
      destruct (cache_addAll_spec env Legacy.IMAGE_CACHE Legacy.CULTURAL_IMAGES w2
                  (cs_has_open _ _)) as (_ & _ & _ & _ & _ & Hf2 & _);
      destruct (cache_addAll env Legacy.IMAGE_CACHE Legacy.CULTURAL_IMAGES w2)
        as [[[]|e2] w2']
  end; [|simpl; eauto].
  exfalso. apply in_app_or in Hin. destruct Hin as [Hin|Hin].
  - simpl in Hf1. specialize (Hf1 (ex_intro _ u (conj Hin Hfail))). discriminate.
  - simpl in Hf2. specialize (Hf2 (ex_intro _ u (conj Hin Hfail))). discriminate.
Qed.

End Install.

(** C7 (amended). Installation of the optimized worker resolves for every
    manifest and every network. Every manifest URL whose fetches are
    answered with an ok response that the cache accepts is stored in the
    static cache afterwards, and when some manifest URL cannot be fetched
    every manifest URL has been fetched twice: once in the [addAll] batch
    and once more on its own. The earlier worker has no such retry: its
    installation rejects when a URL of one of its manifests cannot be
    fetched. *)
Theorem C7_install_best_effort (env : Env) (urls : list string) (w : World) :
  (fst (Optimized.install env urls w) = Resolved tt /\
   (forall u, In u urls ->
              always_storable env Optimized.RAVAN_FASHION_CACHE_STATIC u ->
              stored_from_net env Optimized.RAVAN_FASHION_CACHE_STATIC u
                (snd (Optimized.install env urls w))) /\
   ((exists u, In u urls /\ always_fails env u) ->
    fetched (trace (snd (Optimized.install env urls w)))
    = fetched (trace w) ++ urls ++ urls)) /\
  (forall u, In u (Legacy.CRITICAL_ASSETS ++ Legacy.CULTURAL_IMAGES) ->
             always_fails env u ->
             exists e, fst (Legacy.install env w) = Rejected e).
Proof.
  split; [|intros u; apply legacy_install_rejects].
  unfold Optimized.install, bind, console_log, emit.
  cbn [fst snd trace caches pending].
  match goal with
  | |- context [Optimized.precacheCriticalResources env urls ?w2] =>
      destruct (precacheCriticalResources_spec env urls w2) as (Hr & Hs & Hf)
  end.
  repeat split; auto.
  intros Hex. rewrite (Hf Hex). cbn [trace]. rewrite !fetched_app. simpl.
  now rewrite !app_nil_r.
Qed.

Lemma C7_install_best_effort_witness :
  stored_from_net Examples.offline_page_missing Optimized.RAVAN_FASHION_CACHE_STATIC
    "/assets/placeholder.svg"
    (snd (Optimized.install Examples.offline_page_missing Optimized.getPrecacheUrls
            Examples.empty_world)) /\
  fetched (trace (snd (Optimized.install Examples.offline_page_missing
                         Optimized.getPrecacheUrls Examples.empty_world)))
  = Optimized.getPrecacheUrls ++ Optimized.getPrecacheUrls.
Proof.
  destruct (C7_install_best_effort Examples.offline_page_missing
              Optimized.getPrecacheUrls Examples.empty_world) as [(_ & Hs & Hf) _].
  split.
  - apply Hs.
    + simpl. tauto.
    + intros i. eexists. repeat split; vm_compute; reflexivity.
  - apply Hf. exists "/offline.html". split.
    + simpl. tauto.
    + intros i. vm_compute. reflexivity.
Defined.

(** C7, counterexample. [/files/silk-texture.jpg] answers 404 and every
    other URL is served: the earlier worker's installation rejects, and the
    other images of its manifest are not in the image cache. *)
Lemma C7_legacy_install_fails_outright :
  In "/files/silk-texture.jpg" Legacy.CULTURAL_IMAGES /\
  net Examples.texture_missing 0 "/files/silk-texture.jpg"
    = NetResp Examples.not_found /\
  fst (Legacy.install Examples.texture_missing Examples.empty_world)
    = Rejected TypeError /\
  cs_entry Legacy.IMAGE_CACHE "/files/kolam-pattern.svg"
    (caches (snd (Legacy.install Examples.texture_missing Examples.empty_world)))
    = None.
Proof. repeat split; try (vm_compute; reflexivity). simpl. tauto. Qed.

(** ** Messages *)

Section Messages.

Lemma resolves_ret {A} (a : A) : resolves (ret a).
Proof. intros w. now exists a, w. Qed.

Lemma resolves_emit (e : Event) : resolves (emit e).
Proof. intros w. unfold emit. eauto. Qed.

Lemma resolves_bind {A B} (m : M A) (f : A -> M B) :
  resolves m -> (forall a, resolves (f a)) -> resolves (bind m f).
Proof.
  intros Hm Hf w. unfold bind. destruct (Hm w) as (a & w1 & ->). apply Hf.
Qed.

(** A [try] whose [catch] block cannot fail settles successfully. *)
Lemma resolves_try {A} (m : M A) (h : Exn -> M A) :
  (forall e, resolves (h e)) -> resolves (try_catch m h).
Proof.
  intros Hh w. unfold try_catch. destruct (m w) as [[a|e] w1]; [eauto | apply Hh].
Qed.

(** The operations of the worker are those over the platform of this
    development. *)
Lemma calculateCacheSize_standard (env : Env) (keys : list string) (total : nat)
    (w : World) :
  Optimized.calculateCacheSize keys total w
  = Optimized.calculateCacheSize_on (Optimized.standard env) keys total w.
Proof.
  revert total w. induction keys as [|key keys IH]; intros total w; [reflexivity|].
  simpl. unfold bind at 1 3, try_catch, bind, caches_match, ret. simpl.
  destruct (cs_match_any key (caches w)); apply IH.
Qed.

Lemma getCacheStats_loop_standard (env : Env) (names : list string) (stats : Stats)
    (w : World) :
  Optimized.getCacheStats_loop names stats w
  = Optimized.getCacheStats_loop_on (Optimized.standard env) names stats w.
Proof.
  revert stats w. induction names as [|n names IH]; intros stats w; [reflexivity|].
  simpl. unfold bind at 1 5, try_catch. unfold bind at 1 4, caches_open.
  unfold bind at 1 3, cache_keys. cbn [fst snd caches trace pending].
  unfold bind. rewrite (calculateCacheSize_standard env).
  destruct (Optimized.calculateCacheSize_on _ _ 0%nat _) as [[size|e] w1];
    unfold ret; apply IH.
Qed.

Lemma message_standard (env : Env) (event : MessageEvent) (w : World) :
  Optimized.message env event w
  = Optimized.message_on (Optimized.standard env) event w.
Proof.
  unfold Optimized.message, Optimized.message_on.
  destruct (ev_data event) as [|[t|] data]; [reflexivity| |reflexivity].
  destruct (String.eqb t "SKIP_WAITING"); [reflexivity|].
  destruct (String.eqb t "CACHE_URL"); [destruct data; reflexivity|].
  destruct (String.eqb t "CLEAR_CACHE"); [destruct data; reflexivity|].
  destruct (String.eqb t "GET_CACHE_STATS"); [|reflexivity].
  unfold bind, Optimized.getCacheStats, Optimized.getCacheStats_on.
  now rewrite (getCacheStats_loop_standard env).
Qed.

Context (P : Optimized.Platform).

Lemma cacheUrl_on_resolves (u cacheName : option string) :
  resolves (Optimized.cacheUrl_on P u cacheName).
Proof. apply resolves_try. intros e. apply resolves_emit. Qed.

Lemma clearCache_on_resolves (cacheName : option string) :
  resolves (Optimized.clearCache_on P cacheName).
Proof. apply resolves_try. intros e. apply resolves_emit. Qed.

(** With the stored data the placeholders they are, [syncNow] calls
    nothing of the platform. *)
Lemma syncNow_on_value (w : World) :
  Optimized.syncNow_on P w =
  (Resolved tt,
   mkWorld (caches w)
     ((trace w ++ [ELog "Starting background sync..."])
        ++ [ELog "Background sync completed"])
     (pending w)).
Proof. reflexivity. Qed.

Lemma calculateCacheSize_on_resolves (keys : list string) (total : nat) :
  resolves (Optimized.calculateCacheSize_on P keys total).
Proof.
  revert total. induction keys as [|key keys IH]; intros total; simpl.
  - apply resolves_ret.
  - apply resolves_bind; [|intros t; apply IH].
    apply resolves_try. intros e.
    apply resolves_bind; [apply resolves_emit | intros _; apply resolves_ret].
Qed.

Lemma getCacheStats_loop_on_resolves (names : list string) (stats : Stats) :
  resolves (Optimized.getCacheStats_loop_on P names stats).
Proof.
  revert stats. induction names as [|n names IH]; intros stats; simpl.
  - apply resolves_ret.
  - apply resolves_bind; [|intros entry; apply IH].
    apply resolves_try. intros e. apply resolves_ret.
Qed.

(** One turn of the loop of [getCacheStats] whose [caches.open] or
    [cache.keys] rejects: the cache is reported empty, nothing is logged. *)
Lemma getCacheStats_loop_on_open_rejected (name : string) (names : list string)
    (stats : Stats) (w : World) (e : Exn) (w1 : World) :
  Optimized.p_open P name w = (Rejected e, w1) ->
  Optimized.getCacheStats_loop_on P (name :: names) stats w
  = Optimized.getCacheStats_loop_on P names (stats ++ [(name, (0%nat, 0%nat))]) w1.
Proof.
  intros Ho. simpl. unfold bind at 1, try_catch. unfold bind at 1.
  now rewrite Ho.
Qed.

Lemma getCacheStats_loop_on_keys_rejected (name : string) (names : list string)
    (stats : Stats) (w w1 : World) (e : Exn) (w2 : World) :
  Optimized.p_open P name w = (Resolved tt, w1) ->
  Optimized.p_keys P name w1 = (Rejected e, w2) ->
  Optimized.getCacheStats_loop_on P (name :: names) stats w
  = Optimized.getCacheStats_loop_on P names (stats ++ [(name, (0%nat, 0%nat))]) w2.
Proof.
  intros Ho Hk. simpl. unfold bind at 1, try_catch. unfold bind at 1.
  rewrite Ho. unfold bind at 1. now rewrite Hk.
Qed.

(** One turn of the loop of [calculateCacheSize] whose [caches.match] or
    [response.blob] rejects: one warning, and the total as it was. *)
Lemma calculateCacheSize_on_match_rejected (key : string) (keys : list string)
    (total : nat) (w : World) (e : Exn) (w1 : World) :
  Optimized.p_match P key w = (Rejected e, w1) ->
  Optimized.calculateCacheSize_on P (key :: keys) total w
  = Optimized.calculateCacheSize_on P keys total
      (mkWorld (caches w1) (trace w1 ++ [EWarn "Failed to calculate size for:"])
         (pending w1)).
Proof.
  intros Hm. simpl. unfold bind at 1, try_catch. unfold bind at 1.
  now rewrite Hm.
Qed.

Lemma calculateCacheSize_on_blob_rejected (key : string) (keys : list string)
    (total : nat) (w : World) (r : Response) (w1 : World) (e : Exn) (w2 : World) :
  Optimized.p_match P key w = (Resolved (Some r), w1) ->
  Optimized.p_blob_size P r w1 = (Rejected e, w2) ->
  Optimized.calculateCacheSize_on P (key :: keys) total w
  = Optimized.calculateCacheSize_on P keys total
      (mkWorld (caches w2) (trace w2 ++ [EWarn "Failed to calculate size for:"])
         (pending w2)).
Proof.
  intros Hm Hb. simpl. unfold bind at 1, try_catch. unfold bind at 1.
  rewrite Hm. unfold bind at 1. now rewrite Hb.
Qed.

(** When no cache can be opened, every cache is reported empty. *)
Lemma getCacheStats_loop_on_all_rejected (names : list string) (stats : Stats)
    (w : World) :
  (forall name w0, exists e, Optimized.p_open P name w0 = (Rejected e, w0)) ->
  Optimized.getCacheStats_loop_on P names stats w
  = (Resolved (stats ++ map (fun name => (name, (0%nat, 0%nat))) names), w).
Proof.
  intros Hall. revert stats. induction names as [|n names IH]; intros stats.
  - simpl. now rewrite app_nil_r.
  - destruct (Hall n w) as [e He].
    rewrite (getCacheStats_loop_on_open_rejected _ _ _ _ _ _ He), IH.
    now rewrite <- app_assoc.
Qed.

(** The failures of [cacheUrl]: each lands in the [catch] of the operation. *)
Lemma cacheUrl_on_open_rejected (u cacheName : option string) (w : World)
    (e : Exn) (w1 : World) :
  Optimized.p_open P (default Optimized.RAVAN_FASHION_CACHE_STATIC cacheName) w = (Rejected e, w1) ->
  Optimized.cacheUrl_on P u cacheName w =
  (Resolved tt,
   mkWorld (caches w1) (trace w1 ++ [EWarn "Failed to cache URL:"]) (pending w1)).
Proof.
  intros Ho. unfold Optimized.cacheUrl_on, try_catch. unfold bind at 1.
  now rewrite Ho.
Qed.

Lemma cacheUrl_on_fetch_rejected (u cacheName : option string) (w w1 : World)
    (e : Exn) (w2 : World) :
  Optimized.p_open P (default Optimized.RAVAN_FASHION_CACHE_STATIC cacheName) w = (Resolved tt, w1) ->
  Optimized.p_fetch P (Js.to_string u) w1 = (Rejected e, w2) ->
  Optimized.cacheUrl_on P u cacheName w =
  (Resolved tt,
   mkWorld (caches w2) (trace w2 ++ [EWarn "Failed to cache URL:"]) (pending w2)).
Proof.
  intros Ho Hf. unfold Optimized.cacheUrl_on, try_catch. unfold bind at 1.
  rewrite Ho. unfold bind at 1. now rewrite Hf.
Qed.

Lemma cacheUrl_on_put_rejected (u cacheName : option string) (w w1 : World)
    (r : Response) (w2 : World) (e : Exn) (w3 : World) :
  Optimized.p_open P (default Optimized.RAVAN_FASHION_CACHE_STATIC cacheName) w = (Resolved tt, w1) ->
  Optimized.p_fetch P (Js.to_string u) w1 = (Resolved r, w2) ->
  ok r = true ->
  Optimized.p_put P (default Optimized.RAVAN_FASHION_CACHE_STATIC cacheName) (Js.to_string u) r w2
  = (Rejected e, w3) ->
  Optimized.cacheUrl_on P u cacheName w =
  (Resolved tt,
   mkWorld (caches w3) (trace w3 ++ [EWarn "Failed to cache URL:"]) (pending w3)).
Proof.
  intros Ho Hf Hok Hp. unfold Optimized.cacheUrl_on, try_catch. unfold bind at 1.
  rewrite Ho. unfold bind at 1. rewrite Hf, Hok. unfold bind at 1. now rewrite Hp.
Qed.

Lemma clearCache_on_delete_rejected (cacheName : option string) (w : World)
    (e : Exn) (w1 : World) :
  Optimized.p_delete P (Js.to_string cacheName) w = (Rejected e, w1) ->
  Optimized.clearCache_on P cacheName w =
  (Resolved tt,
   mkWorld (caches w1) (trace w1 ++ [EWarn "Failed to clear cache:"]) (pending w1)).
Proof.
  intros Hd. unfold Optimized.clearCache_on, try_catch. unfold bind at 1.
  now rewrite Hd.
Qed.

Lemma message_on_resolves (event : MessageEvent) :
  well_formed event = true -> resolves (Optimized.message_on P event).
Proof.
  unfold well_formed, Optimized.message_on.
  destruct (ev_data event) as [|[t|] data]; [discriminate| |intros _; apply resolves_emit].
  destruct (String.eqb t "SKIP_WAITING"); [intros _; apply resolves_emit|].
  destruct (String.eqb t "CACHE_URL"); simpl.
  { destruct data; [intros _; apply cacheUrl_on_resolves | discriminate]. }
  destruct (String.eqb t "CLEAR_CACHE"); simpl.
  { destruct data; [intros _; apply clearCache_on_resolves | discriminate]. }
  destruct (String.eqb t "GET_CACHE_STATS").
  { destruct (ev_ports event) as [|port ports]; [discriminate|]. intros _.
    apply resolves_bind; [apply getCacheStats_loop_on_resolves|].
    intros stats. apply resolves_emit. }
  intros _. destruct (String.eqb t "SYNC_NOW");
    [intros w; rewrite syncNow_on_value; eauto | apply resolves_emit].
Qed.

Lemma message_on_unknown_type (event : MessageEvent) (type : option string)
    (data : option MsgData) (w : World) :
  ev_data event = DataObject type data ->
  known_type type = false ->
  Optimized.message_on P event w =
  (Resolved tt,
   mkWorld (caches w) (trace w ++ [EWarn "Unknown message type:"]) (pending w)).
Proof.
  intros Hd Hk. unfold Optimized.message_on. rewrite Hd.
  destruct type as [t|]; [|reflexivity].
  unfold known_type, Js.array_includes in Hk. simpl in Hk.
  repeat match type of Hk with
         | (String.eqb ?a ?b || _) = false =>
             destruct (String.eqb a b); [discriminate|]; simpl in Hk
         end.
  reflexivity.
Qed.

End Messages.

(** C8 (amended). The message handler is taken over any platform [P]:
    every call of [caches.open], [caches.delete], [fetch], [cache.put],
    [cache.keys], [caches.match] and [response.blob] may resolve or reject
    in any way. For every control message shaped as the protocol describes
    it (a readable [event.data]; a [data] member on [CACHE_URL] and
    [CLEAR_CACHE]; a reply port on [GET_CACHE_STATS]) the promise of the
    handler resolves. A message whose type is none of the five known ones
    adds one warning to the console and changes nothing else. A rejection
    of [caches.open], [fetch] or [cache.put] in [CACHE_URL], and of
    [caches.delete] in [CLEAR_CACHE], is caught by the operation and
    logged as one warning. In [GET_CACHE_STATS] a cache whose
    [caches.open] or [cache.keys] rejects is reported with count and size
    zero and nothing is logged; a key whose [caches.match] or
    [response.blob] rejects is logged as one warning and adds nothing to
    the size. [SYNC_NOW] calls nothing of the platform and writes its two
    log lines. The handler of the worker is the one over the platform of
    this development. *)
Theorem C8_message_handler (P : Optimized.Platform) (event : MessageEvent) (w : World) :
  well_formed event = true ->
  let warned (msg : string) (w0 : World) :=
    mkWorld (caches w0) (trace w0 ++ [EWarn msg]) (pending w0) in
  (exists w', Optimized.message_on P event w = (Resolved tt, w')) /\
  (forall type data,
     ev_data event = DataObject type data -> known_type type = false ->
     Optimized.message_on P event w = (Resolved tt, warned "Unknown message type:" w)) /\
  (forall d,
     ev_data event = DataObject (Some "CACHE_URL") (Some d) ->
     let cacheName :=
       default Optimized.RAVAN_FASHION_CACHE_STATIC (member_arg (msg_cacheName d)) in
     let u := Js.to_string (member_arg (msg_url d)) in
     (forall e w1,
        Optimized.p_open P cacheName w = (Rejected e, w1) ->
        Optimized.message_on P event w = (Resolved tt, warned "Failed to cache URL:" w1)) /\
     (forall w1 e w2,
        Optimized.p_open P cacheName w = (Resolved tt, w1) ->
        Optimized.p_fetch P u w1 = (Rejected e, w2) ->
        Optimized.message_on P event w = (Resolved tt, warned "Failed to cache URL:" w2)) /\
     (forall w1 r w2 e w3,
        Optimized.p_open P cacheName w = (Resolved tt, w1) ->
        Optimized.p_fetch P u w1 = (Resolved r, w2) ->
        ok r = true ->
        Optimized.p_put P cacheName u r w2 = (Rejected e, w3) ->
        Optimized.message_on P event w = (Resolved tt, warned "Failed to cache URL:" w3))) /\
  (forall d e w1,
     ev_data event = DataObject (Some "CLEAR_CACHE") (Some d) ->
     Optimized.p_delete P (Js.to_string (member_arg (msg_cacheName d))) w = (Rejected e, w1) ->
     Optimized.message_on P event w = (Resolved tt, warned "Failed to clear cache:" w1)) /\
  (forall data port ports,
     ev_data event = DataObject (Some "GET_CACHE_STATS") data ->
     ev_ports event = port :: ports ->
     (forall name w0, exists e, Optimized.p_open P name w0 = (Rejected e, w0)) ->
     Optimized.message_on P event w =
     (Resolved tt,
      mkWorld (caches w)
        (trace w ++ [EPost port (map (fun name => (name, (0%nat, 0%nat)))
                                   Optimized.RAVAN_FASHION_CACHE_values)])
        (pending w))) /\
  (forall name names stats w0 e w1,
     Optimized.p_open P name w0 = (Rejected e, w1) ->
     Optimized.getCacheStats_loop_on P (name :: names) stats w0
     = Optimized.getCacheStats_loop_on P names (stats ++ [(name, (0%nat, 0%nat))]) w1) /\
  (forall name names stats w0 w1 e w2,
     Optimized.p_open P name w0 = (Resolved tt, w1) ->
     Optimized.p_keys P name w1 = (Rejected e, w2) ->
     Optimized.getCacheStats_loop_on P (name :: names) stats w0
     = Optimized.getCacheStats_loop_on P names (stats ++ [(name, (0%nat, 0%nat))]) w2) /\
  (forall key keys total w0 e w1,
     Optimized.p_match P key w0 = (Rejected e, w1) ->
     Optimized.calculateCacheSize_on P (key :: keys) total w0
     = Optimized.calculateCacheSize_on P keys total
         (warned "Failed to calculate size for:" w1)) /\
  (forall key keys total w0 r w1 e w2,
     Optimized.p_match P key w0 = (Resolved (Some r), w1) ->
     Optimized.p_blob_size P r w1 = (Rejected e, w2) ->
     Optimized.calculateCacheSize_on P (key :: keys) total w0
     = Optimized.calculateCacheSize_on P keys total
         (warned "Failed to calculate size for:" w2)) /\
  (forall data,
     ev_data event = DataObject (Some "SYNC_NOW") data ->
     Optimized.message_on P event w =
     (Resolved tt,
      mkWorld (caches w)
        ((trace w ++ [ELog "Starting background sync..."])
           ++ [ELog "Background sync completed"])
        (pending w))) /\
  (forall env,
     Optimized.message env event w
     = Optimized.message_on (Optimized.standard env) event w).
Proof.
  intros Hwf warned. subst warned. cbv beta.
  split; [destruct (message_on_resolves P event Hwf w) as ([] & w' & ->); eauto|].
  split; [intros type data Hd Hk; now apply (message_on_unknown_type P event type data)|].
  split.
  { intros d Hd cacheName u. subst cacheName u.
    unfold Optimized.message_on. rewrite Hd.
    change (if String.eqb "CACHE_URL" "SKIP_WAITING" then _ else ?x) with x.
    change (if String.eqb "CACHE_URL" "CACHE_URL" then ?x else _) with x.
    split; [|split].
    - intros e w1. apply cacheUrl_on_open_rejected.
    - intros w1 e w2. apply cacheUrl_on_fetch_rejected.
    - intros w1 r w2 e w3. apply cacheUrl_on_put_rejected. }
  split.
  { intros d e w1 Hd. unfold Optimized.message_on. rewrite Hd.
    apply clearCache_on_delete_rejected. }
  split.
  { intros data port ports Hd Hp Hall. unfold Optimized.message_on. rewrite Hd, Hp.
    change (if String.eqb "GET_CACHE_STATS" "SKIP_WAITING" then _ else ?x) with x.
    change (if String.eqb "GET_CACHE_STATS" "CACHE_URL" then _ else ?x) with x.
    change (if String.eqb "GET_CACHE_STATS" "CLEAR_CACHE" then _ else ?x) with x.
    change (if String.eqb "GET_CACHE_STATS" "GET_CACHE_STATS" then ?x else _) with x.
    unfold bind, Optimized.getCacheStats_on.
    now rewrite (getCacheStats_loop_on_all_rejected P _ _ _ Hall). }
  split; [intros; now apply getCacheStats_loop_on_open_rejected with (e := e)|].
  split; [intros; now apply getCacheStats_loop_on_keys_rejected with (w1 := w1) (e := e)|].
  split; [intros; now apply calculateCacheSize_on_match_rejected with (e := e)|].
  split; [intros; now apply calculateCacheSize_on_blob_rejected
                    with (r := r) (w1 := w1) (e := e)|].
  split.
  { intros data Hd. unfold Optimized.message_on. rewrite Hd.
    apply syncNow_on_value. }
  intros env. apply message_standard.
Qed.

Lemma C8_message_handler_witness :
  Optimized.message_on (Optimized.standard Examples.two_hours_later)
    Examples.initialize_message Examples.empty_world
  = (Resolved tt, mkWorld [] [EWarn "Unknown message type:"] []) /\
  Optimized.message_on (Optimized.standard Examples.two_hours_later)
    Examples.cache_url_message Examples.empty_world
  = (Resolved tt,
     mkWorld [(Optimized.RAVAN_FASHION_CACHE_STATIC, ∅)]
       [EFetch "/assets/app.css"; EWarn "Failed to cache URL:"] []).
Proof.
  split.
  - exact (proj1 (proj2 (C8_message_handler (Optimized.standard Examples.two_hours_later)
                           Examples.initialize_message Examples.empty_world eq_refl))
             (Some "INITIALIZE") None eq_refl eq_refl).
  - exact (proj1 (proj2
             (proj1 (proj2 (proj2
                (C8_message_handler (Optimized.standard Examples.two_hours_later)
                   Examples.cache_url_message Examples.empty_world eq_refl)))
                (mkMsgData (Str "/assets/app.css") Undefined) eq_refl))
             (mkWorld [(Optimized.RAVAN_FASHION_CACHE_STATIC, ∅)] [] [])
             NetworkError
             (mkWorld [(Optimized.RAVAN_FASHION_CACHE_STATIC, ∅)]
                [EFetch "/assets/app.css"] [])
             eq_refl eq_refl).
Defined.

(** C8, counterexample. [{ type: 'CACHE_URL' }] without a [data] member:
    reading [data.url] throws, and the promise of the handler rejects. *)
Lemma C8_cache_url_without_data_rejects :
  Optimized.message Examples.two_hours_later Examples.cache_url_without_data
    Examples.empty_world
  = (Rejected TypeError, Examples.empty_world).
Proof. vm_compute. reflexivity. Qed.

(** ** The scenarios of the specification, run on the model *)

(** [/assets/app.css] with nothing cached and the network up: the response
    is stored in the static cache and returned. *)
Example scenario_css_first_visit :
  let served := mkResponse 200 "/assets/app.css" [] "asset" in
  let env := mkEnv 0 (fun _ _ => NetResp served) (fun _ _ _ => false) Examples.parse_date in
  let run := Optimized.fetch env Examples.css_request Examples.empty_world in
  fst run = Resolved (Some served) /\
  cs_entry Optimized.RAVAN_FASHION_CACHE_STATIC Examples.app_css (caches (snd run))
  = Some served.
Proof. split; vm_compute; reflexivity. Qed.

(** [/api/cart] with the network down and an entry in the api cache: the
    entry is returned. *)
Example scenario_cart_offline :
  fst (Optimized.fetch Examples.two_hours_later Examples.cart_request
         (Examples.api_holds Examples.cart_cached))
  = Resolved (Some Examples.cart_cached).
Proof. vm_compute. reflexivity. Qed.

(** A navigation with nothing cached and the network down: the promise of
    [staleWhileRevalidate] resolves, but with [undefined]. *)
Example scenario_page_offline_uncached :
  fst (Optimized.fetch Examples.two_hours_later Examples.page_request
         Examples.empty_world)
  = Resolved None.
Proof. vm_compute. reflexivity. Qed.

(** * Further properties of the two workers *)

(** ** Cache-first on a miss *)

Section CacheFirstMiss.

Context (env : Env).

(** [cacheFirst] when the cache has no entry and the fetch resolves. *)
Lemma cacheFirst_miss_resolved (request : Request) (cacheName : string) (w : World)
    (network : Response) :
  cs_entry cacheName (url request) (caches w) = None ->
  net env (fetch_count (trace w)) (url request) = NetResp network ->
  Optimized.cacheFirst env request cacheName w =
  let w1 := mkWorld (cs_open cacheName (caches w)) (trace w ++ [EFetch (url request)])
              (pending w) in
  if ok network then
    if put_rejects env cacheName (url request) network then
      (do* console_warn "Network request failed, returning cached or offline response:" in
       Optimized.getOfflineResponse request) w1
    else
      (Resolved (Some network),
       mkWorld (cs_update cacheName (insert (url request) network)
                  (cs_open cacheName (caches w)))
         (trace w ++ [EFetch (url request)]) (pending w))
  else (Resolved (Some network), w1).
Proof.
  intros Hmiss Hnet. unfold Optimized.cacheFirst.
  unfold bind at 1, caches_open at 1. unfold bind at 1, cache_match at 1.
  cbn [caches trace pending]. rewrite cs_entry_open, Hmiss.
  unfold try_catch, bind at 1, fetch_, issue_fetch. cbn [caches trace pending].
  rewrite Hnet. unfold bind at 1.
  destruct (ok network); [|reflexivity].
  unfold cache_put. cbn [caches trace pending].
  destruct (put_rejects env cacheName (url request) network); reflexivity.
Qed.

End CacheFirstMiss.

(** X1. A miss that the network answers with an ok response fills the
    cache: [cacheFirst] resolves with the response and stores it under the
    request URL, and the next [cacheFirst] for the same request resolves
    with that stored response, at any later time and whatever the network
    does then. *)
Theorem cacheFirst_fill_then_hit
    (env env' : Env) (request : Request) (cacheName : string) (w : World)
    (network : Response) :
  cs_entry cacheName (url request) (caches w) = None ->
  net env (fetch_count (trace w)) (url request) = NetResp network ->
  ok network = true ->
  put_rejects env cacheName (url request) network = false ->
  let first := Optimized.cacheFirst env request cacheName w in
  fst first = Resolved (Some network) /\
  cs_entry cacheName (url request) (caches (snd first)) = Some network /\
  fst (Optimized.cacheFirst env' request cacheName (snd first)) = Resolved (Some network).
Proof.
  intros Hmiss Hnet Hok Hput first. subst first.
  rewrite (cacheFirst_miss_resolved env _ _ _ _ Hmiss Hnet). cbv zeta.
  rewrite Hok, Hput. cbn [fst snd caches].
  assert (Hstored : cs_entry cacheName (url request)
            (cs_update cacheName (insert (url request) network)
               (cs_open cacheName (caches w))) = Some network)
    by apply cs_entry_put_same, cs_has_open.
  repeat split; [exact Hstored|].
  rewrite (cacheFirst_hit env' request cacheName _ network) by exact Hstored.
  now destruct (Optimized.isCacheExpired env' network).
Qed.

Lemma cacheFirst_fill_then_hit_witness :
  let served := mkResponse 200 Examples.app_css [] "asset" in
  let env := mkEnv 0 (fun _ _ => NetResp served) (fun _ _ _ => false) Examples.parse_date in
  let first := Optimized.cacheFirst env Examples.css_request
                 Optimized.RAVAN_FASHION_CACHE_STATIC Examples.empty_world in
  fst first = Resolved (Some served) /\
  cs_entry Optimized.RAVAN_FASHION_CACHE_STATIC Examples.app_css (caches (snd first))
    = Some served /\
  fst (Optimized.cacheFirst Examples.two_hours_later Examples.css_request
         Optimized.RAVAN_FASHION_CACHE_STATIC (snd first)) = Resolved (Some served).
Proof.
  intros served env.
  apply (cacheFirst_fill_then_hit env Examples.two_hours_later Examples.css_request
           Optimized.RAVAN_FASHION_CACHE_STATIC Examples.empty_world served);
    reflexivity.
Defined.

(** X2. When the cache refuses to store an ok response on a miss, the
    rejection of [cache.put] lands in the [catch] block of [cacheFirst]:
    a request that is not a navigation is answered with the 503
    placeholder instead of the response the network delivered, and no
    entry is written. *)
Theorem cacheFirst_put_failure_masks_response
    (env : Env) (request : Request) (cacheName : string) (w : World)
    (network : Response) :
  cs_entry cacheName (url request) (caches w) = None ->
  net env (fetch_count (trace w)) (url request) = NetResp network ->
  ok network = true ->
  put_rejects env cacheName (url request) network = true ->
  String.eqb (mode request) "navigate" = false ->
  let run := Optimized.cacheFirst env request cacheName w in
  fst run = Resolved (Some Optimized.offline_503) /\
  forall name u, cs_entry name u (caches (snd run)) = cs_entry name u (caches w).
Proof.
  intros Hmiss Hnet Hok Hput Hmode run. subst run.
  rewrite (cacheFirst_miss_resolved env _ _ _ _ Hmiss Hnet). cbv zeta.
  rewrite Hok, Hput. unfold Optimized.getOfflineResponse. rewrite Hmode.
  munfold. split; [reflexivity|]. intros name u. apply cs_entry_open.
Qed.

Lemma cacheFirst_put_failure_masks_response_witness :
  let served := mkResponse 200 Examples.app_css [] "asset" in
  let env := mkEnv 0 (fun _ _ => NetResp served) (fun _ _ _ => true) Examples.parse_date in
  fst (Optimized.cacheFirst env Examples.css_request
         Optimized.RAVAN_FASHION_CACHE_STATIC Examples.empty_world)
  = Resolved (Some Optimized.offline_503).
Proof.
  intros served env.
  apply (cacheFirst_put_failure_masks_response env Examples.css_request
           Optimized.RAVAN_FASHION_CACHE_STATIC Examples.empty_world served);
    reflexivity.
Defined.

(** X3. A response outside 200-299 on a miss is handed to the caller as it
    is, and no cache entry changes. *)
Theorem cacheFirst_non_ok_passed_through
    (env : Env) (request : Request) (cacheName : string) (w : World)
    (network : Response) :
  cs_entry cacheName (url request) (caches w) = None ->
  net env (fetch_count (trace w)) (url request) = NetResp network ->
  ok network = false ->
  let run := Optimized.cacheFirst env request cacheName w in
  fst run = Resolved (Some network) /\
  pending (snd run) = pending w /\
  forall name u, cs_entry name u (caches (snd run)) = cs_entry name u (caches w).
Proof.
  intros Hmiss Hnet Hok run. subst run.
  rewrite (cacheFirst_miss_resolved env _ _ _ _ Hmiss Hnet). cbv zeta.
  rewrite Hok. cbn [fst snd caches pending]. repeat split.
  intros name u. apply cs_entry_open.
Qed.

Lemma cacheFirst_non_ok_passed_through_witness :
  fst (Optimized.cacheFirst Examples.failing_server Examples.css_request
         Optimized.RAVAN_FASHION_CACHE_STATIC Examples.empty_world)
  = Resolved (Some Examples.server_error).
Proof.
  apply (cacheFirst_non_ok_passed_through Examples.failing_server Examples.css_request
           Optimized.RAVAN_FASHION_CACHE_STATIC Examples.empty_world
           Examples.server_error); reflexivity.
Defined.

(** ** Background refresh, network-first and stale-while-revalidate *)

(** X4. A hit on an expired entry starts one refresh. Once the pending
    work has run, an ok response that the cache accepts has replaced the
    entry. A refresh whose fetch rejected changes nothing but the console:
    it resolves and adds one warning. *)
Theorem cacheFirst_refresh_replaces_entry
    (env : Env) (request : Request) (cacheName : string) (w : World) (c : Response) :
  cs_entry cacheName (url request) (caches w) = Some c ->
  Optimized.isCacheExpired env c = true ->
  let settled := net env (fetch_count (trace w)) (url request) in
  let run := Optimized.cacheFirst env request cacheName w in
  fst run = Resolved (Some c) /\
  cs_entry cacheName (url request) (caches (snd run)) = Some c /\
  (forall n, settled = NetResp n -> ok n = true ->
             put_rejects env cacheName (url request) n = false ->
             cs_entry cacheName (url request) (caches (run_pending env (snd run)))
             = Some n) /\
  (forall w', run_task env (TUpdateCache (url request) cacheName NetReject) w' =
              (Resolved tt,
               mkWorld (caches w') (trace w' ++ [EWarn "Background cache update failed:"])
                 (pending w'))).
Proof.
  intros Hc Hexp settled run. subst run.
  rewrite (cacheFirst_hit env _ _ _ _ Hc), Hexp. cbn [fst snd caches].
  repeat split; [exact Hc|].
  intros n Hn Hok Hput. unfold run_pending. cbn [pending caches trace].
  rewrite run_tasks_app. fold settled. rewrite Hn.
  set (w1 := run_tasks env (pending w) _).
  assert (Hhas : cs_has cacheName (caches w1) = true).
  { apply run_tasks_has. simpl. eapply cs_entry_has, Hc. }
  simpl. unfold settle, Optimized.updateCache_resume. munfold.
  rewrite Hok. simpl. rewrite Hput. simpl.
  apply cs_entry_put_same. now apply cs_has_open_mono.
Qed.

Lemma cacheFirst_refresh_replaces_entry_witness :
  let served := mkResponse 200 Examples.app_css [] "body{margin:1px}" in
  let env := mkEnv (1793613600000 + 2 * 60 * 60 * 1000) (fun _ _ => NetResp served)
               (fun _ _ _ => false) Examples.parse_date in
  cs_entry Optimized.RAVAN_FASHION_CACHE_STATIC Examples.app_css
    (caches (run_pending env
               (snd (Optimized.cacheFirst env Examples.css_request
                       Optimized.RAVAN_FASHION_CACHE_STATIC
                       (Examples.static_holds Examples.css_response)))))
  = Some served.
Proof.
  intros served env.
  destruct (cacheFirst_refresh_replaces_entry env Examples.css_request
              Optimized.RAVAN_FASHION_CACHE_STATIC
              (Examples.static_holds Examples.css_response) Examples.css_response)
    as (_ & _ & H & _).
  - vm_compute. reflexivity.
  - vm_compute. reflexivity.
  - apply (H served); reflexivity.
Defined.

(** X5. What [networkFirst] fetched and stored while the network was up
    is what it resolves with when the network rejects the next time. *)
Theorem networkFirst_online_then_offline
    (env env' : Env) (request : Request) (cacheName : string) (w : World)
    (network : Response) :
  net env (fetch_count (trace w)) (url request) = NetResp network ->
  ok network = true ->
  put_rejects env cacheName (url request) network = false ->
  let first := Optimized.networkFirst env request cacheName w in
  net env' (fetch_count (trace (snd first))) (url request) = NetReject ->
  fst first = Resolved (Some network) /\
  fst (Optimized.networkFirst env' request cacheName (snd first))
  = Resolved (Some network).
Proof.
  intros Hnet Hok Hput first Hoff.
  assert (Hfirst : first =
    (Resolved (Some network),
     mkWorld (cs_update cacheName (insert (url request) network)
                (cs_open cacheName (caches w)))
       (trace w ++ [EFetch (url request)]) (pending w))).
  { subst first. unfold Optimized.networkFirst. munfold.
    rewrite Hnet. simpl. rewrite Hok. simpl. now rewrite Hput. }
  rewrite Hfirst in *. cbn [fst snd] in *. split; [reflexivity|].
  rewrite networkFirst_value. cbv zeta. rewrite Hoff. cbn [caches].
  now rewrite cs_entry_put_same by apply cs_has_open.
Qed.

Lemma networkFirst_online_then_offline_witness :
  let served := mkResponse 200 Examples.cart_url [] "{items:[1]}" in
  let env := mkEnv 0 (fun _ _ => NetResp served) (fun _ _ _ => false) Examples.parse_date in
  fst (Optimized.networkFirst Examples.two_hours_later Examples.cart_request
         Optimized.RAVAN_FASHION_CACHE_API
         (snd (Optimized.networkFirst env Examples.cart_request
                 Optimized.RAVAN_FASHION_CACHE_API Examples.empty_world)))
  = Resolved (Some served).
Proof.
  intros served env.
  apply (networkFirst_online_then_offline env Examples.two_hours_later
           Examples.cart_request Optimized.RAVAN_FASHION_CACHE_API
           Examples.empty_world served); reflexivity.
Defined.

(** X6. [staleWhileRevalidate] without a cached entry resolves with what
    its [fetchPromise] resolves with: the network's response, of any
    status, or [undefined] when the fetch rejects or the cache refuses to
    store an ok response. *)
Theorem staleWhileRevalidate_miss_value
    (env : Env) (request : Request) (cacheName : string) (w : World) :
  cs_entry cacheName (url request) (caches w) = None ->
  fst (Optimized.staleWhileRevalidate env request cacheName w) =
  Resolved
    match net env (fetch_count (trace w)) (url request) with
    | NetReject => None
    | NetResp network =>
        if ok network && put_rejects env cacheName (url request) network
        then None else Some network
    end.
Proof.
  intros Hmiss. unfold Optimized.staleWhileRevalidate, Optimized.fetchPromise_resume.
  munfold. rewrite cs_entry_open, Hmiss.
  destruct (net env (fetch_count (trace w)) (url request)) as [|network]; simpl;
    [reflexivity|].
  destruct (ok network); simpl; [|reflexivity].
  now destruct (put_rejects env cacheName (url request) network).
Qed.

Lemma staleWhileRevalidate_miss_value_witness :
  fst (Optimized.staleWhileRevalidate Examples.two_hours_later Examples.page_request
         Optimized.RAVAN_FASHION_CACHE_PAGES Examples.empty_world)
  = Resolved None.
Proof.
  apply (staleWhileRevalidate_miss_value Examples.two_hours_later Examples.page_request
           Optimized.RAVAN_FASHION_CACHE_PAGES Examples.empty_world).
  reflexivity.
Defined.

(** ** What handling one request can touch *)

Lemma cs_entry_put_other name u m u' r (cs : CacheStorage) :
  u <> u' -> cs_entry name u (cs_update m (insert u' r) cs) = cs_entry name u cs.
Proof.
  intros Hne. rewrite cs_entry_update. unfold cs_entry.
  destruct (String.eqb m name); [|reflexivity].
  destruct (cs_lookup name cs) as [c|]; [|reflexivity].
  apply lookup_insert_ne. congruence.
Qed.

Ltac strategy_cases :=
  unfold Optimized.updateCache, Optimized.getOfflineResponse,
    Optimized.fetchPromise_resume;
  munfold;
  repeat match goal with
         | |- context [match cs_entry ?n ?u ?cs with _ => _ end] =>
             destruct (cs_entry n u cs); simpl
         | |- context [if Optimized.isCacheExpired ?e ?c then _ else _] =>
             destruct (Optimized.isCacheExpired e c); simpl
         | |- context [match net ?e ?i ?u with _ => _ end] =>
             destruct (net e i u); simpl
         | |- context [if ok ?r then _ else _] => destruct (ok r); simpl
         | |- context [if put_rejects ?e ?n ?u ?r then _ else _] =>
             destruct (put_rejects e n u r); simpl
         | |- context [if String.eqb ?a ?b then _ else _] =>
             destruct (String.eqb a b); simpl
         end.

Ltac footprint :=
  unfold own_footprint; strategy_cases;
  (split;
   [ rewrite ?fetched_app; simpl; rewrite ?app_nil_r; auto
   | intros name u Hu; rewrite ?cs_entry_open, ?cs_entry_put_other, ?cs_entry_open;
     auto ]).

Section Footprint.

Context (env : Env).

Lemma cacheFirst_footprint (request : Request) (cacheName : string) (w : World) :
  own_footprint request w (Optimized.cacheFirst env request cacheName w).
Proof. unfold Optimized.cacheFirst. footprint. Qed.

Lemma networkFirst_footprint (request : Request) (cacheName : string) (w : World) :
  own_footprint request w (Optimized.networkFirst env request cacheName w).
Proof. unfold Optimized.networkFirst. footprint. Qed.

Lemma staleWhileRevalidate_footprint (request : Request) (cacheName : string) (w : World) :
  own_footprint request w (Optimized.staleWhileRevalidate env request cacheName w).
Proof. unfold Optimized.staleWhileRevalidate. footprint. Qed.

End Footprint.

(** X7. Handling one request issues at most one fetch, and only for the
    request's own URL; the cache entries of every other URL are what they
    were, in every named cache. *)
Theorem fetch_footprint (env : Env) (request : Request) (w : World) :
  let run := Optimized.fetch env request w in
  (fetched (trace (snd run)) = fetched (trace w) \/
   fetched (trace (snd run)) = fetched (trace w) ++ [url request]) /\
  (forall name u, u <> url request ->
                  cs_entry name u (caches (snd run)) = cs_entry name u (caches w)).
Proof.
  cbv zeta. change (own_footprint request w (Optimized.fetch env request w)).
  unfold Optimized.fetch, Optimized.handleStaticAsset, Optimized.handleImageRequest,
    Optimized.handleAPIRequest, Optimized.handlePageRequest,
    Optimized.handleGenericRequest.
  repeat match goal with
         | |- context [if ?b then _ else _] => destruct b
         end;
    auto using cacheFirst_footprint, networkFirst_footprint,
      staleWhileRevalidate_footprint.
Qed.

Lemma fetch_footprint_witness :
  cs_entry Optimized.RAVAN_FASHION_CACHE_STATIC Examples.app_css
    (caches (snd (Optimized.fetch Examples.online Examples.js_request
                    (Examples.static_holds Examples.css_response))))
  = cs_entry Optimized.RAVAN_FASHION_CACHE_STATIC Examples.app_css
      (caches (Examples.static_holds Examples.css_response)).
Proof.
  apply (fetch_footprint Examples.online Examples.js_request
           (Examples.static_holds Examples.css_response)).
  vm_compute. discriminate.
Defined.

(** ** Activation as a filter *)

Lemma cs_delete_filter name (cs : CacheStorage) :
  cs_delete name cs = List.filter (fun kv => negb (String.eqb (fst kv) name)) cs.
Proof.
  induction cs as [|[n c] cs IH]; simpl; [reflexivity|].
  destruct (String.eqb n name); simpl; now rewrite IH.
Qed.

Lemma filter_twice {A} (f g : A -> bool) (l : list A) :
  List.filter f (List.filter g l) = List.filter (fun x => g x && f x) l.
Proof.
  induction l as [|x l IH]; simpl; [reflexivity|].
  destruct (g x); simpl; [destruct (f x); now rewrite IH | exact IH].
Qed.

Lemma cs_delete_all_filter (names : list string) (cs : CacheStorage) :
  cs_delete_all names cs =
  List.filter (fun kv => negb (Js.array_includes names (fst kv))) cs.
Proof.
  unfold cs_delete_all, Js.array_includes. revert cs.
  induction names as [|n names IH]; intros cs; simpl.
  - induction cs as [|kv cs IHcs]; simpl; [reflexivity | now rewrite <- IHcs].
  - rewrite IH, cs_delete_filter, filter_twice.
    apply filter_ext. intros kv. now rewrite negb_orb.
Qed.

Lemma cs_has_in (kv : string * Cache) (cs : CacheStorage) :
  In kv cs -> cs_has (fst kv) cs = true.
Proof.
  unfold cs_has. induction cs as [|[n c] cs IH]; simpl; [contradiction|].
  intros [Heq|Hin]; [subst kv; simpl; now rewrite String.eqb_refl|].
  destruct (String.eqb n (fst kv)); [reflexivity | now apply IH].
Qed.

(** Deleting the names of [cs] that satisfy [p] keeps the others, in order. *)
Lemma cs_delete_where (p : string -> bool) (cs : CacheStorage) :
  cs_delete_all (List.filter p (cs_keys cs)) cs =
  List.filter (fun kv => negb (p (fst kv))) cs.
Proof.
  rewrite cs_delete_all_filter. apply filter_ext_in. intros kv Hin.
  rewrite array_includes_filter, array_includes_keys, (cs_has_in _ _ Hin).
  now rewrite andb_true_r.
Qed.

Lemma filter_idem {A} (f : A -> bool) (l : list A) :
  List.filter f (List.filter f l) = List.filter f l.
Proof.
  rewrite filter_twice. apply filter_ext. intros x. now destruct (f x).
Qed.

(** X8. Activation is a filter over cache storage. The optimized worker
    keeps, in creation order and with their content, exactly the caches
    whose name is one of its five; the earlier worker keeps exactly those
    whose name is not an outdated [ravan-fashion-] name. Activating a
    second time changes nothing more. *)
Theorem activate_is_filter (w : World) :
  let kept := caches (snd (Optimized.activate w)) in
  let kept' := caches (snd (Legacy.activate w)) in
  kept = List.filter
           (fun kv => Js.array_includes Optimized.RAVAN_FASHION_CACHE_values (fst kv))
           (caches w) /\
  kept' = List.filter (fun kv => negb (Legacy.is_outdated (fst kv))) (caches w) /\
  caches (snd (Optimized.activate (snd (Optimized.activate w)))) = kept /\
  caches (snd (Legacy.activate (snd (Legacy.activate w)))) = kept'.
Proof.
  cbv zeta.
  assert (Ho : forall v, caches (snd (Optimized.activate v)) =
    List.filter
      (fun kv => Js.array_includes Optimized.RAVAN_FASHION_CACHE_values (fst kv))
      (caches v)).
  { intros v. destruct (optimized_activate_caches v) as [_ ->].
    rewrite (cs_delete_where
               (fun n => negb (Js.array_includes Optimized.RAVAN_FASHION_CACHE_values n))).
    apply filter_ext. intros kv. apply negb_involutive. }
  assert (Hl : forall v, caches (snd (Legacy.activate v)) =
    List.filter (fun kv => negb (Legacy.is_outdated (fst kv))) (caches v)).
  { intros v. destruct (legacy_activate_caches v) as [_ ->]. apply cs_delete_where. }
  repeat split.
  - apply Ho.
  - apply Hl.
  - now rewrite (Ho (snd (Optimized.activate w))), Ho, filter_idem.
  - now rewrite (Hl (snd (Legacy.activate w))), Hl, filter_idem.
Qed.

(** X9. Switching between the two workers. Activation of the optimized
    worker removes the earlier worker's general, critical and font caches
    and keeps its image cache, whose name both workers use. Activation of
    the earlier worker removes none of the optimized worker's five
    caches. *)
Theorem activate_across_workers (w : World) :
  let after := caches (snd (Optimized.activate w)) in
  cs_lookup Legacy.RAVAN_FASHION_CACHE after = None /\
  cs_lookup Legacy.CRITICAL_CACHE after = None /\
  cs_lookup Legacy.FONT_CACHE after = None /\
  cs_lookup Legacy.IMAGE_CACHE after = cs_lookup Legacy.IMAGE_CACHE (caches w) /\
  forall name,
    In name Optimized.RAVAN_FASHION_CACHE_values ->
    cs_lookup name (caches (snd (Legacy.activate w))) = cs_lookup name (caches w).
Proof.
  cbv zeta. destruct (optimized_activate_caches w) as [_ ->].
  rewrite !(cs_lookup_delete_filter
              (fun n => negb (Js.array_includes Optimized.RAVAN_FASHION_CACHE_values n))).
  repeat split.
  intros name Hin. destruct (legacy_activate_caches w) as [_ ->].
  rewrite cs_lookup_delete_filter.
  simpl in Hin.
  repeat (destruct Hin as [<-|Hin]; [reflexivity|]). contradiction.
Qed.

Lemma activate_across_workers_witness :
  cs_lookup Optimized.RAVAN_FASHION_CACHE_STATIC
    (caches (snd (Legacy.activate (Examples.static_holds Examples.css_response))))
  = cs_lookup Optimized.RAVAN_FASHION_CACHE_STATIC
      (caches (Examples.static_holds Examples.css_response)).
Proof.
  apply (activate_across_workers (Examples.static_holds Examples.css_response)).
  simpl. tauto.
Defined.

(** ** Installation, continued *)

Section InstallMore.

Context (env : Env).

Local Abbreviation STATIC := Optimized.RAVAN_FASHION_CACHE_STATIC.

(** [install] is [precacheCriticalResources] after two effects that leave
    caches and fetches alone. *)
Lemma install_unfold (urls : list string) (w : World) :
  Optimized.install env urls w =
  Optimized.precacheCriticalResources env urls
    (mkWorld (caches w)
       ((trace w ++ [ELog "Service Worker installing..."]) ++ [ESkipWaiting])
       (pending w)).
Proof. reflexivity. Qed.

Lemma install_stores (urls : list string) (w : World) (u : string) :
  In u urls -> always_storable env STATIC u ->
  stored_from_net env STATIC u (snd (Optimized.install env urls w)).
Proof.
  intros Hin Hs. rewrite install_unfold.
  now apply precacheCriticalResources_spec.
Qed.

(** When every manifest URL can be fetched and stored, [addAll] succeeds. *)
Lemma install_all_storable (urls : list string) (w : World) :
  (forall u, In u urls -> always_storable env STATIC u) ->
  fst (Optimized.install env urls w) = Resolved tt /\
  fetched (trace (snd (Optimized.install env urls w))) = fetched (trace w) ++ urls /\
  last (trace (snd (Optimized.install env urls w)))
  = Some (ELog "Critical resources precached successfully").
Proof.
  intros Hs. rewrite install_unfold, precacheCriticalResources_unfold.
  match goal with
  | |- context [cache_addAll env STATIC urls ?w0] =>
      destruct (cache_addAll_spec env STATIC urls w0 (cs_has_open _ _))
        as (Hf & _ & _ & _ & Hres & _);
      specialize (Hres Hs);
      destruct (cache_addAll env STATIC urls w0) as [[[]|e] w1]
  end; [|discriminate].
  cbn [fst snd trace caches pending] in *. repeat split.
  - rewrite fetched_app, Hf, !fetched_app. simpl. now rewrite !app_nil_r.
  - apply last_snoc.
Qed.

End InstallMore.

(** X10. When every URL of the manifest is answered with an ok response
    that the static cache accepts, installation takes the [addAll] path
    only: it resolves, each manifest URL is fetched exactly once, in
    manifest order, every one of them is stored, and the last console line
    reports success. *)
Theorem install_without_failures (env : Env) (urls : list string) (w : World) :
  (forall u, In u urls ->
             always_storable env Optimized.RAVAN_FASHION_CACHE_STATIC u) ->
  let run := Optimized.install env urls w in
  fst run = Resolved tt /\
  fetched (trace (snd run)) = fetched (trace w) ++ urls /\
  last (trace (snd run)) = Some (ELog "Critical resources precached successfully") /\
  forall u, In u urls ->
            stored_from_net env Optimized.RAVAN_FASHION_CACHE_STATIC u (snd run).
Proof.
  intros Hs run. subst run.
  destruct (install_all_storable env urls w Hs) as (Hr & Hf & Hl).
  repeat split; auto. intros u Hin. apply install_stores; auto.
Qed.

Lemma install_without_failures_witness :
  let env := mkEnv 0 (Examples.all_but "/nowhere") (fun _ _ _ => false)
               Examples.parse_date in
  fetched (trace (snd (Optimized.install env Optimized.getPrecacheUrls
                         Examples.empty_world)))
  = Optimized.getPrecacheUrls.
Proof.
  intros env.
  apply (install_without_failures env Optimized.getPrecacheUrls Examples.empty_world).
  intros u Hin i. simpl in Hin.
  repeat (destruct Hin as [<-|Hin];
          [eexists; repeat split; vm_compute; reflexivity|]).
  contradiction.
Defined.

(** X11. The offline page across the lifecycle. If the manifest lists
    [/offline.html] and the server delivers it, then after installation
    and activation a navigation that [networkFirst] can neither fetch nor
    find in its cache is answered with the precached offline page, an ok
    response that came from the network. *)
Theorem offline_page_after_install
    (env env' : Env) (urls : list string) (w : World)
    (request : Request) (cacheName : string) :
  In "/offline.html" urls ->
  always_storable env Optimized.RAVAN_FASHION_CACHE_STATIC "/offline.html" ->
  String.eqb (mode request) "navigate" = true ->
  let installed := snd (Optimized.activate (snd (Optimized.install env urls w))) in
  cs_entry cacheName (url request) (caches installed) = None ->
  net env' (fetch_count (trace installed)) (url request) = NetReject ->
  exists page,
    fst (Optimized.networkFirst env' request cacheName installed)
    = Resolved (Some page) /\
    ok page = true /\
    exists i, net env i "/offline.html" = NetResp page.
Proof.
  intros Hin Hs Hnav installed Hmiss Hoff.
  destruct (install_stores env urls w "/offline.html" Hin Hs)
    as (page & Hpage & Hok & Hnet).
  exists page. split; [|auto].
  rewrite networkFirst_value. cbv zeta. rewrite Hoff, Hmiss, Hnav.
  f_equal. subst installed. unfold cs_entry.
  destruct (optimized_activate_caches (snd (Optimized.install env urls w))) as [_ ->].
  rewrite (cs_lookup_delete_filter
             (fun n => negb (Js.array_includes Optimized.RAVAN_FASHION_CACHE_values n))).
  exact Hpage.
Qed.

Lemma offline_page_after_install_witness :
  let env := mkEnv 0 (Examples.all_but "/nowhere") (fun _ _ _ => false)
               Examples.parse_date in
  let search := mkRequest "https://shop.example/search?q=veshti"
                  (mkURL "/search" "shop.example" [("q", "veshti")]) "navigate"
                  [("accept", "text/html")] in
  exists page,
    fst (Optimized.networkFirst Examples.two_hours_later search
           Optimized.RAVAN_FASHION_CACHE_API
           (snd (Optimized.activate
                   (snd (Optimized.install env Optimized.getPrecacheUrls
                           Examples.empty_world)))))
    = Resolved (Some page) /\
    ok page = true /\
    exists i, net env i "/offline.html" = NetResp page.
Proof.
  intros env search.
  apply (offline_page_after_install env Examples.two_hours_later
           Optimized.getPrecacheUrls Examples.empty_world search
           Optimized.RAVAN_FASHION_CACHE_API).
  - simpl. tauto.
  - intros i. eexists. repeat split; vm_compute; reflexivity.
  - reflexivity.
  - vm_compute. reflexivity.
  - reflexivity.
Defined.

(** ** The operations behind the control messages *)

(** X12. [cacheUrl] stores an ok response under the given URL in the named
    cache, the static cache when no name is given, creating the cache if
    need be; [clearCache] of that cache afterwards removes the entry with
    the cache. A response that is not ok is not stored. *)
Theorem cacheUrl_then_clearCache
    (env : Env) (u : string) (cacheName : option string) (w : World)
    (response : Response) :
  let name := default Optimized.RAVAN_FASHION_CACHE_STATIC cacheName in
  net env (fetch_count (trace w)) u = NetResp response ->
  let cached := snd (Optimized.cacheUrl env (Some u) cacheName w) in
  (ok response = true -> put_rejects env name u response = false ->
   cs_entry name u (caches cached) = Some response) /\
  (ok response = false ->
   forall n u', cs_entry n u' (caches cached) = cs_entry n u' (caches w)) /\
  cs_has name (caches (snd (Optimized.clearCache (Some name) cached))) = false /\
  cs_entry name u (caches (snd (Optimized.clearCache (Some name) cached))) = None.
Proof.
  intros name Hnet cached. subst cached.
  unfold Optimized.cacheUrl, Optimized.clearCache. fold name. munfold.
  rewrite Hnet. simpl.
  assert (Hgone : forall cs, cs_lookup name (cs_delete name cs) = None).
  { intros cs. now rewrite cs_lookup_delete, String.eqb_refl. }
  repeat split.
  - intros Hok Hput. rewrite Hok. simpl. rewrite Hput. simpl.
    apply cs_entry_put_same, cs_has_open.
  - intros Hok n u'. rewrite Hok. simpl. apply cs_entry_open.
  - unfold cs_has. now rewrite Hgone.
  - unfold cs_entry. now rewrite Hgone.
Qed.

Lemma cacheUrl_then_clearCache_witness :
  let served := mkResponse 200 "/assets/app.css" [] "asset" in
  let env := mkEnv 0 (fun _ _ => NetResp served) (fun _ _ _ => false) Examples.parse_date in
  cs_entry Optimized.RAVAN_FASHION_CACHE_STATIC "/assets/app.css"
    (caches (snd (Optimized.cacheUrl env (Some "/assets/app.css") None
                    Examples.empty_world)))
  = Some served.
Proof.
  intros served env.
  apply (cacheUrl_then_clearCache env "/assets/app.css" None Examples.empty_world served);
    reflexivity.
Defined.

(** X13. [clearCache] resolves for every name, also one that names no
    cache; afterwards the named cache does not exist, every other cache is
    as it was, and clearing again changes nothing. *)
Theorem clearCache_removes_only_named (cacheName : option string) (w : World) :
  let name := Js.to_string cacheName in
  let run := Optimized.clearCache cacheName w in
  fst run = Resolved tt /\
  cs_has name (caches (snd run)) = false /\
  (forall other, other <> name ->
                 cs_lookup other (caches (snd run)) = cs_lookup other (caches w)) /\
  caches (snd (Optimized.clearCache cacheName (snd run))) = caches (snd run).
Proof.
  cbv zeta. unfold Optimized.clearCache. munfold. repeat split.
  - unfold cs_has. now rewrite cs_lookup_delete, String.eqb_refl.
  - intros other Hne. rewrite cs_lookup_delete.
    destruct (String.eqb_spec (Js.to_string cacheName) other); congruence.
  - rewrite !cs_delete_filter. apply filter_idem.
Qed.

Lemma clearCache_removes_only_named_witness :
  cs_lookup Legacy.IMAGE_CACHE
    (caches (snd (Optimized.clearCache (Some Examples.foreign_cache)
                    Examples.with_foreign_cache)))
  = cs_lookup Legacy.IMAGE_CACHE (caches Examples.with_foreign_cache).
Proof.
  apply (clearCache_removes_only_named (Some Examples.foreign_cache)
           Examples.with_foreign_cache).
  vm_compute. discriminate.
Defined.

Section Stats.

(** [calculateCacheSize] only reads. *)
Lemma calculateCacheSize_reads (keys : list string) (total : nat) (w : World) :
  exists size, Optimized.calculateCacheSize keys total w = (Resolved size, w).
Proof.
  revert total. induction keys as [|key keys IH]; intros total; simpl.
  - now exists total.
  - munfold. unfold caches_match.
    destruct (cs_match_any key (caches w)) as [r|]; simpl; apply IH.
Qed.

(** Opening each name in turn. *)
Lemma cs_lookup_open_all name (names : list string) (cs : CacheStorage) :
  cs_lookup name (fold_left (fun cs n => cs_open n cs) names cs) =
  match cs_lookup name cs with
  | Some c => Some c
  | None => if Js.array_includes names name then Some ∅ else None
  end.
Proof.
  unfold Js.array_includes. revert cs.
  induction names as [|n names IH]; intros cs; simpl.
  - now destruct (cs_lookup name cs).
  - rewrite IH, cs_lookup_open, (String.eqb_sym name n).
    destruct (cs_lookup name cs); [reflexivity|].
    destruct (String.eqb n name); simpl; [reflexivity|].
    reflexivity.
Qed.

Lemma entry_count_open name n (cs : CacheStorage) :
  entry_count name (cs_open n cs) = entry_count name cs.
Proof.
  unfold entry_count. rewrite cs_lookup_open.
  destruct (cs_lookup name cs); [reflexivity|].
  destruct (String.eqb n name); [apply map_size_empty | reflexivity].
Qed.

Lemma getCacheStats_loop_spec (names : list string) (stats : Stats) (w : World) :
  exists entries,
    Optimized.getCacheStats_loop names stats w =
    (Resolved (stats ++ entries),
     mkWorld (fold_left (fun cs n => cs_open n cs) names (caches w))
       (trace w) (pending w)) /\
    map (fun e => (fst e, fst (snd e))) entries =
    map (fun n => (n, entry_count n (caches w))) names.
Proof.
  revert stats w. induction names as [|n names IH]; intros stats w; simpl.
  - exists []. rewrite app_nil_r. unfold ret. now rewrite world_eta.
  - munfold. unfold cache_keys. cbn [caches trace pending].
    match goal with
    | |- context [Optimized.calculateCacheSize ?keys 0%nat ?w1] =>
        destruct (calculateCacheSize_reads keys 0%nat w1) as [size ->]
    end.
    simpl.
    match goal with
    | |- context [Optimized.getCacheStats_loop names ?st ?w1] =>
        destruct (IH st w1) as (entries & -> & Hcounts)
    end.
    cbn [caches trace pending] in *.
    eexists (_ :: entries). rewrite <- app_assoc. simpl.
    split; [reflexivity|]. rewrite Hcounts. f_equal.
    + f_equal. rewrite <- (entry_count_open n n). unfold entry_count.
      destruct (cs_lookup n (cs_open n (caches w))) as [c|]; [|reflexivity].
      now rewrite length_map, length_map_to_list.
    + apply map_ext. intros name. now rewrite entry_count_open.
Qed.

End Stats.

(** X14. [getCacheStats] never fails and never touches the network. It
    reports the five current caches in the order of [RAVAN_FASHION_CACHE],
    each with the number of entries it had, zero for a cache that did not
    exist; as a side effect every one of the five caches exists
    afterwards, and no entry of any cache has changed. *)
Theorem getCacheStats_counts (w : World) :
  exists stats w',
    Optimized.getCacheStats w = (Resolved stats, w') /\
    map (fun e => (fst e, fst (snd e))) stats =
    map (fun n => (n, entry_count n (caches w))) Optimized.RAVAN_FASHION_CACHE_values /\
    trace w' = trace w /\
    (forall name, In name Optimized.RAVAN_FASHION_CACHE_values ->
                  cs_has name (caches w') = true) /\
    (forall name u, cs_entry name u (caches w') = cs_entry name u (caches w)).
Proof.
  unfold Optimized.getCacheStats.
  destruct (getCacheStats_loop_spec Optimized.RAVAN_FASHION_CACHE_values [] w)
    as (entries & -> & Hcounts).
  eexists _, _. split; [reflexivity|]. cbn [caches trace].
  split; [exact Hcounts|]. split; [reflexivity|]. split.
  - intros name Hin. unfold cs_has. rewrite cs_lookup_open_all.
    destruct (cs_lookup name (caches w)); [reflexivity|].
    simpl in Hin. repeat (destruct Hin as [<-|Hin]; [reflexivity|]). contradiction.
  - intros name u. unfold cs_entry. rewrite cs_lookup_open_all.
    destruct (cs_lookup name (caches w)); [reflexivity|].
    destruct (Js.array_includes _ name); [apply lookup_empty | reflexivity].
Qed.

Lemma getCacheStats_counts_witness :
  exists stats w',
    Optimized.getCacheStats (Examples.static_holds Examples.css_response)
    = (Resolved stats, w') /\
    map (fun e => (fst e, fst (snd e))) stats =
    [(Optimized.RAVAN_FASHION_CACHE_STATIC, 1%nat);
     (Optimized.RAVAN_FASHION_CACHE_IMAGES, 0%nat);
     (Optimized.RAVAN_FASHION_CACHE_PAGES, 0%nat);
     (Optimized.RAVAN_FASHION_CACHE_API, 0%nat);
     (Optimized.RAVAN_FASHION_CACHE_RUNTIME, 0%nat)] /\
    cs_has Optimized.RAVAN_FASHION_CACHE_API (caches w') = true.
Proof.
  destruct (getCacheStats_counts (Examples.static_holds Examples.css_response))
    as (stats & w' & Hrun & Hcounts & _ & Hall & _).
  exists stats, w'. split; [exact Hrun|]. split; [exact Hcounts|].
  apply Hall. simpl. tauto.
Defined.

(** X15. Background sync reaches neither the server nor the caches: the
    stored cart, preferences and analytics it would send are placeholders
    that are always empty. [syncNow] only writes its two console lines,
    and [handleBackgroundSync] leaves the world as it is for every tag. *)
Theorem background_sync_sends_nothing (env : Env) (tag : string) (w : World) :
  Optimized.syncNow env w =
  (Resolved tt,
   mkWorld (caches w)
     ((trace w ++ [ELog "Starting background sync..."])
        ++ [ELog "Background sync completed"])
     (pending w)) /\
  Optimized.handleBackgroundSync env tag w = (Resolved tt, w).
Proof.
  split; [reflexivity|].
  unfold Optimized.handleBackgroundSync.
  destruct (String.eqb tag "cart-sync"); [reflexivity|].
  destruct (String.eqb tag "analytics-sync"); reflexivity.
Qed.

(** ** The page asking for a cleanup *)

(** X16. What the page-side manager posts after looking at the cache
    statistics is at most one message, [{ type: 'CLEANUP_CACHE' }], and
    it posts it exactly when the sizes add up to more than 50 MB and a
    worker is active. The worker does not know that type: handling the
    message deletes nothing and only writes a warning. *)
Theorem page_cleanup_request_is_ignored
    (env : Env) (stats : Stats) (p : Registration.Page) (w : World) :
  let cleanup := mkMessageEvent (DataObject (Some "CLEANUP_CACHE") None) [] in
  let over := (Z.of_nat (Registration.totalSize stats) >? 50 * 1024 * 1024)
              && Registration.active p in
  Registration.outbox (Registration.checkCacheHealth stats p) =
    Registration.outbox p ++ (if over then [cleanup] else []) /\
  Optimized.message env cleanup w =
    (Resolved tt,
     mkWorld (caches w) (trace w ++ [EWarn "Unknown message type:"]) (pending w)).
Proof.
  cbv zeta. split; [|reflexivity].
  unfold Registration.checkCacheHealth, Registration.cleanupCache,
    Registration.sendMessageToServiceWorker.
  destruct (Z.of_nat (Registration.totalSize stats) >? 50 * 1024 * 1024);
    cbn [andb Registration.active Registration.outbox].
  - destruct (Registration.active p); cbn [Registration.outbox];
      [reflexivity | now rewrite app_nil_r].
  - now rewrite app_nil_r.
Qed.

(** ** Classification by file extension *)

Lemma toLowerCase_app (a b : string) :
  Js.toLowerCase (a +:+ b) = Js.toLowerCase a +:+ Js.toLowerCase b.
Proof. induction a as [|x a IH]; simpl; [reflexivity | now rewrite IH]. Qed.

Lemma endsWith_app (p s : string) : Js.endsWith (p +:+ s) s = true.
Proof.
  induction p as [|x p IH].
  - change (Js.endsWith s s = true).
    destruct s as [|y s]; [reflexivity|].
    change ((if String.eqb (String y s) (String y s) then true
             else Js.endsWith s (String y s)) = true).
    now rewrite String.eqb_refl.
  - change ((if String.eqb (String x (p +:+ s)) s then true
             else Js.endsWith (p +:+ s) s) = true).
    destruct (String.eqb (String x (p +:+ s)) s); [reflexivity | exact IH].
Qed.

(** X17. File extensions decide first, in any letter case. A request
    whose path ends in [.css], [.js], [.woff], [.woff2], [.ttf] or [.eot]
    is served cache-first from the static cache, whatever its mode,
    headers or query; a request whose path ends in an image extension is
    served cache-first from the image cache unless it counts as a static
    asset. *)
Theorem extension_selects_cache_first
    (env : Env) (request : Request) (stem ext : string) :
  pathname (parsed request) = stem +:+ ext ->
  (In (Js.toLowerCase ext) [".css"; ".js"; ".woff"; ".woff2"; ".ttf"; ".eot"] ->
   Optimized.fetch env request
   = Optimized.cacheFirst env request Optimized.RAVAN_FASHION_CACHE_STATIC) /\
  (In (Js.toLowerCase ext) [".jpg"; ".jpeg"; ".png"; ".gif"; ".webp"; ".svg"] ->
   Optimized.isStaticAsset request = false ->
   Optimized.fetch env request
   = Optimized.cacheFirst env request Optimized.RAVAN_FASHION_CACHE_IMAGES).
Proof.
  intros Hpath.
  assert (Hends : Js.endsWith (Js.toLowerCase (pathname (parsed request)))
                    (Js.toLowerCase ext) = true)
    by (rewrite Hpath, toLowerCase_app; apply endsWith_app).
  split.
  - intros Hin. unfold Optimized.fetch, Optimized.handleStaticAsset.
    assert (Hs : Optimized.isStaticAsset request = true).
    { unfold Optimized.isStaticAsset, Js.some. apply orb_true_iff. left.
      apply existsb_exists. eauto. }
    now rewrite Hs.
  - intros Hin Hns. unfold Optimized.fetch, Optimized.handleImageRequest.
    assert (Hi : Optimized.isImageRequest request = true).
    { unfold Optimized.isImageRequest, Js.some. apply orb_true_iff. left.
      apply orb_true_iff. left. apply existsb_exists. eauto. }
    now rewrite Hns, Hi.
Qed.

Lemma extension_selects_cache_first_witness :
  let upper := mkRequest "https://shop.example/assets/THEME.CSS"
                 (mkURL "/assets/THEME.CSS" "shop.example" []) "navigate"
                 [("accept", "text/html")] in
  Optimized.fetch Examples.two_hours_later upper
  = Optimized.cacheFirst Examples.two_hours_later upper
      Optimized.RAVAN_FASHION_CACHE_STATIC.
Proof.
  intros upper.
  apply (extension_selects_cache_first Examples.two_hours_later upper
           "/assets/THEME" ".CSS" eq_refl).
  simpl. tauto.
Defined.

(** ** The earlier worker's handlers *)

Section LegacyHit.

Context (env : Env).

(** The shared shape of the two handlers with an age limit, on a hit. *)
Lemma cached_or_revalidate_spec (request : Request) (cacheName : string)
    (c : Response) (limit unit : Z) (w : World) :
  Legacy.cached_or_revalidate env request cacheName c limit unit w =
  if Legacy.js_age_lt (now env)
       (Legacy.js_Date (Date_parse env) (headers_get "date" (resp_headers c)))
       limit unit
  then (Resolved (Some c), w)
  else (Resolved (Some c),
        mkWorld (caches w) (trace w ++ [EFetch (url request)])
          (pending w ++ [TLegacyRevalidate (url request) cacheName
                           (net env (fetch_count (trace w)) (url request))])).
Proof.
  unfold Legacy.cached_or_revalidate.
  destruct (Legacy.js_age_lt _ _ _ _); reflexivity.
Qed.

Lemma handleAssetRequest_hit (request : Request) (w : World) (c : Response) :
  cs_entry Legacy.RAVAN_FASHION_CACHE (url request) (caches w) = Some c ->
  Legacy.handleAssetRequest env request w =
  Legacy.cached_or_revalidate env request Legacy.RAVAN_FASHION_CACHE c 24
    (1000 * 60 * 60) w.
Proof.
  intros Hc. unfold Legacy.handleAssetRequest.
  unfold bind at 1, caches_open at 1. unfold bind at 1, cache_match at 1.
  cbn [caches trace pending].
  now rewrite (cs_open_has _ _ (cs_entry_has _ _ _ _ Hc)), Hc, world_eta.
Qed.

Lemma handleImageRequest_hit (request : Request) (w : World) (c : Response) :
  cs_entry Legacy.IMAGE_CACHE (url request) (caches w) = Some c ->
  Legacy.handleImageRequest env request w =
  Legacy.cached_or_revalidate env request Legacy.IMAGE_CACHE c 7
    (1000 * 60 * 60 * 24) w.
Proof.
  intros Hc. unfold Legacy.handleImageRequest.
  unfold bind at 1, caches_open at 1. unfold bind at 1, cache_match at 1.
  cbn [caches trace pending].
  now rewrite (cs_open_has _ _ (cs_entry_has _ _ _ _ Hc)), Hc, world_eta.
Qed.

End LegacyHit.

(** X18. In the earlier worker the age limit belongs to the handler. A
    cached asset whose [date] header parses is returned untouched, with no
    fetch, while it is less than 24 hours old; at 24 hours or more it is
    still returned, and one revalidating fetch is started. For a cached
    image the limit is 7 days. *)
Theorem legacy_hit_by_age
    (env : Env) (request : Request) (w : World) (c : Response) (s : string) (d : Z) :
  headers_get "date" (resp_headers c) = Some s ->
  Date_parse env s = Some d ->
  let revalidating name :=
    (Resolved (Some c),
     mkWorld (caches w) (trace w ++ [EFetch (url request)])
       (pending w ++ [TLegacyRevalidate (url request) name
                        (net env (fetch_count (trace w)) (url request))])) in
  (cs_entry Legacy.RAVAN_FASHION_CACHE (url request) (caches w) = Some c ->
   Legacy.handleAssetRequest env request w =
   if now env - d <? 24 * 60 * 60 * 1000 then (Resolved (Some c), w)
   else revalidating Legacy.RAVAN_FASHION_CACHE) /\
  (cs_entry Legacy.IMAGE_CACHE (url request) (caches w) = Some c ->
   Legacy.handleImageRequest env request w =
   if now env - d <? 7 * 24 * 60 * 60 * 1000 then (Resolved (Some c), w)
   else revalidating Legacy.IMAGE_CACHE).
Proof.
  intros Hs Hd revalidating. subst revalidating. split; intros Hc.
  - rewrite (handleAssetRequest_hit env _ _ _ Hc), cached_or_revalidate_spec.
    rewrite Hs. unfold Legacy.js_Date, Legacy.js_age_lt. rewrite Hd.
    reflexivity.
  - rewrite (handleImageRequest_hit env _ _ _ Hc), cached_or_revalidate_spec.
    rewrite Hs. unfold Legacy.js_Date, Legacy.js_age_lt. rewrite Hd.
    reflexivity.
Qed.

Lemma legacy_hit_by_age_witness :
  let w := mkWorld [(Legacy.RAVAN_FASHION_CACHE,
                     {[ Examples.app_css := Examples.css_response ]})] [] [] in
  Legacy.handleAssetRequest Examples.two_hours_later Examples.css_request w
  = (Resolved (Some Examples.css_response), w).
Proof.
  intros w.
  apply (legacy_hit_by_age Examples.two_hours_later Examples.css_request w
           Examples.css_response "Mon, 02 Nov 2026 10:00:00 GMT" 1793613600000);
    reflexivity.
Defined.

(** X19. In the earlier worker a cached response without a [date] header
    counts as stored at the epoch: once the clock is a day past it, every
    hit on such an asset returns the entry and starts a revalidating
    fetch. *)
Theorem legacy_undated_always_revalidated
    (env : Env) (request : Request) (w : World) (c : Response) :
  headers_get "date" (resp_headers c) = None ->
  24 * 60 * 60 * 1000 <= now env ->
  cs_entry Legacy.RAVAN_FASHION_CACHE (url request) (caches w) = Some c ->
  Legacy.handleAssetRequest env request w =
  (Resolved (Some c),
   mkWorld (caches w) (trace w ++ [EFetch (url request)])
     (pending w ++ [TLegacyRevalidate (url request) Legacy.RAVAN_FASHION_CACHE
                      (net env (fetch_count (trace w)) (url request))])).
Proof.
  intros Hs Hnow Hc.
  rewrite (handleAssetRequest_hit env _ _ _ Hc), cached_or_revalidate_spec.
  rewrite Hs. unfold Legacy.js_Date, Legacy.js_age_lt.
  replace (now env - 0 <? 24 * (1000 * 60 * 60)) with false; [reflexivity|].
  symmetry. apply Z.ltb_ge. lia.
Qed.

Lemma legacy_undated_always_revalidated_witness :
  let w := mkWorld [(Legacy.RAVAN_FASHION_CACHE,
                     {[ Examples.app_css := Examples.css_undated ]})] [] [] in
  fetched (trace (snd (Legacy.handleAssetRequest Examples.two_hours_later
                         Examples.css_request w)))
  = [Examples.app_css].
Proof.
  intros w.
  rewrite (legacy_undated_always_revalidated Examples.two_hours_later
             Examples.css_request w Examples.css_undated).
  - reflexivity.
  - reflexivity.
  - vm_compute. discriminate.
  - reflexivity.
Defined.

(** X20. [handleFontRequest] always resolves with a response object. A
    cached font is returned as it is, whatever its age, leaving the world
    untouched; without an entry and with the fetch rejected the answer is
    the response [new Response('', {status: 200})]: status 200, an empty
    body, and the content type [text/plain;charset=UTF-8] that a string
    body brings. *)
Theorem legacy_font_always_answered (env : Env) (request : Request) (w : World) :
  (exists r w', Legacy.handleFontRequest env request w = (Resolved (Some r), w')) /\
  (forall c, cs_entry Legacy.FONT_CACHE (url request) (caches w) = Some c ->
             Legacy.handleFontRequest env request w = (Resolved (Some c), w)) /\
  (cs_entry Legacy.FONT_CACHE (url request) (caches w) = None ->
   net env (fetch_count (trace w)) (url request) = NetReject ->
   fst (Legacy.handleFontRequest env request w)
   = Resolved (Some (mkResponse 200 "" [("content-type", "text/plain;charset=UTF-8")] ""))).
Proof.
  unfold Legacy.handleFontRequest, Legacy.put_unawaited. split; [|split].
  - munfold.
    destruct (cs_entry Legacy.FONT_CACHE (url request) _); simpl; [eauto|].
    destruct (net env (fetch_count (trace w)) (url request)) as [|r]; simpl; [eauto|].
    destruct (ok r); simpl; eauto.
  - intros c Hc. munfold.
    now rewrite (cs_open_has _ _ (cs_entry_has _ _ _ _ Hc)), Hc, world_eta.
  - intros Hmiss Hnet. munfold. rewrite cs_entry_open, Hmiss. simpl.
    now rewrite Hnet.
Qed.

Lemma legacy_font_always_answered_witness :
  fst (Legacy.handleFontRequest Examples.two_hours_later Examples.css_request
         Examples.empty_world)
  = Resolved (Some (mkResponse 200 "" [("content-type", "text/plain;charset=UTF-8")] "")).
Proof.
  apply (legacy_font_always_answered Examples.two_hours_later Examples.css_request
           Examples.empty_world); reflexivity.
Defined.

(** X21. The earlier worker does not wait for its cache writes. On a miss
    answered with an ok response [handleAssetRequest] resolves with the
    response while the cache still has no entry; the write is pending.
    When the pending work has run the entry is there if the cache
    accepted it; if the cache refused, nothing catches the rejection and
    it ends as an unhandled rejection. *)
Theorem legacy_miss_fills_cache_later
    (env : Env) (request : Request) (w : World) (r : Response) :
  cs_entry Legacy.RAVAN_FASHION_CACHE (url request) (caches w) = None ->
  net env (fetch_count (trace w)) (url request) = NetResp r ->
  ok r = true ->
  let run := Legacy.handleAssetRequest env request w in
  fst run = Resolved (Some r) /\
  cs_entry Legacy.RAVAN_FASHION_CACHE (url request) (caches (snd run)) = None /\
  pending (snd run)
  = pending w ++ [TLegacyPut (url request) Legacy.RAVAN_FASHION_CACHE r] /\
  (put_rejects env Legacy.RAVAN_FASHION_CACHE (url request) r = false ->
   cs_entry Legacy.RAVAN_FASHION_CACHE (url request)
     (caches (run_pending env (snd run))) = Some r) /\
  (put_rejects env Legacy.RAVAN_FASHION_CACHE (url request) r = true ->
   last (trace (run_pending env (snd run))) = Some (EUnhandled StorageError)).
Proof.
  intros Hmiss Hnet Hok run.
  assert (Hrun : run =
    (Resolved (Some r),
     mkWorld (cs_open Legacy.RAVAN_FASHION_CACHE (caches w))
       (trace w ++ [EFetch (url request)])
       (pending w ++ [TLegacyPut (url request) Legacy.RAVAN_FASHION_CACHE r]))).
  { subst run. unfold Legacy.handleAssetRequest, Legacy.put_unawaited. munfold.
    rewrite cs_entry_open, Hmiss. simpl. rewrite Hnet. simpl. now rewrite Hok. }
  rewrite Hrun. cbn [fst snd caches pending trace].
  split; [reflexivity|]. split; [now rewrite cs_entry_open|]. split; [reflexivity|].
  unfold run_pending. cbn [pending caches trace]. rewrite run_tasks_app.
  set (w1 := run_tasks env (pending w) _).
  assert (Hhas : cs_has Legacy.RAVAN_FASHION_CACHE (caches w1) = true)
    by (apply run_tasks_has, cs_has_open).
  simpl. unfold settle, Legacy.put_resume, cache_put.
  split; intros Hput; rewrite Hput; cbn [caches trace].
  - now apply cs_entry_put_same.
  - apply last_snoc.
Qed.

Lemma legacy_miss_fills_cache_later_witness :
  let served := mkResponse 200 Examples.theme_js [] "asset" in
  let env := mkEnv 0 (fun _ _ => NetResp served) (fun _ _ _ => false) Examples.parse_date in
  cs_entry Legacy.RAVAN_FASHION_CACHE Examples.theme_js
    (caches (run_pending env
               (snd (Legacy.handleAssetRequest env Examples.js_request
                       Examples.empty_world))))
  = Some served.
Proof.
  intros served env.
  destruct (legacy_miss_fills_cache_later env Examples.js_request Examples.empty_world
              served) as (_ & _ & _ & H & _).
  - reflexivity.
  - reflexivity.
  - reflexivity.
  - apply H. reflexivity.
Defined.

(** ** The earlier worker's background sync and message listener *)

Section LegacySync.

Context (env : Env).

Lemma promise_all_sync_cons (s : NetResult) (rest : list (M unit)) (w : World) :
  Legacy.promise_all (Legacy.sync_callback s :: rest) w =
  match s with
  | NetReject => (Rejected NetworkError, snd (Legacy.promise_all rest w))
  | NetResp r =>
      if ok r then
        (Rejected TypeError,
         snd (Legacy.promise_all rest
                (mkWorld (cs_open Legacy.RAVAN_FASHION_CACHE (caches w))
                   (trace w) (pending w))))
      else Legacy.promise_all rest w
  end.
Proof.
  simpl. unfold Legacy.sync_callback.
  destruct s as [|r]; [reflexivity|]. destruct (ok r); reflexivity.
Qed.

(** The callbacks of [syncCulturalContent] open caches at most. *)
Lemma sync_callbacks_store_nothing (settled : list NetResult) (w : World) :
  let run := Legacy.promise_all (map (Legacy.sync_callback) settled) w in
  fetched (trace (snd run)) = fetched (trace w) /\
  trace (snd run) = trace w /\
  (forall name u, cs_entry name u (caches (snd run)) = cs_entry name u (caches w)) /\
  ((exists r, In (NetResp r) settled /\ ok r = true) -> exists e, fst run = Rejected e).
Proof.
  cbv zeta. revert w. induction settled as [|s settled IH]; intros w.
  - simpl. repeat split. intros (r & [] & _).
  - cbn [map]. rewrite promise_all_sync_cons.
    destruct s as [|r]; [|destruct (ok r) eqn:Hok].
    + destruct (IH w) as (Hf & Ht & Hc & Hr).
      cbn [fst snd]. split; [|split; [|split]]; eauto.
    + match goal with
      | |- context [Legacy.promise_all _ ?w1] =>
          destruct (IH w1) as (Hf & Ht & Hc & Hr)
      end.
      cbn [fst snd caches trace pending] in *. split; [|split; [|split]]; eauto.
      intros name u. now rewrite Hc, cs_entry_open.
    + destruct (IH w) as (Hf & Ht & Hc & Hr).
      split; [|split; [|split]]; auto.
      intros (r' & [Heq|Hin] & Hok').
      * injection Heq as <-. congruence.
      * apply Hr. eauto.
Qed.

End LegacySync.

(** X22. [syncCulturalContent] fetches its three URLs and always
    resolves, but never stores a response: [caches.open] is not awaited,
    so the [cache.put] on its result throws. No entry of any cache
    changes, and as soon as one of the URLs is answered with an ok
    response the run ends in the [catch] block, its last console line
    being the failure report. *)
Theorem legacy_sync_stores_nothing (env : Env) (w : World) :
  let run := Legacy.syncCulturalContent env w in
  fst run = Resolved tt /\
  fetched (trace (snd run)) = fetched (trace w) ++ Legacy.syncUrls /\
  (forall name u, cs_entry name u (caches (snd run)) = cs_entry name u (caches w)) /\
  ((forall i u, exists r, net env i u = NetResp r /\ ok r = true) ->
   last (trace (snd run)) = Some (EWarn "Background sync failed:")).
Proof.
  cbv zeta. unfold Legacy.syncCulturalContent, try_catch.
  destruct (fetch_all_spec env Legacy.syncUrls w) as (Hc & _ & Hf & Hnet).
  destruct (fetch_all env Legacy.syncUrls w) as [settled w1].
  cbn [fst snd] in Hc, Hf, Hnet.
  destruct (sync_callbacks_store_nothing settled w1) as (Hf' & _ & Hc' & Hrej).
  destruct (Legacy.promise_all (map Legacy.sync_callback settled) w1)
    as [[[]|e] w2]; cbn [fst snd] in *.
  - repeat split.
    + now rewrite Hf', Hf.
    + intros name u. now rewrite Hc', Hc.
    + intros Hup. exfalso.
      inversion Hnet as [|u0 s0 us ss [i Hi] _ Hu Hs].
      destruct (Hup i u0) as (r & Hr & Hok).
      destruct Hrej as [e He]; [|discriminate].
      exists r. split; [|exact Hok]. rewrite <- Hs. left. congruence.
  - unfold Legacy.console_error, emit. cbn [fst snd trace caches]. repeat split.
    + now rewrite fetched_app, Hf', Hf, app_nil_r.
    + intros name u. now rewrite Hc', Hc.
    + intros _. apply last_snoc.
Qed.

Lemma legacy_sync_stores_nothing_witness :
  let env := mkEnv 0 (fun _ u => NetResp (mkResponse 200 u [] "[]"))
               (fun _ _ _ => false) Examples.parse_date in
  last (trace (snd (Legacy.syncCulturalContent env Examples.empty_world)))
  = Some (EWarn "Background sync failed:").
Proof.
  intros env.
  apply (legacy_sync_stores_nothing env Examples.empty_world).
  intros i u. eexists. split; reflexivity.
Defined.

(** X23. The message listener of the earlier worker resolves for every
    message, also [null], and ignores what it does not know: a [null]
    message and a message whose type is neither [SKIP_WAITING] nor
    [CLEAN_CACHE] leave caches, console and pending work exactly as they
    were. On [SKIP_WAITING] it calls [skipWaiting] and nothing else. On
    [CLEAN_CACHE] it removes every cache whose name starts with
    [ravan-fashion-], the worker's own four current caches included, and
    keeps all others in order. *)
Theorem legacy_clean_cache (event : MessageEvent) (w : World) :
  (exists w', Legacy.message event w = (Resolved tt, w')) /\
  (ev_data event = DataNullish -> Legacy.message event w = (Resolved tt, w)) /\
  (forall data,
     ev_data event = DataObject (Some "CLEAN_CACHE") data ->
     Legacy.message event w =
     (Resolved tt,
      mkWorld
        (List.filter (fun kv => negb (Js.startsWith (fst kv) "ravan-fashion-"))
           (caches w))
        (trace w) (pending w))) /\
  Forall (fun own => Js.startsWith own "ravan-fashion-" = true) Legacy.own_caches /\
  (forall data,
     ev_data event = DataObject (Some "SKIP_WAITING") data ->
     Legacy.message event w =
     (Resolved tt, mkWorld (caches w) (trace w ++ [ESkipWaiting]) (pending w))) /\
  (forall type data,
     ev_data event = DataObject type data ->
     type <> Some "SKIP_WAITING" -> type <> Some "CLEAN_CACHE" ->
     Legacy.message event w = (Resolved tt, w)).
Proof.
  assert (Hclean :
    (let* cacheNames := caches_keys in
     for_of cacheNames (fun cacheName =>
       if Js.startsWith cacheName "ravan-fashion-" then caches_delete cacheName
       else ret tt)) w =
    (Resolved tt,
     mkWorld
       (List.filter (fun kv => negb (Js.startsWith (fst kv) "ravan-fashion-"))
          (caches w))
       (trace w) (pending w))).
  { unfold bind, caches_keys.
    rewrite (for_of_delete_if (fun n => Js.startsWith n "ravan-fashion-")).
    now rewrite cs_delete_where. }
  split; [|split; [|split; [|split; [|split]]]].
  - unfold Legacy.message.
    destruct (ev_data event) as [|[t|] data]; [unfold ret; eauto| |unfold ret; eauto].
    destruct (String.eqb t "SKIP_WAITING"); [unfold emit; eauto|].
    destruct (String.eqb t "CLEAN_CACHE"); [rewrite Hclean; eauto | unfold ret; eauto].
  - intros Hd. unfold Legacy.message. now rewrite Hd.
  - intros data Hd. unfold Legacy.message. rewrite Hd.
    change (String.eqb "CLEAN_CACHE" "SKIP_WAITING") with false.
    change (String.eqb "CLEAN_CACHE" "CLEAN_CACHE") with true.
    cbv iota. exact Hclean.
  - repeat constructor.
  - intros data Hd. unfold Legacy.message. now rewrite Hd.
  - intros type data Hd Hskip Hclean'. unfold Legacy.message. rewrite Hd.
    destruct type as [t|]; [|reflexivity].
    destruct (String.eqb_spec t "SKIP_WAITING") as [->|_]; [now contradiction Hskip|].
    destruct (String.eqb_spec t "CLEAN_CACHE") as [->|_]; [now contradiction Hclean'|].
    reflexivity.
Qed.

Lemma legacy_clean_cache_witness :
  Legacy.message (mkMessageEvent (DataObject (Some "CLEAN_CACHE") None) [])
    Examples.with_foreign_cache
  = (Resolved tt, mkWorld [(Examples.foreign_cache, ∅)] [] []).
Proof.
  exact (proj1 (proj2 (proj2
           (legacy_clean_cache
              (mkMessageEvent (DataObject (Some "CLEAN_CACHE") None) [])
              Examples.with_foreign_cache)))
           None eq_refl).
Defined.

(** ** The page's performance log *)

(** X24. [storePerformanceMetrics] appends the new entry and keeps the
    log at 100 entries at most: the stored list is the last
    [min (n + 1) 100] entries of the old list followed by the new entry,
    which is always the last one. *)
Theorem storePerformanceMetrics_bounded {A} (metrics : A) (storedMetrics : list A) :
  let stored := Registration.storePerformanceMetrics metrics storedMetrics in
  length stored = Nat.min (length storedMetrics + 1) 100 /\
  last stored = Some metrics /\
  exists dropped, storedMetrics ++ [metrics] = dropped ++ stored.
Proof.
  cbv zeta. unfold Registration.storePerformanceMetrics, Registration.keep_last_100.
  rewrite length_app. cbn [length].
  destruct (Nat.ltb_spec 100 (length storedMetrics + 1)) as [Hlt|Hle].
  - rewrite drop_app_le by lia. repeat split.
    + rewrite length_app, length_drop. cbn [length]. lia.
    + apply last_snoc.
    + exists (take (length storedMetrics + 1 - 100) storedMetrics).
      now rewrite app_assoc, take_drop.
  - repeat split.
    + rewrite length_app. cbn [length]. lia.
    + apply last_snoc.
    + now exists [].
Qed.

(** ** The earlier worker: network-first, failed revalidation, CSS fallback *)

(** X25. What [handleNetworkFirstRequest] settles with. A response the
    network delivers is the value, whatever its status. When the fetch
    rejects the cached entry is the value; without one, a request that
    accepts [text/html] gets the built-in offline page, and any other
    request gets the rejection of the fetch. The offline page is the
    template literal of the source: status 200, content type
    [text/html], a body of 1090 bytes. *)
Theorem legacy_networkFirst_value (env : Env) (request : Request) (w : World) :
  status Legacy.offline_page = 200 /\
  headers_get "content-type" (resp_headers Legacy.offline_page) = Some "text/html" /\
  String.length (body Legacy.offline_page) = 1090%nat /\
  fst (Legacy.handleNetworkFirstRequest env request w) =
  match net env (fetch_count (trace w)) (url request) with
  | NetResp r => Resolved (Some r)
  | NetReject =>
      match cs_entry Legacy.RAVAN_FASHION_CACHE (url request) (caches w) with
      | Some c => Resolved (Some c)
      | None =>
          match headers_get "accept" (req_headers request) with
          | Some a =>
              if Js.includes a "text/html" then Resolved (Some Legacy.offline_page)
              else Rejected NetworkError
          | None => Rejected NetworkError
          end
      end
  end.
Proof.
  split; [reflexivity|]. split; [reflexivity|]. split; [vm_compute; reflexivity|].
  unfold Legacy.handleNetworkFirstRequest, Legacy.put_unawaited. munfold.
  destruct (net env (fetch_count (trace w)) (url request)) as [|r]; simpl.
  - rewrite cs_entry_open.
    destruct (cs_entry Legacy.RAVAN_FASHION_CACHE (url request) (caches w));
      [reflexivity|].
    destruct (headers_get "accept" (req_headers request)) as [a|]; [|reflexivity].
    now destruct (Js.includes a "text/html").
  - now destruct (ok r).
Qed.

(** X26. A revalidation of the earlier worker has no [catch]. When an
    asset at least 24 hours old is served from the cache while the network
    is down, the caller still gets the cached response, and the rejected
    fetch surfaces as an unhandled rejection once the pending work runs. *)
Theorem legacy_failed_revalidation_unhandled
    (env : Env) (request : Request) (w : World) (c : Response) (s : string) (d : Z) :
  cs_entry Legacy.RAVAN_FASHION_CACHE (url request) (caches w) = Some c ->
  headers_get "date" (resp_headers c) = Some s ->
  Date_parse env s = Some d ->
  24 * 60 * 60 * 1000 <= now env - d ->
  net env (fetch_count (trace w)) (url request) = NetReject ->
  let run := Legacy.handleAssetRequest env request w in
  fst run = Resolved (Some c) /\
  last (trace (run_pending env (snd run))) = Some (EUnhandled NetworkError).
Proof.
  intros Hc Hs Hd Hage Hnet run. subst run.
  rewrite (handleAssetRequest_hit env _ _ _ Hc), cached_or_revalidate_spec.
  rewrite Hs. unfold Legacy.js_Date, Legacy.js_age_lt. rewrite Hd.
  replace (now env - d <? 24 * (1000 * 60 * 60)) with false
    by (symmetry; apply Z.ltb_ge; lia).
  rewrite Hnet. cbn [fst snd]. split; [reflexivity|].
  unfold run_pending. cbn [pending caches trace]. rewrite run_tasks_app.
  simpl. unfold settle. simpl. apply last_snoc.
Qed.

Lemma legacy_failed_revalidation_unhandled_witness :
  let w := mkWorld [(Legacy.RAVAN_FASHION_CACHE,
                     {[ Examples.app_css := Examples.css_response ]})] [] [] in
  let two_days_later :=
    mkEnv (1793613600000 + 48 * 60 * 60 * 1000) Examples.offline_net
      (fun _ _ _ => false) Examples.parse_date in
  last (trace (run_pending two_days_later
                 (snd (Legacy.handleAssetRequest two_days_later
                         Examples.css_request w))))
  = Some (EUnhandled NetworkError).
Proof.
  intros w two_days_later.
  apply (legacy_failed_revalidation_unhandled two_days_later Examples.css_request w
           Examples.css_response "Mon, 02 Nov 2026 10:00:00 GMT" 1793613600000).
  - reflexivity.
  - reflexivity.
  - reflexivity.
  - vm_compute. discriminate.
  - reflexivity.
Defined.

Section LegacyInstall.

Context (env : Env).

(** [addAll] on one cache leaves the entries of every other cache alone. *)
Lemma cache_addAll_other (name : string) (urls : list string) (w : World)
    (other u : string) :
  other <> name ->
  cs_entry other u (caches (snd (cache_addAll env name urls w)))
  = cs_entry other u (caches w).
Proof.
  intros Hne. unfold cache_addAll.
  destruct (fetch_all_spec env urls w) as (Hc & _).
  destruct (fetch_all env urls w) as [rs w1]. cbn [fst snd] in Hc.
  destruct (all_ok rs) as [resps|]; [|now rewrite <- Hc].
  destruct (existsb _ _); cbn [snd caches]; [now rewrite <- Hc|].
  rewrite cs_entry_update, Hc.
  destruct (String.eqb_spec name other); [congruence | reflexivity].
Qed.

(** When the critical manifest can be fetched and stored, it is in the
    critical cache after the install listener has run, however the image
    manifest fares. *)
Lemma legacy_install_critical (w : World) (u : string) :
  (forall u, In u Legacy.CRITICAL_ASSETS ->
             always_storable env Legacy.CRITICAL_CACHE u) ->
  In u Legacy.CRITICAL_ASSETS ->
  stored_from_net env Legacy.CRITICAL_CACHE u (snd (Legacy.install env w)).
Proof.
  intros Hs Hin. unfold Legacy.install.
  unfold bind at 1, emit at 1. cbn [Legacy.promise_all].
  unfold bind at 1, caches_open at 1.
  match goal with
  | |- context [cache_addAll env Legacy.CRITICAL_CACHE Legacy.CRITICAL_ASSETS ?w1] =>
      destruct (cache_addAll_spec env Legacy.CRITICAL_CACHE Legacy.CRITICAL_ASSETS w1
                  (cs_has_open _ _)) as (_ & _ & _ & Hnew & Hres & _);
      specialize (Hres Hs); specialize (Hnew Hres u Hin);
      destruct (cache_addAll env Legacy.CRITICAL_CACHE Legacy.CRITICAL_ASSETS w1)
        as [[[]|e1] w1']
  end; [|discriminate].
  cbn [fst snd] in *.
  destruct Hnew as (r & Hr & Hok & Hnet). exists r. split; [|auto].
  rewrite <- Hr.
  assert (Himg : forall w2,
    cs_entry Legacy.CRITICAL_CACHE u
      (caches (snd ((do* caches_open Legacy.IMAGE_CACHE in
                     cache_addAll env Legacy.IMAGE_CACHE Legacy.CULTURAL_IMAGES) w2)))
    = cs_entry Legacy.CRITICAL_CACHE u (caches w2)).
  { intros w2. unfold bind, caches_open.
    rewrite cache_addAll_other by discriminate. cbn [caches]. apply cs_entry_open. }
  specialize (Himg w1').
  destruct ((do* caches_open Legacy.IMAGE_CACHE in
             cache_addAll env Legacy.IMAGE_CACHE Legacy.CULTURAL_IMAGES) w1')
    as [[[]|e2] w2']; exact Himg.
Qed.

End LegacyInstall.

(** X27. The CSS fallback of the earlier worker. If the critical manifest
    could be fetched and stored at install time, then a request whose URL
    contains [.css], which is neither cached nor fetchable, is answered
    with the stored [/assets/ravan-fashion-critical.css], an ok response
    that came from the network. *)
Theorem legacy_css_fallback_after_install
    (env env' : Env) (request : Request) (w : World) :
  (forall u, In u Legacy.CRITICAL_ASSETS ->
             always_storable env Legacy.CRITICAL_CACHE u) ->
  Js.includes (url request) ".css" = true ->
  let installed := snd (Legacy.install env w) in
  cs_entry Legacy.RAVAN_FASHION_CACHE (url request) (caches installed) = None ->
  net env' (fetch_count (trace installed)) (url request) = NetReject ->
  exists css,
    fst (Legacy.handleAssetRequest env' request installed) = Resolved (Some css) /\
    ok css = true /\
    exists i, net env i "/assets/ravan-fashion-critical.css" = NetResp css.
Proof.
  intros Hs Hcss installed Hmiss Hoff.
  destruct (legacy_install_critical env w "/assets/ravan-fashion-critical.css" Hs)
    as (css & Hentry & Hok & Hnet); [simpl; tauto|].
  fold installed in Hentry.
  exists css. split; [|auto].
  unfold Legacy.handleAssetRequest. munfold.
  rewrite cs_entry_open, Hmiss. simpl. rewrite Hoff. simpl. rewrite Hcss.
  simpl. now rewrite !cs_entry_open, Hentry.
Qed.

Lemma legacy_css_fallback_after_install_witness :
  let env := mkEnv 0 (Examples.all_but "/files/silk-texture.jpg") (fun _ _ _ => false)
               Examples.parse_date in
  exists css,
    fst (Legacy.handleAssetRequest Examples.two_hours_later Examples.css_request
           (snd (Legacy.install env Examples.empty_world)))
    = Resolved (Some css) /\
    ok css = true /\
    exists i, net env i "/assets/ravan-fashion-critical.css" = NetResp css.
Proof.
  intros env.
  apply (legacy_css_fallback_after_install env Examples.two_hours_later
           Examples.css_request Examples.empty_world).
  - intros u Hin i. simpl in Hin.
    repeat (destruct Hin as [<-|Hin];
            [eexists; repeat split; vm_compute; reflexivity|]).
    contradiction.
  - reflexivity.
  - vm_compute. reflexivity.
  - reflexivity.
Defined.
